(** * Infortrend checkmk plugin: status decoding, metrics and row parsing

    A shallow embedding of the parse, discovery and check functions of
    [infortrend/agent_based] (chassis sensors, disks and logical drives, in
    the two dialects A and B), followed by the properties of the
    specification that concern them and by further properties of the code.

    Python values of type [int | Literal['']] are kept as they are in the
    source: an unbounded integer or the empty string.  The value of a metric
    is the float that the division of two integers yields, the binary64
    number nearest to the quotient.  A check function is a generator; its
    run is the list of what it yielded together with the way it ended,
    normally or by an exception. *)

From Stdlib Require Import ZArith List String Ascii Bool Lia QArith.
From Stdlib Require Import DecimalString.
From Equations Require Import Equations.
Import ListNotations.

Local Open Scope string_scope.
Local Open Scope Z_scope.

(** ** The fragment of Python the plugin uses *)

Module Py.

Inductive exn : Type :=
| KeyError
| TypeError
| ValueError
| IndexError
| ZeroDivisionError
| OverflowError.

(** The value of an expression: a result or a raised exception. *)
Inductive py (A : Type) : Type :=
| Ok (a : A)
| Raise (e : exn).
Arguments Ok {A} a.
Arguments Raise {A} e.

Definition py_bind {A B : Type} (c : py A) (k : A -> py B) : py B :=
  match c with
  | Ok a => k a
  | Raise e => Raise e
  end.

(** The run of a generator that yields values of type [E]. *)
Record gen (E A : Type) : Type := Gen {
  emitted : list E;
  outcome : py A;
}.
Arguments Gen {E A} emitted outcome.
Arguments emitted {E A} g.
Arguments outcome {E A} g.

Definition ret {E A : Type} (a : A) : gen E A := Gen [] (Ok a).

Definition yield {E : Type} (x : E) : gen E unit := Gen [x] (Ok tt).

Definition lift {E A : Type} (c : py A) : gen E A := Gen [] c.

Definition bind {E A B : Type} (g : gen E A) (k : A -> gen E B) : gen E B :=
  match outcome g with
  | Ok a => Gen (emitted g ++ emitted (k a))%list (outcome (k a))
  | Raise e => Gen (emitted g) (Raise e)
  end.

(** [for x in xs: body], the loop variables threaded as [s]. *)
Fixpoint for_each {A S : Type} (xs : list A) (body : A -> S -> py S) (s : S)
  : py S :=
  match xs with
  | [] => Ok s
  | x :: rest => py_bind (body x s) (for_each rest body)
  end.

(** [for x in xs: body] in a generator whose body yields. *)
Fixpoint for_yield {A E : Type} (xs : list A) (body : A -> gen E unit)
  : gen E unit :=
  match xs with
  | [] => ret tt
  | x :: rest => bind (body x) (fun _ => for_yield rest body)
  end.

(** [int | Literal['']] *)
Inductive int_or_empty : Type :=
| Int (z : Z)
| Empty.

(** [str(n)] for an integer: decimal digits, a minus sign when negative. *)
Definition str (z : Z) : string := NilZero.string_of_int (Z.to_int z).

(** [int(s)] on the plain decimal literals: an optional minus sign followed
    by digits.  The concrete runs below use it on such literals and on
    strings that hold no digit, for which [int] raises ValueError. *)
Definition int_of_decimal (s : string) : option Z :=
  option_map Z.of_int (NilZero.int_of_string s).

(** What an f-string prints for a value of [int | Literal['']]. *)
Definition format (x : int_or_empty) : string :=
  match x with
  | Int z => str z
  | Empty => ""
  end.

(** [x == n] against an integer literal: a string never equals an integer. *)
Definition eq_int (x : int_or_empty) (n : Z) : bool :=
  match x with
  | Int z => z =? n
  | Empty => false
  end.

(** [x in {n1, n2, ...}] *)
Definition in_set (x : int_or_empty) (ns : list Z) : bool :=
  existsb (eq_int x) ns.

(** [n == s] for an integer [n] and a string [s]: never equal. *)
Definition int_eq_str (n : Z) (s : string) : bool := false.

(** [x or n]: [x] unless it is falsy (0 or the empty string). *)
Definition or_ (x : int_or_empty) (n : Z) : Z :=
  match x with
  | Int z => if z =? 0 then n else z
  | Empty => n
  end.

(** [enumerate(xs)], counting from [i]. *)
Fixpoint enumerate_from {A : Type} (i : Z) (xs : list A) : list (Z * A) :=
  match xs with
  | [] => []
  | x :: rest => (i, x) :: enumerate_from (i + 1) rest
  end.

Definition enumerate {A : Type} (xs : list A) : list (Z * A) :=
  enumerate_from 0 xs.

(** [x & n]: [str & int] is a TypeError. *)
Definition and_ (x : int_or_empty) (n : Z) : py Z :=
  match x with
  | Int z => Ok (Z.land z n)
  | Empty => Raise TypeError
  end.

(** [x > n]: ordering a [str] against an [int] is a TypeError. *)
Definition gt (x : int_or_empty) (n : Z) : py bool :=
  match x with
  | Int z => Ok (n <? z)
  | Empty => Raise TypeError
  end.

(** A finite [float]: its sign and its magnitude, the exact value of a
    binary64 number.  The arithmetic below yields no infinity and no NaN:
    where an [int] is beyond the floats Python raises OverflowError. *)
Record float : Type := Float {
  negative : bool;
  magnitude : Q;
}.

(** The integer nearest to [n / d] for a positive [d], a tie going to the
    even one. *)
Definition round_half_even (n d : Z) : Z :=
  let q := n / d in
  let r := 2 * (n mod d) in
  if r <? d then q
  else if d <? r then q + 1
  else if Z.even q then q else q + 1.

(** [2 ^ e <= n / d], for positive [n] and [d]. *)
Definition pow2_le (e n d : Z) : bool :=
  if 0 <=? e then d * 2 ^ e <=? n else d <=? n * 2 ^ (- e).

(** The float nearest to [n / d], for [0 <= n] and [0 < d], a tie going to
    the even one: 53 bits are kept, the last of them worth no less than
    2^-1074, and a quotient that rounds to 2^1024 or more is beyond the
    floats. *)
Definition nearest_float (neg : bool) (n d : Z) : py float :=
  if n =? 0 then Ok (Float neg (inject_Z 0))
  else
    let e0 := Z.log2 n - Z.log2 d in
    let e := if pow2_le e0 n d then e0 else e0 - 1 in
    let ulp := Z.max (e - 52) (-1074) in
    let m := if 0 <=? ulp then round_half_even n (d * 2 ^ ulp)
             else round_half_even (n * 2 ^ (- ulp)) d in
    if (0 <=? ulp) && (2 ^ 1024 <=? m * 2 ^ ulp) then Raise OverflowError
    else Ok (Float neg
               (Qred (if 0 <=? ulp then inject_Z (m * 2 ^ ulp)
                      else Qmake m (Z.to_pos (2 ^ (- ulp)))))).

(** [x / d], true division of an [int] by an [int]: the float nearest to the
    quotient, OverflowError when that is beyond the floats,
    ZeroDivisionError for a zero divisor; a [str] cannot be divided. *)
Definition truediv (x : int_or_empty) (d : Z) : py float :=
  match x with
  | Int z =>
      if d =? 0 then Raise ZeroDivisionError
      else nearest_float (xorb (z <? 0) (d <? 0)) (Z.abs z) (Z.abs d)
  | Empty => Raise TypeError
  end.

(** [float(z)] for an [int], as the arithmetic converts it. *)
Definition float_of_int (z : Z) : py float :=
  nearest_float (z <? 0) (Z.abs z) 1.

(** A number: an [int] or a [float]. *)
Inductive number : Type :=
| IntNumber (z : Z)
| FloatNumber (f : float).

(** [size * 2 ** blocksize] for two [int]s.  With [0 <= blocksize] the power
    is an [int] and so is the product.  With a negative [blocksize] the
    power is the float [2.0 ** float(blocksize)], which is 2^blocksize down
    to 2^-1074 and 0.0 below, and the product is [float(size)] times it,
    rounded; either conversion raises OverflowError on an [int] beyond the
    floats. *)
Definition mul_pow2 (size blocksize : Z) : py number :=
  if 0 <=? blocksize then Ok (IntNumber (size * 2 ^ blocksize))
  else
    py_bind (float_of_int blocksize) (fun _ =>
    py_bind (float_of_int size) (fun f =>
    if -1074 <=? blocksize then
      py_bind (nearest_float (negative f) (Qnum (magnitude f))
                 (Zpos (Qden (magnitude f)) * 2 ^ (- blocksize)))
              (fun product => Ok (FloatNumber product))
    else Ok (FloatNumber (Float (negative f) (inject_Z 0))))).

(** [t[i]] on a 2-tuple *)
Definition tuple_getitem {A : Type} (t : A * A) (i : Z) : py A :=
  if i =? 0 then Ok (fst t)
  else if i =? 1 then Ok (snd t)
  else if i =? -1 then Ok (snd t)
  else if i =? -2 then Ok (fst t)
  else Raise IndexError.

(** [row[i]] on a list *)
Definition list_getitem {A : Type} (l : list A) (i : nat) : py A :=
  match nth_error l i with
  | Some a => Ok a
  | None => Raise IndexError
  end.

(** A [dict], in insertion order. *)
Section Dict.
Context {K V : Type} (eqb : K -> K -> bool).

Definition dict : Type := list (K * V).

Fixpoint get (d : dict) (k : K) : option V :=
  match d with
  | [] => None
  | (k', v) :: rest => if eqb k k' then Some v else get rest k
  end.

Definition getitem (d : dict) (k : K) : py V :=
  match get d k with
  | Some v => Ok v
  | None => Raise KeyError
  end.

Definition keys (d : dict) : list K := map fst d.

Definition contains (d : dict) (k : K) : bool :=
  match get d k with
  | Some _ => true
  | None => false
  end.

(** [d.setdefault(k, v)]: the first value stored under a key stays. *)
Definition setdefault (d : dict) (k : K) (v : V) : dict :=
  if contains d k then d else (d ++ [(k, v)])%list.
End Dict.
Arguments dict K V : clear implicits.

(** Dicts keyed by integers, looked up with a value that may be ['']: the
    empty string is equal to no integer key. *)
Definition get_int {V : Type} (d : dict Z V) (k : int_or_empty) : option V :=
  match k with
  | Int z => get Z.eqb d z
  | Empty => None
  end.

Definition getitem_int {V : Type} (d : dict Z V) (k : int_or_empty) : py V :=
  match get_int d k with
  | Some v => Ok v
  | None => Raise KeyError
  end.

Definition contains_int {V : Type} (d : dict Z V) (k : int_or_empty) : bool :=
  match get_int d k with
  | Some _ => true
  | None => false
  end.

End Py.

Import Py.

Declare Scope gen_scope.
Delimit Scope gen_scope with gen.
Notation "x <- c ;; k" := (bind c (fun x => k))
  (at level 61, c at next level, right associativity) : gen_scope.
Notation "c ;; k" := (bind c (fun _ => k))
  (at level 61, right associativity) : gen_scope.

Declare Scope py_scope.
Delimit Scope py_scope with py.
Notation "x <- c ;; k" := (py_bind c (fun x => k))
  (at level 61, c at next level, right associativity) : py_scope.

(** ** cmk.agent_based.v2: what a check function yields

    A [Result] and a [Metric] are kept as the check builds them, with the
    arguments it passes. *)

Inductive State : Type := OK | WARN | CRIT | UNKNOWN.

Inductive CheckOutput : Type :=
| Result (state : State) (summary : string)
| Metric (name : string) (value : float).

Definition CheckResult : Type := gen CheckOutput unit.

(** The [Result]s among the yielded values, in order. *)
Definition results (g : CheckResult) : list (State * string) :=
  flat_map (fun o => match o with
                     | Result st txt => [(st, txt)]
                     | Metric _ _ => []
                     end) (emitted g).

(** The [Metric]s among the yielded values, in order. *)
Definition metrics (g : CheckResult) : list (string * float) :=
  flat_map (fun o => match o with
                     | Result _ _ => []
                     | Metric n v => [(n, v)]
                     end) (emitted g).

(** What a discovery function yields: [Service(item=...)]. *)
Inductive DiscoveryOutput : Type :=
| Service (item : string).

Definition DiscoveryResult : Type := gen DiscoveryOutput unit.

(** ** core.py *)

Module Core.

Section Saveint.
(** [int(s)] on a string: an integer, or ValueError ([None]). *)
Variable int : string -> option Z.

Definition saveint (some_value : string) : int_or_empty :=
  match int some_value with
  | Some z => Int z
  | None => Empty
  end.
End Saveint.

(** [InfortrendChassisSensorTypeEnum], an IntEnum: members are integers. *)
Module InfortrendChassisSensorTypeEnum.
Definition POWER_SUPPLY : Z := 1.
Definition FAN : Z := 2.
Definition TEMPERATURE : Z := 3.
Definition UPS : Z := 4.
Definition VOLTAGE : Z := 5.
Definition CURRENT : Z := 6.
Definition DOOR : Z := 9.
Definition SPEAKER : Z := 10.
Definition BATTERY : Z := 11.
Definition LED : Z := 12.
Definition CBU : Z := 13.
Definition NET_IF : Z := 14.
Definition BACKPLANE : Z := 15.
Definition SLOT : Z := 17.
Definition ENCLOSURE_DRAWER : Z := 18.
Definition ENCLOSURE_MGMNT : Z := 31.

Definition members : list Z :=
  [POWER_SUPPLY; FAN; TEMPERATURE; UPS; VOLTAGE; CURRENT; DOOR; SPEAKER;
   BATTERY; LED; CBU; NET_IF; BACKPLANE; SLOT; ENCLOSURE_DRAWER;
   ENCLOSURE_MGMNT].
End InfortrendChassisSensorTypeEnum.

Record InfortrendChassisSensorSection : Type := {
  sensor_status : int_or_empty;
  sensor_type : int_or_empty;
  metric_value_raw : int_or_empty;
  metric_unit_raw : string;
}.

End Core.

Import Core.

(** ** The loop body the discovery functions share

    Every discovery function of the plugin is the same loop over the keys
    of the section. *)

(** [if not key: continue] and [yield Service(item=key)] *)
Definition discover_key (key : string) : DiscoveryResult :=
  if String.eqb key "" then ret tt else yield (Service key).

(** ** The shape of the chassis tables *)

(** An entry of [STATUS_INFO_MAP]: a dict that may hold the keys ['bits'],
    ['adtl_info'] and ['adtl_func'].  [I] is the type of the ['adtl_info']
    values, which differs between the dialects. *)
Record status_info (I : Type) : Type := {
  bits : option (dict Z (string * string));
  adtl_info : option (dict Z I);
  adtl_func : option (Z -> Z);
}.
Arguments bits {I} s.
Arguments adtl_info {I} s.
Arguments adtl_func {I} s.

(** [entry['bits']] *)
Definition getitem_bits {I : Type} (entry : status_info I)
  : py (dict Z (string * string)) :=
  match bits entry with
  | Some b => Ok b
  | None => Raise KeyError
  end.

(** An entry of [SENSORS_WITH_METRIC]. *)
Record metric_info : Type := {
  divider : Z;
  name : string;
}.

(** The double quote character, for the messages that contain it. *)
Definition dq : string := String (ascii_of_nat 34) EmptyString.

(** ** infortrend_chassis_a.py *)

Module ChassisA.

(** map used for conversion of SNMP values to readable output *)
Definition STATUS_INFO_MAP : dict Z (status_info (Z * string)) :=
  [(InfortrendChassisSensorTypeEnum.POWER_SUPPLY,
   {| bits := Some
      [(0, ("Power supply functioning normally",
         "Power supply malfunctioning"));
       (6, ("Power supply is ON",
         "Power supply is OFF"));
       (7, ("Power supply IS present",
         "Power supply is NOT present"))];
      adtl_info := None;
      adtl_func := None |});
   (InfortrendChassisSensorTypeEnum.FAN,
   {| bits := Some
      [(0, ("Fan functioning normally",
         "Fan malfunctioning"));
       (6, ("Fan is ON",
         "Fan is OFF"));
       (7, ("Fan IS present",
         "Fan is NOT present"))];
      adtl_info := None;
      adtl_func := None |});
   (InfortrendChassisSensorTypeEnum.TEMPERATURE,
   {| bits := Some
      [(0, ("Temp. sensor functioning normally",
         "Temp. sensor malfunctioning"));
       (6, ("Temp. Sensor is Activated",
         "Temp. Sensor is NOT Activated"));
       (7, ("Temperature sensor IS present",
         "Temperature sensor is NOT present"))];
      adtl_info := Some
      [(0, (0, "Temp. within safe range"));
       (2, (1, "Cold Temp. Warning"));
       (3, (1, "Hot Temp. Warning"));
       (4, (2, "Cold Temp. Limit Exceeded"));
       (5, (2, "Hot Temp. Limit Exceeded"))];
      adtl_func := Some (fun status => Z.land (Z.shiftr status 1) 7) |});
   (InfortrendChassisSensorTypeEnum.UPS,
   {| bits := Some
      [(0, ("Unit functioning normally",
         "Unit malfunctioning"));
       (1, ("AC Power present",
         "AC Power NOT present"));
       (6, ("UPS is ON",
         "UPS is OFF"));
       (7, ("UPS IS present",
         "UPS is NOT present"))];
      adtl_info := Some
      [(0, (0, "battery fully charged"));
       (1, (1, "battery not fully charged"));
       (2, (2, "battery charge critically low"));
       (3, (2, "battery completely drained"))];
      adtl_func := Some (fun status => Z.land (Z.shiftr status 2) 3) |});
   (InfortrendChassisSensorTypeEnum.VOLTAGE,
   {| bits := Some
      [(0, ("Voltage sensor functioning normally",
         "Voltage sensor malfunctioning"));
       (6, ("Voltage Sensor is Activated",
         "Voltage Sensor is NOT Activated"));
       (7, ("Voltage sensor IS present",
         "Voltage sensor is NOT present"))];
      adtl_info := Some
      [(0, (0, "Voltage within acceptable range"));
       (2, (1, "Low Voltage Warning"));
       (3, (1, "High Voltage Warning"));
       (4, (2, "Low Voltage Limit Exceeded"));
       (5, (2, "High Voltage Limit Exceeded"))];
      adtl_func := Some (fun status => Z.land (Z.shiftr status 1) 7) |});
   (InfortrendChassisSensorTypeEnum.CURRENT,
   {| bits := Some
      [(0, ("Current sensor functioning normally",
         "Current sensor malfunctioning"));
       (6, ("Current Sensor is Activated",
         "Current Sensor is NOT Activated"));
       (7, ("Current sensor IS present",
         "Current sensor is NOT present"))];
      adtl_info := Some
      [(0, (0, "Current within acceptable range"));
       (3, (1, "Over Current Warning"));
       (5, (2, "Over Current Limit Exceeded"))];
      adtl_func := Some (fun status => Z.land (Z.shiftr status 1) 7) |});
   (InfortrendChassisSensorTypeEnum.DOOR,
   {| bits := Some
      [(0, ("Door OK",
         "Door, door lock, or door sensor malfunctioning"));
       (1, ("Door is shut",
         "Door is open"));
       (6, ("Door lock engaged",
         "Door lock NOT engaged"));
       (7, ("Door IS present",
         "Door is NOT present"))];
      adtl_info := None;
      adtl_func := None |});
   (InfortrendChassisSensorTypeEnum.SPEAKER,
   {| bits := Some
      [(0, ("Speaker functioning normally",
         "Speaker malfunctioning"));
       (6, ("Speaker is ON",
         "Speaker is OFF"));
       (7, ("Speaker IS present",
         "Speaker is NOT present"))];
      adtl_info := None;
      adtl_func := None |});
   (InfortrendChassisSensorTypeEnum.BATTERY,
   {| bits := Some
      [(0, ("Battery functioning normally",
         "Battery malfunctioning"));
       (1, ("Battery charging OFF (or trickle)",
         "Battery charging ON"));
       (6, ("Battery-backup is enabled",
         "Battery-backup is disabled"));
       (7, ("Battery IS present",
         "Battery is NOT present"))];
      adtl_info := Some
      [(0, (0, "battery fully charged"));
       (1, (1, "battery not fully charged"));
       (2, (2, "battery charge critically low"));
       (3, (2, "battery completely drained"))];
      adtl_func := Some (fun status => Z.land (Z.shiftr status 2) 3) |});
   (InfortrendChassisSensorTypeEnum.LED,
   {| bits := Some
      [(0, ("LED functioning normally",
         "LED malfunctioning"));
       (6, ("LED is ON",
         "LED is OFF"));
       (7, ("LED IS present",
         "LED is NOT present"))];
      adtl_info := None;
      adtl_func := None |});
   (InfortrendChassisSensorTypeEnum.CBU,
   {| bits := Some
      [(0, ("Cache Backup Module functioning normally",
         "Cache Backup Module malfunctioning"));
       (6, ("Cache Backup Module is ON",
         "Cache Backup Module is OFF"));
       (7, ("Cache Backup Module IS present",
         "Cache Backup Module is NOT present"))];
      adtl_info := None;
      adtl_func := None |});
   (InfortrendChassisSensorTypeEnum.NET_IF,
   {| bits := Some
      [(0, ("interface functioning normally",
         "interface malfunctioning"));
       (6, ("interface is up",
         "interface is down"));
       (7, ("interface IS present",
         "interface is NOT present"))];
      adtl_info := None;
      adtl_func := None |});
   (InfortrendChassisSensorTypeEnum.SLOT,
   {| bits := Some
      [(0, ("Slot sense circuitry functioning normally",
         "Slot sense circuitry malfunctioning"));
       (1, (("Device in slot has not been marked " ++ dq ++ "needing replacement" ++ dq ++ " or a replacement drive has been inserted")%string,
         "Device in slot has been marked BAD and is awaiting replacement"));
       (2, ("Slot is activated so that drive can be accessed",
         "Slot NOT activated"));
       (6, ("Slot is NOT ready for insertion/removal",
         "Slot is ready for insertion/removal"));
       (7, ("Device inserted in slot",
         "Slot is empty"))];
      adtl_info := None;
      adtl_func := None |})].

(** define name and divider for conversion for metrics *)
Definition SENSORS_WITH_METRIC : dict Z metric_info :=
  [(InfortrendChassisSensorTypeEnum.TEMPERATURE,
    {| divider := 10; name := "temp" |});
   (InfortrendChassisSensorTypeEnum.VOLTAGE,
    {| divider := 1000; name := "voltage" |})].

(** [STATUS_INFO_MAP[sensor_type]['bits']] *)
Definition type_bits (sensor_type : int_or_empty)
  : py (dict Z (string * string)) :=
  (entry <- getitem_int STATUS_INFO_MAP sensor_type ;;
   getitem_bits entry)%py.

(** [STATUS_INFO_MAP[sensor_type]['bits'][bit][bit_set]] *)
Definition bit_text (sensor_type : int_or_empty) (bit bit_set : Z)
  : py string :=
  (b <- type_bits sensor_type ;;
   messages <- getitem Z.eqb b bit ;;
   tuple_getitem messages bit_set)%py.

(** submit metrics for sensors where this makes sense *)
Definition submit_metrics (sensor_data : InfortrendChassisSensorSection)
  : CheckResult :=
  let sensor_type := sensor_type sensor_data in
  if contains_int SENSORS_WITH_METRIC sensor_type then
    (info <- lift (getitem_int SENSORS_WITH_METRIC sensor_type) ;;
     value <- lift (truediv (metric_value_raw sensor_data) (divider info)) ;;
     yield (Metric (name info) value))%gen
  else ret tt.

(** The body of the loop over the bits: it overwrites the pair
    [(extended_status, status_info_text)]. *)
Definition bit_verdict (sensor_data : InfortrendChassisSensorSection)
  (bit : Z) (_ : State * string) : py (State * string) :=
  (masked <- and_ (sensor_status sensor_data) (Z.shiftl 1 bit) ;;
   let bit_set := Z.shiftr masked bit in
   if negb (bit_set =? 0) && (bit <? 6) then
     (text <- bit_text (sensor_type sensor_data) bit bit_set ;;
      Ok (CRIT, text))
   else
     (text <- bit_text (sensor_type sensor_data) bit bit_set ;;
      Ok (OK, text)))%py.

(** submit check results.  The pair starts as [(0, '')], 0 being the value
    of [State.OK]; the first bit overwrites it. *)
Definition submit_check_results (sensor_data : InfortrendChassisSensorSection)
  : CheckResult :=
  if eq_int (sensor_status sensor_data) 0 then
    (text <- lift (bit_text (sensor_type sensor_data) 0 0) ;;
     yield (Result OK text))%gen
  else
    (b <- lift (type_bits (sensor_type sensor_data)) ;;
     verdict <- lift (for_each (keys b) (bit_verdict sensor_data) (OK, "")) ;;
     yield (Result (fst verdict) (snd verdict)))%gen.

Definition check_infortrend_chassis_sensors_a (item : string)
  (section : dict string InfortrendChassisSensorSection) : CheckResult :=
  match get String.eqb section item with
  | Some sensor_data =>
      (submit_metrics sensor_data ;; submit_check_results sensor_data)%gen
  | None => yield (Result UNKNOWN "cannot parse: None")
  end.


(** The name of a sensor is rewritten with [re.sub]; the definitions that
    follow give that rewriting on a name of ASCII characters, where [\d]
    matches the digits 0 to 9 and nothing else.  On a [str] Python's [\d]
    also matches the decimal digits of other scripts, which are not told
    apart here: what is proved of the rewriting is stated for ASCII names. *)

(** [\d] on an ASCII character. *)
Definition isdigit (c : ascii) : bool :=
  let n := nat_of_ascii c in
  (48 <=? n)%nat && (n <=? 57)%nat.

(** The digits at the start of a string, and what follows them. *)
Fixpoint span_digits (s : string) : string * string :=
  match s with
  | String c s' =>
      if isdigit c
      then let (digits, rest) := span_digits s' in (String c digits, rest)
      else (EmptyString, s)
  | EmptyString => (EmptyString, EmptyString)
  end.

(** A match of [\((\d+)\)] at the start of a string: the group, and what
    follows the match. *)
Definition match_group (s : string) : option (string * string) :=
  match s with
  | String "("%char s' =>
      match span_digits s' with
      | (String d digits, String ")"%char rest) =>
          Some (String d digits, rest)
      | _ => None
      end
  | _ => None
  end.

Definition inspect {A : Type} (a : A) : {b : A | a = b} :=
  exist _ a eq_refl.

(** [re.sub(pattern=r'\((\d+)\)', repl=lambda match: f' {match.group(1)}',
    string=s)] on an ASCII name: from left to right, every match is
    replaced by a space and its group and the scan goes on after the match;
    a character where no match starts is kept. *)
Equations? sub_groups (s : string) : string by wf (String.length s) lt :=
sub_groups s with inspect (match_group s) := {
  | @exist (Some (digits, rest)) _ =>
      (" " ++ digits ++ sub_groups rest)%string
  | @exist None _ with s := {
      | EmptyString => EmptyString
      | String c s' => String c (sub_groups s') } }.
Proof.
  clear sub_groups. destruct s as [|c s']; [discriminate|].
  unfold match_group in e.
  assert (Hspan : forall t ds r, span_digits t = (ds, r) ->
             String.length t = (String.length ds + String.length r)%nat).
  { induction t as [|a t IH]; intros ds r; simpl.
    - intros [= <- <-]. reflexivity.
    - destruct (isdigit a).
      + destruct (span_digits t) as [ds' r'] eqn:E. intros [= <- <-].
        simpl. f_equal. now apply IH.
      + intros [= <- <-]. reflexivity. }
  destruct (Ascii.eqb_spec c "("%char) as [->|Hne].
  - destruct (span_digits s') as [ds r] eqn:E.
    destruct ds as [|d ds]; [discriminate|].
    destruct r as [|x r]; [discriminate|].
    destruct (Ascii.eqb_spec x ")"%char) as [->|Hne'].
    + injection e as <- <-. apply Hspan in E. simpl in *. lia.
    + exfalso.
      destruct x as [[] [] [] [] [] [] [] []]; try discriminate e.
      now apply Hne'.
  - exfalso.
    destruct c as [[] [] [] [] [] [] [] []]; try discriminate e.
    now apply Hne.
Defined.

Section Parse.
(** [int(s)] on a string: an integer, or ValueError ([None]). *)
Variable int : string -> option Z.

(** Construct a name for the infortrend chassis sensor. *)
Definition get_infortrend_chassis_sensor_name (name sensor_id : string)
  : py string :=
  (has_id <- gt (saveint int sensor_id) 0 ;;
   if has_id : bool
   then Ok ("ID " ++ sensor_id ++ " " ++ name)%string
   else Ok (sub_groups name))%py.

(** The body of the loop over the rows: the arguments of [setdefault] are
    evaluated from left to right. *)
Definition parse_line (line : list string)
  (parsed : dict string InfortrendChassisSensorSection)
  : py (dict string InfortrendChassisSensorSection) :=
  (raw_name <- list_getitem line 0 ;;
   raw_id <- list_getitem line 5 ;;
   key <- get_infortrend_chassis_sensor_name raw_name raw_id ;;
   raw_status <- list_getitem line 1 ;;
   raw_type <- list_getitem line 2 ;;
   raw_value <- list_getitem line 3 ;;
   raw_unit <- list_getitem line 4 ;;
   Ok (setdefault String.eqb parsed key
         {| sensor_status := saveint int raw_status;
            sensor_type := saveint int raw_type;
            metric_value_raw := saveint int raw_value;
            metric_unit_raw := raw_unit |}))%py.

Definition parse_infortrend_chassis_sensors_a
  (string_table : list (list string))
  : py (dict string InfortrendChassisSensorSection) :=
  for_each string_table parse_line [].
End Parse.

Definition discover_infortrend_chassis_sensors_a
  (section : dict string InfortrendChassisSensorSection) : DiscoveryResult :=
  for_yield (keys section) discover_key.

End ChassisA.

(** ** infortrend_chassis_b.py *)

Module ChassisB.

(** map used for conversion of SNMP values to readable output; the entry
    under 8 (temperature out-of-range flags) is an empty dict *)
Definition STATUS_INFO_MAP : dict Z (status_info string) :=
  [(InfortrendChassisSensorTypeEnum.POWER_SUPPLY,
   {| bits := Some
      [(0, ("Power supply functioning normally",
         "Power supply malfunctioning"));
       (6, ("Power supply is ON",
         "Power supply is OFF"));
       (7, ("Power supply IS present",
         "Power supply is NOT present"))];
      adtl_info := None;
      adtl_func := None |});
   (InfortrendChassisSensorTypeEnum.FAN,
   {| bits := Some
      [(0, ("Fan functioning normally",
         "Fan malfunctioning"));
       (6, ("Fan is ON",
         "Fan is OFF"));
       (7, ("Fan IS present",
         "Fan is NOT present"))];
      adtl_info := None;
      adtl_func := None |});
   (InfortrendChassisSensorTypeEnum.TEMPERATURE,
   {| bits := Some
      [(0, ("Temp. sensor functioning normally",
         "Temp. sensor malfunctioning"));
       (6, ("Temp. Sensor is Activated",
         "Temp. Sensor is NOT Activated"));
       (7, ("Temperature sensor IS present",
         "Temperature sensor is NOT present"))];
      adtl_info := Some
      [(0, "Temp. within safe range");
       (2, "Cold Temp. Warning");
       (3, "Hot Temp. Warning");
       (4, "Cold Temp. Limit Exceeded");
       (5, "Hot Temp. Limit Exceeded")];
      adtl_func := Some (fun status => Z.land (Z.shiftr status 1) 7) |});
   (InfortrendChassisSensorTypeEnum.UPS,
   {| bits := Some
      [(0, ("Unit functioning normally",
         "Unit malfunctioning"));
       (1, ("AC Power present",
         "AC Power NOT present"));
       (6, ("UPS is ON",
         "UPS is OFF"));
       (7, ("UPS IS present",
         "UPS is NOT present"))];
      adtl_info := Some
      [(0, "battery fully charged");
       (1, "battery not fully charged");
       (2, "battery charge critically low");
       (3, "battery completely drained")];
      adtl_func := Some (fun status => Z.land (Z.shiftr status 2) 3) |});
   (InfortrendChassisSensorTypeEnum.VOLTAGE,
   {| bits := Some
      [(0, ("Voltage sensor functioning normally",
         "Voltage sensor malfunctioning"));
       (6, ("Voltage Sensor is Activated",
         "Voltage Sensor is NOT Activated"));
       (7, ("Voltage sensor IS present",
         "Voltage sensor is NOT present"))];
      adtl_info := Some
      [(0, "Voltage within acceptable range");
       (2, "Low Voltage Warning");
       (3, "High Voltage Warning");
       (4, "Low Voltage Limit Exceeded");
       (5, "High Voltage Limit Exceeded")];
      adtl_func := Some (fun status => Z.land (Z.shiftr status 1) 7) |});
   (InfortrendChassisSensorTypeEnum.CURRENT,
   {| bits := Some
      [(0, ("Current sensor functioning normally",
         "Current sensor malfunctioning"));
       (6, ("Current Sensor is Activated",
         "Current Sensor is NOT Activated"));
       (7, ("Current sensor IS present",
         "Current sensor is NOT present"))];
      adtl_info := Some
      [(0, "Current within acceptable range");
       (3, "Over Current Warning");
       (5, "Over Current Limit Exceeded")];
      adtl_func := Some (fun status => Z.land (Z.shiftr status 1) 7) |});
   (8,
   {| bits := None;
      adtl_info := None;
      adtl_func := None |});
   (InfortrendChassisSensorTypeEnum.DOOR,
   {| bits := Some
      [(0, ("Door OK",
         "Door, door lock, or door sensor malfunctioning"));
       (1, ("Door is shut",
         "Door is open"));
       (6, ("Door lock engaged",
         "Door lock NOT engaged"));
       (7, ("Door IS present",
         "Door is NOT present"))];
      adtl_info := None;
      adtl_func := None |});
   (InfortrendChassisSensorTypeEnum.SPEAKER,
   {| bits := Some
      [(0, ("Speaker functioning normally",
         "Speaker malfunctioning"));
       (6, ("Speaker is ON",
         "Speaker is OFF"));
       (7, ("Speaker IS present",
         "Speaker is NOT present"))];
      adtl_info := None;
      adtl_func := None |});
   (InfortrendChassisSensorTypeEnum.BATTERY,
   {| bits := Some
      [(0, ("Battery functioning normally",
         "Battery malfunctioning"));
       (1, ("Battery charging OFF (or trickle)",
         "Battery charging ON"));
       (6, ("Battery-backup is enabled",
         "Battery-backup is disabled"));
       (7, ("Battery IS present",
         "Battery is NOT present"))];
      adtl_info := Some
      [(0, "battery fully charged");
       (1, "battery not fully charged");
       (2, "battery charge critically low");
       (3, "battery completely drained")];
      adtl_func := Some (fun status => Z.land (Z.shiftr status 2) 3) |});
   (InfortrendChassisSensorTypeEnum.LED,
   {| bits := Some
      [(0, ("",
         ""));
       (6, ("LED is active",
         "LED is inactive"));
       (7, ("LED is present",
         "LED is NOT present"))];
      adtl_info := None;
      adtl_func := None |});
   (InfortrendChassisSensorTypeEnum.CBU,
   {| bits := Some
      [(0, ("Flash Device functioning normally",
         "Flash Device malfunctioning"));
       (6, ("Flash Device is enabled",
         "Flash Device is disabled"));
       (7, ("Flash Device is present",
         "Flash Device is NOT present"))];
      adtl_info := None;
      adtl_func := None |});
   (InfortrendChassisSensorTypeEnum.NET_IF,
   {| bits := Some
      [(0, ("Host Board IS present",
         ""));
       (7, ("Host Board IS present",
         "Host Board is NOT present"))];
      adtl_info := None;
      adtl_func := None |});
   (InfortrendChassisSensorTypeEnum.BACKPLANE,
   {| bits := Some
      [(0, ("Midplane/Backplane",
         ""))];
      adtl_info := None;
      adtl_func := None |});
   (InfortrendChassisSensorTypeEnum.SLOT,
   {| bits := Some
      [(0, ("Slot sense circuitry functioning normally",
         "Slot sense circuitry malfunctioning"));
       (1, (("Device in slot has not been marked " ++ dq ++ "needing replacement" ++ dq ++ " or a replacement drive has been inserted")%string,
         "Device in slot has been marked BAD and is awaiting replacement"));
       (2, ("Slot is activated so that drive can be accessed",
         "Slot NOT activated"));
       (6, ("Slot is NOT ready for insertion/removal",
         "Slot is ready for insertion/removal"));
       (7, ("Device inserted in slot",
         "Slot is empty"))];
      adtl_info := None;
      adtl_func := None |});
   (InfortrendChassisSensorTypeEnum.ENCLOSURE_DRAWER,
   {| bits := Some
      [(0, ("Enclosure Drawer functioning normally",
         "Enclosure Drawer malfunctioning"));
       (6, ("Enclosure Drawer is closed",
         "Enclosure Drawer is opened"));
       (7, ("Enclosure Drawer is present",
         "Enclosure Drawer is NOT present"))];
      adtl_info := None;
      adtl_func := None |});
   (InfortrendChassisSensorTypeEnum.ENCLOSURE_MGMNT,
   {| bits := Some
      [(0, ("Enclosure Management Services Controller functioning normally",
         "Enclosure Management Services Controller malfunctioning"));
       (6, ("Enclosure Management Services Controller is closed",
         "Enclosure Management Services Controller is opened"));
       (7, ("Enclosure Management Services Controller is present",
         "Enclosure Management Services Controller is NOT present"))];
      adtl_info := None;
      adtl_func := None |})].

(** define name and divider for conversion for metrics *)
Definition SENSORS_WITH_METRIC : dict Z metric_info :=
  [(InfortrendChassisSensorTypeEnum.TEMPERATURE,
    {| divider := 10; name := "temp" |});
   (InfortrendChassisSensorTypeEnum.VOLTAGE,
    {| divider := 1000; name := "voltage" |})].

(** [STATUS_INFO_MAP[sensor_type]['bits']] *)
Definition type_bits (sensor_type : int_or_empty)
  : py (dict Z (string * string)) :=
  (entry <- getitem_int STATUS_INFO_MAP sensor_type ;;
   getitem_bits entry)%py.

(** [STATUS_INFO_MAP[sensor_type]['bits'][bit][bit_set]] *)
Definition bit_text (sensor_type : int_or_empty) (bit bit_set : Z)
  : py string :=
  (b <- type_bits sensor_type ;;
   messages <- getitem Z.eqb b bit ;;
   tuple_getitem messages bit_set)%py.

(** submit metrics for sensors where this makes sense *)
Definition submit_metrics (sensor_data : InfortrendChassisSensorSection)
  : CheckResult :=
  let sensor_type := sensor_type sensor_data in
  if contains_int SENSORS_WITH_METRIC sensor_type then
    (info <- lift (getitem_int SENSORS_WITH_METRIC sensor_type) ;;
     value <- lift (truediv (metric_value_raw sensor_data) (divider info)) ;;
     yield (Metric (name info) value))%gen
  else ret tt.

(** The override applied to every bit's pair when the status is 64. *)
Definition override_64 (sensor_data : InfortrendChassisSensorSection)
  (verdict : State * string) : State * string :=
  if eq_int (sensor_status sensor_data) 64 then
    if eq_int (sensor_type sensor_data) InfortrendChassisSensorTypeEnum.LED
    then (OK, (snd verdict ++ ", ")%string)
    else (CRIT,
          (format (sensor_status sensor_data) ++ " " ++ snd verdict)%string)
  else verdict.

(** The body of the loop over the bits: one Result per bit. *)
Definition bit_result (sensor_data : InfortrendChassisSensorSection)
  (bit : Z) : CheckResult :=
  (masked <- lift (and_ (sensor_status sensor_data) (Z.shiftl 1 bit)) ;;
   let bit_set := Z.shiftr masked bit in
   verdict <- lift
     (if negb (bit_set =? 0) then
        (text <- bit_text (sensor_type sensor_data) bit bit_set ;;
         Ok (CRIT, (text ++ " (!)")%string))%py
      else
        (text <- bit_text (sensor_type sensor_data) bit bit_set ;;
         Ok (OK, text))%py) ;;
   let verdict := override_64 sensor_data verdict in
   yield (Result (fst verdict) (snd verdict)))%gen.

(** submit check results *)
Definition submit_check_results (sensor_data : InfortrendChassisSensorSection)
  : CheckResult :=
  if eq_int (sensor_status sensor_data) 0 then
    (text <- lift (bit_text (sensor_type sensor_data) 0 0) ;;
     yield (Result OK text))%gen
  else if eq_int (sensor_status sensor_data) 255 then
    yield (Result UNKNOWN "Status unknown")
  else
    (b <- lift (type_bits (sensor_type sensor_data)) ;;
     for_yield (keys b) (bit_result sensor_data))%gen.

Definition check_infortrend_chassis_sensors_b (item : string)
  (section : dict string InfortrendChassisSensorSection) : CheckResult :=
  match get String.eqb section item with
  | Some sensor_data =>
      (submit_metrics sensor_data ;; submit_check_results sensor_data)%gen
  | None => yield (Result UNKNOWN "cannot parse: None")
  end.


Section Parse.
(** [int(s)] on a string: an integer, or ValueError ([None]). *)
Variable int : string -> option Z.

(** The body of the loop over the rows. *)
Definition parse_line (line : list string)
  (parsed : dict string InfortrendChassisSensorSection)
  : py (dict string InfortrendChassisSensorSection) :=
  (name <- list_getitem line 0 ;;
   raw_status <- list_getitem line 1 ;;
   raw_type <- list_getitem line 2 ;;
   raw_value <- list_getitem line 3 ;;
   raw_unit <- list_getitem line 4 ;;
   Ok (setdefault String.eqb parsed name
         {| sensor_status := saveint int raw_status;
            sensor_type := saveint int raw_type;
            metric_value_raw := saveint int raw_value;
            metric_unit_raw := raw_unit |}))%py.

Definition parse_infortrend_chassis_sensors_b
  (string_table : list (list string))
  : py (dict string InfortrendChassisSensorSection) :=
  for_each string_table parse_line [].
End Parse.

Definition discover_infortrend_chassis_sensors_b
  (section : dict string InfortrendChassisSensorSection) : DiscoveryResult :=
  for_yield (keys section) discover_key.

End ChassisB.

(** ** infortrend_disks_a.py *)

Module DisksA.

(** Map of SNMP status value to description *)
Definition DISK_STATUS_MAP : dict Z string :=
  [(0, "New Drive");
   (1, "On-Line Drive");
   (2, "Used Drive");
   (3, "Spare Drive");
   (4, "Drive Initialization in Progress");
   (5, "Drive Rebuild in Progress");
   (6, "Add Drive to Logical Drive in Progress");
   (9, "Global Spare Drive");
   (17, "Drive is in process of Cloning another Drive");
   (18, "Drive is a valid Clone of another Drive");
   (19, "Drive is in process of Copying from another Drive (for Copy/Replace LD Expansion function)");
   (63, "Drive Absent");
   (128, "SCSI Device (Type 0)");
   (129, "SCSI Device (Type 1)");
   (130, "SCSI Device (Type 2)");
   (131, "SCSI Device (Type 3)");
   (132, "SCSI Device (Type 4)");
   (133, "SCSI Device (Type 5)");
   (134, "SCSI Device (Type 6)");
   (135, "SCSI Device (Type 7)");
   (136, "SCSI Device (Type 8)");
   (137, "SCSI Device (Type 9)");
   (138, "SCSI Device (Type 10)");
   (139, "SCSI Device (Type 11)");
   (140, "SCSI Device (Type 12)");
   (141, "SCSI Device (Type 13)");
   (142, "SCSI Device (Type 14)");
   (143, "SCSI Device (Type 15)");
   (252, "Missing Global Spare Drive");
   (253, "Missing Spare Drive");
   (254, "Missing Drive");
   (255, "Failed Drive")].

Record InfortrendDiskSection : Type := {
  slot : string;
  state : int_or_empty;
  description : string;
}.

Section Parse.
(** [int(s)] on a string: an integer, or ValueError ([None]). *)
Variable int : string -> option Z.
(** [cmk.agent_based.v2.render.disksize] *)
Variable disksize : number -> string.

(** [int(s)], not guarded by [saveint] *)
Definition int_or_raise (s : string) : py Z :=
  match int s with
  | Some z => Ok z
  | None => Raise ValueError
  end.

(** The body of the loop over the rows. *)
Definition parse_line (line : list string)
  (parsed : dict string InfortrendDiskSection)
  : py (dict string InfortrendDiskSection) :=
  (slot <- list_getitem line 0 ;;
   raw_state <- list_getitem line 1 ;;
   let state := saveint int raw_state in
   model <- list_getitem line 2 ;;
   version <- list_getitem line 3 ;;
   serial <- list_getitem line 4 ;;
   raw_size <- list_getitem line 5 ;;
   size <- int_or_raise raw_size ;;
   raw_blocksize <- list_getitem line 6 ;;
   blocksize <- int_or_raise raw_blocksize ;;
   disksize_bytes <- mul_pow2 size blocksize ;;
   Ok (setdefault String.eqb parsed slot
         {| slot := slot;
            state := state;
            description :=
              (model ++ " " ++ version ++ " " ++ serial ++ ", "
               ++ disksize disksize_bytes ++ ", ")%string |}))%py.

Definition parse_infortrend_disks (string_table : list (list string))
  : py (dict string InfortrendDiskSection) :=
  for_each string_table parse_line [].
End Parse.

Definition check_infortrend_disks (item : string)
  (section : dict string InfortrendDiskSection) : CheckResult :=
  match get String.eqb section item with
  | Some disk_data =>
      let state := state disk_data in
      let state_description := description disk_data in
      if negb (contains_int DISK_STATUS_MAP state) then
        yield (Result UNKNOWN
                 (state_description ++ "Status is " ++ format state)%string)
      else if in_set state [1; 3; 9] then
        (text <- lift (getitem_int DISK_STATUS_MAP state) ;;
         yield (Result OK (state_description ++ text)%string))%gen
      else
        (above <- lift (gt state 63) ;;
         if above : bool then
           (text <- lift (getitem_int DISK_STATUS_MAP state) ;;
            yield (Result CRIT (state_description ++ text)%string))
         else
           (text <- lift (getitem_int DISK_STATUS_MAP state) ;;
            yield (Result WARN (state_description ++ text)%string)))%gen
  | None => yield (Result UNKNOWN "None is not valid")
  end.

Definition discover_infortrend_disks
  (section : dict string InfortrendDiskSection) : DiscoveryResult :=
  for_yield (keys section) discover_key.

End DisksA.

(** ** infortrend_disks_b.py *)

Module DisksB.

Definition DISK_STATUS_MAP : dict Z string :=
  [(0, "New Drive");
   (1, "On-Line Drive");
   (2, "Used Drive");
   (3, "Spare Drive");
   (4, "Drive Initialization in Progress");
   (5, "Drive Rebuild in Progress");
   (6, "Add Drive to Logical Drive in Progress");
   (9, "Global Spare Drive");
   (17, "Drive is in process of Cloning another Drive");
   (18, "Drive is a valid Clone of another Drive");
   (19, "Drive is in process of Copying from another Drive (for Copy/Replace LD Expansion function)");
   (63, "Drive Absent");
   (128, "SCSI Device (Type 0)");
   (129, "SCSI Device (Type 1)");
   (130, "SCSI Device (Type 2)");
   (131, "SCSI Device (Type 3)");
   (132, "SCSI Device (Type 4)");
   (133, "SCSI Device (Type 5)");
   (134, "SCSI Device (Type 6)");
   (135, "SCSI Device (Type 7)");
   (136, "SCSI Device (Type 8)");
   (137, "SCSI Device (Type 9)");
   (138, "SCSI Device (Type 10)");
   (139, "SCSI Device (Type 11)");
   (140, "SCSI Device (Type 12)");
   (141, "SCSI Device (Type 13)");
   (142, "SCSI Device (Type 14)");
   (143, "SCSI Device (Type 15)");
   (252, "Missing Global Spare Drive");
   (253, "Missing Spare Drive");
   (254, "Missing Drive");
   (255, "Failed Drive")].

Record InfortrendDiskSection : Type := {
  slot : string;
  state : int_or_empty;
}.

Section Parse.
(** [int(s)] on a string: an integer, or ValueError ([None]). *)
Variable int : string -> option Z.

(** [slot = str(saveint(line[0]) or disk_no)] *)
Definition slot_key (disk_no : Z) (raw_slot : string) : string :=
  str (or_ (saveint int raw_slot) disk_no).

(** The body of the loop over the enumerated rows.  The test
    [disk_no == '0'] compares the integer row index with a string. *)
Definition parse_line (row : Z * list string)
  (parsed : dict string InfortrendDiskSection)
  : py (dict string InfortrendDiskSection) :=
  let (disk_no, line) := row in
  (raw_slot <- list_getitem line 0 ;;
   let slot := slot_key disk_no raw_slot in
   raw_state <- list_getitem line 1 ;;
   let state := saveint int raw_state in
   if int_eq_str disk_no "0" then Ok parsed
   else Ok (setdefault String.eqb parsed slot
              {| slot := slot; state := state |}))%py.

Definition parse_infortrend_disks_b (string_table : list (list string))
  : py (dict string InfortrendDiskSection) :=
  for_each (enumerate string_table) parse_line [].
End Parse.

Definition check_infortrend_disks_b (item : string)
  (section : dict string InfortrendDiskSection) : CheckResult :=
  match get String.eqb section item with
  | Some disk_data =>
      let state := state disk_data in
      if negb (contains_int DISK_STATUS_MAP state) then
        yield (Result UNKNOWN ("Status is " ++ format state)%string)
      else if in_set state [1; 3; 9; 63] then
        (text <- lift (getitem_int DISK_STATUS_MAP state) ;;
         yield (Result OK text))%gen
      else
        (above <- lift (gt state 63) ;;
         if above : bool then
           (text <- lift (getitem_int DISK_STATUS_MAP state) ;;
            yield (Result CRIT text))
         else
           (text <- lift (getitem_int DISK_STATUS_MAP state) ;;
            yield (Result WARN text)))%gen
  | None => yield (Result UNKNOWN "None is not valid")
  end.

Definition discover_infortrend_disks_b
  (section : dict string InfortrendDiskSection) : DiscoveryResult :=
  for_yield (keys section) discover_key.

End DisksB.

(** ** infortrend_logical_drives_a.py *)

Module LogicalDrivesA.

Definition LDRIVE_STATE_INFO_MAP : dict Z string :=
  [(0, "Good");
   (1, "Rebuilding");
   (2, "Initializing");
   (3, "Degraded");
   (4, "Dead");
   (5, "Invalid");
   (6, "Incomplete");
   (7, "Drive Missing")].

Record InfortrendLogicalDriveSection : Type := {
  sensor_state : int_or_empty;
}.

(** [if ld_state & 128 == 128:] and its body; the result is
    [(result_summary, ld_state)]. *)
Definition mask_offline (ld_state : int_or_empty)
  : py (string * int_or_empty) :=
  (masked <- and_ ld_state 128 ;;
   if masked =? 128 then
     (low <- and_ ld_state 127 ;;
      Ok ("Logical Drive Off-line (RW)", Int low))
   else Ok ("", ld_state))%py.

(** [if ld_state == 0: ... elif ld_state in {1, 2}: ... elif ld_state > 2:] *)
Definition severity (ld_state : int_or_empty) (result_state : State)
  : py State :=
  if eq_int ld_state 0 then Ok OK
  else if in_set ld_state [1; 2] then Ok WARN
  else (above <- gt ld_state 2 ;;
        Ok (if above : bool then CRIT else result_state))%py.

(** [result_state = 3] is the value of [State.UNKNOWN]. *)
Definition check_infortrend_logical_drives_a (item : string)
  (section : dict string InfortrendLogicalDriveSection) : CheckResult :=
  match get String.eqb section item with
  | Some ld_section =>
      (masked <- lift (mask_offline (sensor_state ld_section)) ;;
       let (result_summary, ld_state) := masked : string * int_or_empty in
       let result_state := UNKNOWN in
       let (result_state, result_summary) :=
         (if negb (contains_int LDRIVE_STATE_INFO_MAP ld_state)
          then (UNKNOWN, ("Status is " ++ format ld_state)%string)
          else (result_state, result_summary)) : State * string in
       text <- lift (getitem_int LDRIVE_STATE_INFO_MAP ld_state) ;;
       let result_summary := (result_summary ++ " " ++ text)%string in
       result_state <- lift (severity ld_state result_state) ;;
       yield (Result result_state result_summary))%gen
  | None => yield (Result UNKNOWN "cannot parse: None")
  end.

Section Parse.
(** [int(s)] on a string: an integer, or ValueError ([None]). *)
Variable int : string -> option Z.

(** The body of the loop over the rows. *)
Definition parse_line (line : list string)
  (parsed : dict string InfortrendLogicalDriveSection)
  : py (dict string InfortrendLogicalDriveSection) :=
  (slot <- list_getitem line 0 ;;
   raw_state <- list_getitem line 1 ;;
   let state := saveint int raw_state in
   Ok (setdefault String.eqb parsed slot {| sensor_state := state |}))%py.

Definition parse_infortrend_logical_drives_a
  (string_table : list (list string))
  : py (dict string InfortrendLogicalDriveSection) :=
  for_each string_table parse_line [].
End Parse.

Definition discover_infortrend_logical_drives_a
  (section : dict string InfortrendLogicalDriveSection) : DiscoveryResult :=
  for_yield (keys section) discover_key.

End LogicalDrivesA.

(** ** infortrend_logical_drives_b.py *)

Module LogicalDrivesB.

Definition DRIVE_STATE_INFO_MAP : dict Z string :=
  [(0, "Good");
   (1, "Rebuilding");
   (2, "Initializing");
   (3, "Degraded");
   (4, "Dead");
   (5, "Invalid");
   (6, "Incomplete");
   (7, "Drive Missing");
   (64, "Good")].

Record InfortrendLogicalDriveSection : Type := {
  sensor_state : int_or_empty;
}.

(** [if ld_state & 128 == 128:] and its body; the result is
    [(result_summary, ld_state)]. *)
Definition mask_offline (ld_state : int_or_empty)
  : py (string * int_or_empty) :=
  (masked <- and_ ld_state 128 ;;
   if masked =? 128 then
     (low <- and_ ld_state 127 ;;
      Ok ("Logical Drive Off-line (RW)", Int low))
   else Ok ("", ld_state))%py.

(** [if ld_state in {0, 64}: ... elif ld_state in {1, 2}: ...
    elif ld_state in {3, 4, 5, 6, 7}:] *)
Definition severity (ld_state : int_or_empty) (result_state : State)
  : State :=
  if in_set ld_state [0; 64] then OK
  else if in_set ld_state [1; 2] then WARN
  else if in_set ld_state [3; 4; 5; 6; 7] then CRIT
  else result_state.

Definition check_infortrend_logical_drives_b (item : string)
  (section : dict string InfortrendLogicalDriveSection) : CheckResult :=
  match get String.eqb section item with
  | Some ld_section =>
      (masked <- lift (mask_offline (sensor_state ld_section)) ;;
       let (result_summary, ld_state) := masked : string * int_or_empty in
       let result_state := UNKNOWN in
       (if negb (contains_int DRIVE_STATE_INFO_MAP ld_state)
        then yield (Result UNKNOWN ("Status is " ++ format ld_state)%string)
        else ret tt) ;;
       text <- lift (getitem_int DRIVE_STATE_INFO_MAP ld_state) ;;
       let result_summary :=
         (if String.eqb result_summary "" then text
          else result_summary ++ ", " ++ text)%string in
       let result_state := severity ld_state result_state in
       yield (Result result_state result_summary))%gen
  | None => yield (Result UNKNOWN "cannot parse: None")
  end.

Section Parse.
(** [int(s)] on a string: an integer, or ValueError ([None]). *)
Variable int : string -> option Z.

(** The body of the loop over the rows. *)
Definition parse_line (line : list string)
  (parsed : dict string InfortrendLogicalDriveSection)
  : py (dict string InfortrendLogicalDriveSection) :=
  (slot <- list_getitem line 0 ;;
   raw_state <- list_getitem line 1 ;;
   let state := saveint int raw_state in
   Ok (setdefault String.eqb parsed slot {| sensor_state := state |}))%py.

Definition parse_infortrend_logical_drives_b
  (string_table : list (list string))
  : py (dict string InfortrendLogicalDriveSection) :=
  for_each string_table parse_line [].
End Parse.

Definition discover_infortrend_logical_drives_b
  (section : dict string InfortrendLogicalDriveSection) : DiscoveryResult :=
  for_yield (keys section) discover_key.

End LogicalDrivesB.

(** ** The decoders in the words of the specification *)

Module Spec.

(** Bit positions declared in ascending order. *)
Fixpoint ascending (l : list Z) : bool :=
  match l with
  | [] => true
  | x :: rest => forallb (fun y => x <? y) rest && ascending rest
  end.

(** The last entry of a dict, when there is one. *)
Definition last_entry {K V : Type} (d : dict K V) : option (K * V) :=
  last (map Some d) None.

(** Variant A, one bit: a set bit below 6 is CRIT with the "set" message, a
    clear bit is OK with the "clear" message, bits 6 and 7 are OK either
    way. *)
Definition bit_pair_a (status : Z) (e : Z * (string * string))
  : State * string :=
  let (bit, messages) := e in
  if Z.testbit status bit
  then (if bit <? 6 then CRIT else OK, snd messages)
  else (OK, fst messages).

(** Variant A: status 0 gives bit 0's "clear" message, any other status the
    pair of the last declared bit. *)
Definition decode_a (b : dict Z (string * string)) (status : Z)
  : option (State * string) :=
  if status =? 0
  then option_map (fun messages => (OK, fst messages)) (get Z.eqb b 0)
  else option_map (bit_pair_a status) (last_entry b).

(** Variant B, one bit: a set bit is CRIT with the "set" message suffixed
    by " (!)", a clear bit is OK with the "clear" message. *)
Definition bit_pair_b (status : Z) (e : Z * (string * string))
  : State * string :=
  let (bit, messages) := e in
  if Z.testbit status bit
  then (CRIT, (snd messages ++ " (!)")%string)
  else (OK, fst messages).

(** Variant B, status 64: an LED is forced to OK, a comma and a space
    appended; any other type is forced to CRIT, the status prefixed. *)
Definition override_b (sensor_type status : Z) (pair : State * string)
  : State * string :=
  if status =? 64 then
    if sensor_type =? InfortrendChassisSensorTypeEnum.LED
    then (OK, (snd pair ++ ", ")%string)
    else (CRIT, (str status ++ " " ++ snd pair)%string)
  else pair.

(** Variant B: status 0 gives bit 0's "clear" message, status 255 is
    unknown, any other status gives one pair per declared bit. *)
Definition decode_b (sensor_type : Z) (b : dict Z (string * string))
  (status : Z) : option (list (State * string)) :=
  if status =? 0
  then option_map (fun messages => [(OK, fst messages)]) (get Z.eqb b 0)
  else if status =? 255 then Some [(UNKNOWN, "Status unknown")]
  else Some (map (fun e => override_b sensor_type status
                             (bit_pair_b status e)) b).

(** Disks: the codes in [ok_codes] are OK; any other code of the table is
    CRIT above 63 and WARN otherwise; a code absent from the table is
    UNKNOWN. *)
Definition disk_severity (ok_codes : list Z) (table : dict Z string)
  (code : Z) : State :=
  if existsb (Z.eqb code) ok_codes then OK
  else match get Z.eqb table code with
       | Some _ => if 63 <? code then CRIT else WARN
       | None => UNKNOWN
       end.

(** Disks: the text of the table, or the literal numeric status when the
    table has none. *)
Definition disk_text (table : dict Z string) (code : Z) : string :=
  match get Z.eqb table code with
  | Some text => text
  | None => ("Status is " ++ str code)%string
  end.

(** Logical drives: the code that is looked up, bit 7 masked off when it
    is set. *)
Definition ld_code (status : Z) : Z :=
  if Z.testbit status 7 then Z.land status 127 else status.

(** A message contains a text. *)
Definition occurs_in (text message : string) : Prop :=
  exists before after, message = (before ++ text ++ after)%string.

(** The Results that carry a list of pairs. *)
Definition as_results (pairs : list (State * string)) : list CheckOutput :=
  map (fun pair => Result (fst pair) (snd pair)) pairs.

(** What the decoders rely on in a ['bits'] table: the positions ascend
    from bit 0. *)
Definition bits_from_zero (b : dict Z (string * string)) : bool :=
  ascending (keys b)
  && match keys b with
     | first :: _ => first =? 0
     | [] => false
     end.

(** The last declared bit is one of the informational bits, 6 and 7. *)
Definition ends_informational (b : dict Z (string * string)) : bool :=
  match last_entry b with
  | Some (bit, _) => 6 <=? bit
  | None => false
  end.

(** An entry of a status table declares bits, from bit 0 upwards. *)
Definition declares_bits {I : Type} (entry : status_info I) : bool :=
  match bits entry with
  | Some b => bits_from_zero b
  | None => false
  end.

End Spec.

(** ** What the parsers and the logical-drive checks compute *)

Module Rows.

(** [setdefault] over a list of keys and values: the first value under a
    key stays. *)
Definition first_wins {V : Type} (kvs : list (string * V))
  (acc : dict string V) : dict string V :=
  fold_left (fun d kv => setdefault String.eqb d (fst kv) (snd kv)) kvs acc.

(** The keys in the order of their first occurrence, those in [seen] left
    out. *)
Fixpoint first_occurrences (seen ks : list string) : list string :=
  match ks with
  | [] => []
  | k :: rest =>
      if existsb (String.eqb k) seen then first_occurrences seen rest
      else k :: first_occurrences (seen ++ [k]) rest
  end.

(** The field of a row at an index that the row has. *)
Definition field (i : nat) (line : list string) : string := nth i line "".

(** The first row whose field [i] is [key]. *)
Definition first_row (i : nat) (key : string) (table : list (list string))
  : option (list string) :=
  find (fun line => String.eqb key (field i line)) table.

(** The record a chassis row holds: status, type and value converted by
    [saveint], the unit as it is. *)
Definition chassis_record (int : string -> option Z) (line : list string)
  : InfortrendChassisSensorSection :=
  {| sensor_status := saveint int (field 1 line);
     sensor_type := saveint int (field 2 line);
     metric_value_raw := saveint int (field 3 line);
     metric_unit_raw := field 4 line |}.

(** The key of a chassis row in variant A, for a row whose id field is an
    integer: the name with the id in front when the id is positive, the
    name with its parenthesised numbers rewritten otherwise. *)
Definition chassis_a_key (int : string -> option Z) (line : list string)
  : string :=
  match int (field 5 line) with
  | Some n =>
      if 0 <? n then ("ID " ++ field 5 line ++ " " ++ field 0 line)%string
      else ChassisA.sub_groups (field 0 line)
  | None => ""
  end.

(** A row of variant A's chassis table that can be parsed: six fields, the
    id an integer. *)
Definition chassis_a_row_ok (int : string -> option Z) (line : list string)
  : bool :=
  (6 <=? List.length line)%nat
  && match int (field 5 line) with
     | Some _ => true
     | None => false
     end.

(** A name of ASCII characters. *)
Fixpoint is_ascii (s : string) : bool :=
  match s with
  | EmptyString => true
  | String c s' => (nat_of_ascii c <? 128)%nat && is_ascii s'
  end.

(** A string of digits. *)
Fixpoint only_digits (s : string) : bool :=
  match s with
  | EmptyString => true
  | String c s' => ChassisA.isdigit c && only_digits s'
  end.

(** No parenthesised number starts anywhere in the name. *)
Definition has_no_group (name : string) : Prop :=
  forall before after,
    name = (before ++ after)%string -> ChassisA.match_group after = None.

(** The size in bytes a disk row of variant A declares: the size times two
    to the block size, when both fields are integers and the product does
    not overflow. *)
Definition disk_a_bytes (int : string -> option Z) (line : list string)
  : option number :=
  match int (field 5 line), int (field 6 line) with
  | Some size, Some blocksize =>
      match mul_pow2 size blocksize with
      | Ok bytes => Some bytes
      | Raise _ => None
      end
  | _, _ => None
  end.

(** The record a disk row holds in variant A. *)
Definition disk_a_record (int : string -> option Z)
  (disksize : number -> string) (line : list string)
  : DisksA.InfortrendDiskSection :=
  {| DisksA.slot := field 0 line;
     DisksA.state := saveint int (field 1 line);
     DisksA.description :=
       (field 2 line ++ " " ++ field 3 line ++ " " ++ field 4 line ++ ", "
        ++ disksize (match disk_a_bytes int line with
                     | Some bytes => bytes
                     | None => IntNumber 0
                     end)
        ++ ", ")%string |}.

(** A row of variant A's disk table that can be parsed: seven fields, size
    and block size integers whose product does not overflow. *)
Definition disk_a_row_ok (int : string -> option Z) (line : list string)
  : bool :=
  (7 <=? List.length line)%nat
  && match disk_a_bytes int line with
     | Some _ => true
     | None => false
     end.

(** The keys discovery announces: the non-empty ones. *)
Definition announced (ks : list string) : list string :=
  filter (fun k => negb (String.eqb k "")) ks.

End Rows.

Module Decode.

(** The off-line text, taken when bit 7 of the status is set. *)
Definition offline_text (status : Z) : string :=
  if Z.testbit status 7 then "Logical Drive Off-line (RW)" else "".

(** The severity of a logical-drive code of the table: the codes of
    [ok_codes] are OK, 1 and 2 are WARN, the others CRIT. *)
Definition ld_severity (ok_codes : list Z) (code : Z) : State :=
  if existsb (Z.eqb code) ok_codes then OK
  else if existsb (Z.eqb code) [1; 2] then WARN
  else CRIT.

End Decode.

(** ** Generators and dicts *)

Lemma get_In {V : Type} (d : dict Z V) (k : Z) (v : V) :
  get Z.eqb d k = Some v -> In (k, v) d.
Proof.
  induction d as [|[k' v'] rest IH]; simpl; [discriminate|].
  destruct (Z.eqb_spec k k') as [->|Hne].
  - intros [= ->]. now left.
  - intros H. right. now apply IH.
Qed.

Lemma ascending_get {V : Type} (d : dict Z V) (k : Z) (v : V) :
  Spec.ascending (keys d) = true -> In (k, v) d -> get Z.eqb d k = Some v.
Proof.
  induction d as [|[k0 v0] rest IH]; simpl; [contradiction|].
  intros Hasc [Heq|Hin].
  - injection Heq as -> ->. now rewrite Z.eqb_refl.
  - apply andb_prop in Hasc as [Hlt Hrest].
    rewrite forallb_forall in Hlt.
    assert (Hk : (k0 <? k) = true)
      by (apply Hlt; change k with (fst (k, v)); now apply in_map).
    apply Z.ltb_lt in Hk.
    destruct (Z.eqb_spec k k0) as [->|_]; [lia|].
    now apply IH.
Qed.

Lemma ascending_first_le {V : Type} (d : dict Z V) (k0 : Z) (v0 : V) :
  Spec.ascending (keys ((k0, v0) :: d)) = true ->
  forall k v, In (k, v) ((k0, v0) :: d) -> k0 <= k.
Proof.
  simpl. intros Hasc k v [Heq|Hin].
  - injection Heq as -> _. lia.
  - apply andb_prop in Hasc as [Hlt _].
    rewrite forallb_forall in Hlt.
    assert (Hk : (k0 <? k) = true)
      by (apply Hlt; change k with (fst (k, v)); now apply in_map).
    apply Z.ltb_lt in Hk. lia.
Qed.

Lemma last_cons_default {A : Type} (x : A) (l : list A) (d d' : A) :
  last (x :: l) d = last (x :: l) d'.
Proof.
  revert x. induction l as [|y l IH]; intros x; [reflexivity|].
  change (last (x :: y :: l) d) with (last (y :: l) d).
  change (last (x :: y :: l) d') with (last (y :: l) d').
  apply IH.
Qed.

(** A loop whose body overwrites its variables ends with the values of the
    last iteration. *)
Lemma for_each_overwrite {A S : Type} (body : A -> S -> py S) (f : A -> S)
  (xs : list A) :
  (forall x s, In x xs -> body x s = Ok (f x)) ->
  forall s, for_each xs body s = Ok (last (map f xs) s).
Proof.
  induction xs as [|x rest IH]; intros Hbody s; [reflexivity|].
  simpl for_each. rewrite Hbody by now left. simpl py_bind.
  rewrite IH by (intros y s' Hy; apply Hbody; now right).
  destruct rest as [|y rest']; [reflexivity|].
  f_equal. change (map f (x :: y :: rest')) with (f x :: map f (y :: rest')).
  change (last (f x :: map f (y :: rest')) s)
    with (last (map f (y :: rest')) s).
  now apply last_cons_default.
Qed.

Lemma last_map_entries {K V S : Type} (g : K * V -> S) (d : dict K V) (s : S) :
  last (map g d) s =
  match Spec.last_entry d with
  | Some e => g e
  | None => s
  end.
Proof.
  unfold Spec.last_entry.
  induction d as [|e rest IH]; [reflexivity|].
  destruct rest as [|e' rest']; [reflexivity|].
  change (last (map g (e :: e' :: rest')) s) with (last (map g (e' :: rest')) s).
  change (last (map Some (e :: e' :: rest')) None)
    with (last (map Some (e' :: rest')) (@None (K * V))).
  exact IH.
Qed.

(** ** Bit tests *)

(** [(status & 1 << bit) >> bit] is the bit of [status] at [bit], as 0 or 1. *)
Lemma bit_set_testbit (status bit : Z) :
  0 <= bit ->
  Z.shiftr (Z.land status (Z.shiftl 1 bit)) bit = Z.b2z (Z.testbit status bit).
Proof.
  intros Hbit. apply Z.bits_inj'. intros n Hn.
  rewrite Z.shiftr_spec, Z.land_spec, Z.shiftl_spec by lia.
  replace (n + bit - bit) with n by lia.
  destruct (Z.eq_dec n 0) as [->|Hne].
  - rewrite Z.add_0_l, Z.b2z_bit0. change (Z.testbit 1 0) with true.
    now rewrite andb_true_r.
  - rewrite (Z.bits_above_log2 1 n) by (simpl; lia).
    rewrite andb_false_r.
    destruct (Z.testbit status bit); simpl.
    + symmetry. apply (Z.bits_above_log2 1 n); simpl; lia.
    + symmetry. apply Z.bits_0.
Qed.

Lemma tuple_getitem_b2z {A : Type} (t : A * A) (b : bool) :
  tuple_getitem t (Z.b2z b) = Ok (if b then snd t else fst t).
Proof. destruct b; reflexivity. Qed.

(** ** Chassis sensors, variant A *)

(** Every entry of variant A's table declares its bits in ascending order
    from bit 0 and ends with an informational bit. *)
Lemma chassis_a_table_shape (t : Z) (entry : status_info (Z * string)) :
  get Z.eqb ChassisA.STATUS_INFO_MAP t = Some entry ->
  exists b, bits entry = Some b
            /\ Spec.bits_from_zero b = true
            /\ Spec.ends_informational b = true.
Proof.
  intros Hget. apply get_In in Hget.
  assert (Hall : forallb (fun e : Z * status_info (Z * string) =>
                            match bits (snd e) with
                            | Some b => Spec.bits_from_zero b
                                        && Spec.ends_informational b
                            | None => false
                            end) ChassisA.STATUS_INFO_MAP = true)
    by (vm_compute; reflexivity).
  rewrite forallb_forall in Hall. specialize (Hall _ Hget). simpl in Hall.
  destruct (bits entry) as [b|]; [|discriminate].
  apply andb_prop in Hall as [H1 H2]. now exists b.
Qed.

Lemma bits_from_zero_inv (b : dict Z (string * string)) :
  Spec.bits_from_zero b = true ->
  Spec.ascending (keys b) = true
  /\ (exists messages, get Z.eqb b 0 = Some messages)
  /\ (forall bit messages, In (bit, messages) b -> 0 <= bit).
Proof.
  unfold Spec.bits_from_zero. intros H.
  apply andb_prop in H as [Hasc Hfirst]. split; [exact Hasc|].
  destruct b as [|[k0 m0] rest]; [discriminate|].
  simpl in Hfirst. apply Z.eqb_eq in Hfirst. subst k0.
  split; [exists m0; reflexivity|].
  intros bit messages Hin.
  exact (ascending_first_le rest 0 m0 Hasc bit messages Hin).
Qed.

Lemma ends_informational_inv (b : dict Z (string * string)) :
  Spec.ends_informational b = true ->
  exists bit messages, Spec.last_entry b = Some (bit, messages) /\ 6 <= bit.
Proof.
  unfold Spec.ends_informational.
  destruct (Spec.last_entry b) as [[bit messages]|]; [|discriminate].
  intros H. apply Z.leb_le in H. now exists bit, messages.
Qed.

Section ChassisADecode.
Variable sensor_data : InfortrendChassisSensorSection.
Variables (t s : Z) (entry : status_info (Z * string)).
Variable b : dict Z (string * string).
Hypothesis Htype : sensor_type sensor_data = Int t.
Hypothesis Hstatus : sensor_status sensor_data = Int s.
Hypothesis Hentry : get Z.eqb ChassisA.STATUS_INFO_MAP t = Some entry.
Hypothesis Hbits : bits entry = Some b.

Lemma chassis_a_type_bits : ChassisA.type_bits (Int t) = Ok b.
Proof.
  unfold ChassisA.type_bits, getitem_int, get_int, getitem_bits.
  rewrite Hentry. cbn [py_bind]. now rewrite Hbits.
Qed.

Lemma chassis_a_bit_text (bit : Z) (messages : string * string) (set : bool) :
  get Z.eqb b bit = Some messages ->
  ChassisA.bit_text (Int t) bit (Z.b2z set)
  = Ok (if set then snd messages else fst messages).
Proof.
  intros Hget. unfold ChassisA.bit_text.
  rewrite chassis_a_type_bits. cbn [py_bind].
  unfold getitem. rewrite Hget. cbn [py_bind].
  apply tuple_getitem_b2z.
Qed.

(** One iteration: whatever the pair was, it becomes the pair of this bit. *)
Lemma chassis_a_bit_verdict (bit : Z) (messages : string * string)
  (previous : State * string) :
  get Z.eqb b bit = Some messages ->
  0 <= bit ->
  ChassisA.bit_verdict sensor_data bit previous
  = Ok (Spec.bit_pair_a s (bit, messages)).
Proof.
  intros Hget Hbit. unfold ChassisA.bit_verdict.
  rewrite Hstatus, Htype. cbn [and_ py_bind].
  rewrite bit_set_testbit by exact Hbit.
  unfold Spec.bit_pair_a.
  rewrite !(chassis_a_bit_text bit messages (Z.testbit s bit) Hget).
  destruct (Z.testbit s bit), (bit <? 6); reflexivity.
Qed.

Hypothesis Hshape : Spec.bits_from_zero b = true.

(** The loop over the bits leaves the pair of the last declared bit. *)
Lemma chassis_a_loop (start : State * string) :
  for_each (keys b) (ChassisA.bit_verdict sensor_data) start
  = Ok match Spec.last_entry b with
       | Some e => Spec.bit_pair_a s e
       | None => start
       end.
Proof.
  destruct (bits_from_zero_inv b Hshape) as (Hasc & _ & Hnonneg).
  pose (f := fun bit : Z =>
               match get Z.eqb b bit with
               | Some messages => Spec.bit_pair_a s (bit, messages)
               | None => start
               end).
  rewrite (for_each_overwrite _ f).
  - f_equal. unfold keys. rewrite map_map.
    rewrite (map_ext_in _ (Spec.bit_pair_a s)).
    + apply last_map_entries.
    + intros [bit messages] Hin. unfold f. cbn [fst].
      now rewrite (ascending_get b bit messages Hasc Hin).
  - intros bit previous Hin. unfold keys in Hin.
    apply in_map_iff in Hin as ([bit' messages] & Heq & Hin).
    cbn [fst] in Heq. subst bit'. unfold f.
    rewrite (ascending_get b bit messages Hasc Hin).
    apply chassis_a_bit_verdict.
    + exact (ascending_get b bit messages Hasc Hin).
    + exact (Hnonneg bit messages Hin).
Qed.

(** The block that submits the check results yields one Result: the pair
    the specification describes. *)
Lemma chassis_a_submit_check_results (verdict : State * string) :
  Spec.decode_a b s = Some verdict ->
  ChassisA.submit_check_results sensor_data
  = yield (Result (fst verdict) (snd verdict)).
Proof.
  unfold Spec.decode_a, ChassisA.submit_check_results.
  rewrite Hstatus, Htype. cbn [eq_int].
  destruct (s =? 0).
  - destruct (get Z.eqb b 0) as [messages|] eqn:Hget; [|discriminate].
    intros [= <-].
    change 0 with (Z.b2z false) at 2.
    rewrite (chassis_a_bit_text 0 messages false Hget). reflexivity.
  - rewrite chassis_a_type_bits.
    unfold bind, lift. cbn [outcome emitted].
    rewrite chassis_a_loop.
    destruct (Spec.last_entry b) as [e|]; [|discriminate].
    intros [= <-]. reflexivity.
Qed.

End ChassisADecode.

(** The metric block yields nothing but metrics. *)
Lemma chassis_a_submit_metrics_results
  (sensor_data : InfortrendChassisSensorSection) :
  results (ChassisA.submit_metrics sensor_data) = [].
Proof.
  unfold ChassisA.submit_metrics.
  destruct (contains_int _ _); [|reflexivity].
  destruct (getitem_int _ _) as [info|e]; [|reflexivity].
  unfold bind, lift; cbn [outcome emitted].
  destruct (truediv _ _); reflexivity.
Qed.

Lemma results_bind_yield (g : CheckResult) (st : State) (txt : string) :
  results g = [] ->
  results (bind g (fun _ => yield (Result st txt)))
  = match outcome g with
    | Ok _ => [(st, txt)]
    | Raise _ => []
    end.
Proof.
  unfold results, bind. intros Hg.
  destruct (outcome g); cbn [emitted]; [|exact Hg].
  rewrite flat_map_app, Hg. reflexivity.
Qed.

(** The whole check of variant A, for an item whose type is in the table
    and whose status is an integer: the metric block, then one Result. *)
Lemma chassis_a_check (item : string)
  (section : dict string InfortrendChassisSensorSection)
  (sensor_data : InfortrendChassisSensorSection) (t s : Z)
  (entry : status_info (Z * string)) :
  get String.eqb section item = Some sensor_data ->
  sensor_type sensor_data = Int t ->
  sensor_status sensor_data = Int s ->
  get Z.eqb ChassisA.STATUS_INFO_MAP t = Some entry ->
  exists b verdict,
    bits entry = Some b
    /\ Spec.bits_from_zero b = true
    /\ Spec.ends_informational b = true
    /\ Spec.decode_a b s = Some verdict
    /\ ChassisA.check_infortrend_chassis_sensors_a item section
       = bind (ChassisA.submit_metrics sensor_data)
              (fun _ => yield (Result (fst verdict) (snd verdict))).
Proof.
  intros Hitem Htype Hstatus Hentry.
  destruct (chassis_a_table_shape t entry Hentry) as (b & Hbits & Hshape & Hend).
  destruct (bits_from_zero_inv b Hshape) as (_ & [m0 Hm0] & _).
  destruct (ends_informational_inv b Hend) as (bit & messages & Hlast & _).
  assert (Hdec : exists verdict, Spec.decode_a b s = Some verdict).
  { unfold Spec.decode_a. rewrite Hm0, Hlast.
    destruct (s =? 0); eexists; reflexivity. }
  destruct Hdec as [verdict Hdec].
  exists b, verdict. repeat split; try assumption.
  unfold ChassisA.check_infortrend_chassis_sensors_a. rewrite Hitem.
  now rewrite (chassis_a_submit_check_results
                 sensor_data t s entry b Htype Hstatus Hentry Hbits Hshape
                 verdict Hdec).
Qed.

(** X26. The decoding of variant A, for an item of the section whose type is
    in the status table and whose status is the integer [s].  The declared bit
    positions are in ascending order.  One iteration of the loop replaces
    the pair, whatever it was, by the pair of its bit: a set bit below 6
    gives CRIT with the "set" message, a clear bit OK with the "clear"
    message, and bits 6 and 7 OK whether set or clear; so the loop leaves
    the pair of the last declared bit.  The check is the metric block
    followed by exactly one Result: for status 0 it is OK with the "clear"
    message of bit 0, for any other status the pair the loop leaves. *)
Theorem chassis_a_decode_last_bit_wins (item : string)
  (section : dict string InfortrendChassisSensorSection)
  (sensor_data : InfortrendChassisSensorSection) (t s : Z)
  (entry : status_info (Z * string)) :
  get String.eqb section item = Some sensor_data ->
  sensor_type sensor_data = Int t ->
  sensor_status sensor_data = Int s ->
  get Z.eqb ChassisA.STATUS_INFO_MAP t = Some entry ->
  exists b verdict,
    bits entry = Some b
    /\ Spec.ascending (keys b) = true
    /\ Spec.decode_a b s = Some verdict
    /\ (forall bit messages previous,
          In (bit, messages) b ->
          ChassisA.bit_verdict sensor_data bit previous
          = Ok (if Z.testbit s bit
                then (if bit <? 6 then CRIT else OK, snd messages)
                else (OK, fst messages)))
    /\ (forall previous,
          for_each (keys b) (ChassisA.bit_verdict sensor_data) previous
          = Ok match Spec.last_entry b with
               | Some last_bit => Spec.bit_pair_a s last_bit
               | None => previous
               end)
    /\ ChassisA.check_infortrend_chassis_sensors_a item section
       = bind (ChassisA.submit_metrics sensor_data)
              (fun _ => yield (Result (fst verdict) (snd verdict)))
    /\ (outcome (ChassisA.submit_metrics sensor_data) = Ok tt ->
        results (ChassisA.check_infortrend_chassis_sensors_a item section)
        = [verdict]
        /\ outcome (ChassisA.check_infortrend_chassis_sensors_a item section)
           = Ok tt).
Proof.
  intros Hitem Htype Hstatus Hentry.
  destruct (chassis_a_check item section sensor_data t s entry
              Hitem Htype Hstatus Hentry)
    as (b & verdict & Hbits & Hshape & _ & Hdec & Hcheck).
  exists b, verdict.
  destruct (bits_from_zero_inv b Hshape) as (Hasc & _ & Hnonneg).
  split; [exact Hbits|].
  split; [exact Hasc|].
  split; [exact Hdec|].
  split.
  { intros bit messages previous Hin.
    exact (chassis_a_bit_verdict sensor_data t s entry b
             Htype Hstatus Hentry Hbits bit messages previous
             (ascending_get b bit messages Hasc Hin)
             (Hnonneg bit messages Hin)). }
  split.
  { intros previous.
    exact (chassis_a_loop sensor_data t s entry b
             Htype Hstatus Hentry Hbits Hshape previous). }
  split; [exact Hcheck|].
  intros Hmetrics. rewrite Hcheck. split.
  - rewrite results_bind_yield by apply chassis_a_submit_metrics_results.
    rewrite Hmetrics. now destruct verdict.
  - unfold bind. now rewrite Hmetrics.
Qed.

(** A fan reporting status 1: bit 0 is set, bits 6 and 7 are clear, and the
    verdict is that of bit 7. *)
Lemma chassis_a_decode_last_bit_wins_witness :
  exists b verdict,
    bits {| bits := Some [(0, ("Fan functioning normally",
                               "Fan malfunctioning"));
                          (6, ("Fan is ON", "Fan is OFF"));
                          (7, ("Fan IS present", "Fan is NOT present"))];
            adtl_info := @None (dict Z (Z * string));
            adtl_func := None |} = Some b
    /\ Spec.ascending (keys b) = true
    /\ Spec.decode_a b 1 = Some verdict
    /\ (forall bit messages previous,
          In (bit, messages) b ->
          ChassisA.bit_verdict
            {| sensor_status := Int 1; sensor_type := Int 2;
               metric_value_raw := Int 0; metric_unit_raw := "" |}
            bit previous
          = Ok (if Z.testbit 1 bit
                then (if bit <? 6 then CRIT else OK, snd messages)
                else (OK, fst messages)))
    /\ (forall previous,
          for_each (keys b)
            (ChassisA.bit_verdict
               {| sensor_status := Int 1; sensor_type := Int 2;
                  metric_value_raw := Int 0; metric_unit_raw := "" |})
            previous
          = Ok match Spec.last_entry b with
               | Some last_bit => Spec.bit_pair_a 1 last_bit
               | None => previous
               end)
    /\ ChassisA.check_infortrend_chassis_sensors_a "Fan 1"
         [("Fan 1", {| sensor_status := Int 1; sensor_type := Int 2;
                       metric_value_raw := Int 0; metric_unit_raw := "" |})]
       = bind (ChassisA.submit_metrics
                 {| sensor_status := Int 1; sensor_type := Int 2;
                    metric_value_raw := Int 0; metric_unit_raw := "" |})
              (fun _ => yield (Result (fst verdict) (snd verdict)))
    /\ (outcome (ChassisA.submit_metrics
                   {| sensor_status := Int 1; sensor_type := Int 2;
                      metric_value_raw := Int 0; metric_unit_raw := "" |})
        = Ok tt ->
        results (ChassisA.check_infortrend_chassis_sensors_a "Fan 1"
                   [("Fan 1", {| sensor_status := Int 1; sensor_type := Int 2;
                                 metric_value_raw := Int 0;
                                 metric_unit_raw := "" |})])
        = [verdict]
        /\ outcome (ChassisA.check_infortrend_chassis_sensors_a "Fan 1"
                      [("Fan 1", {| sensor_status := Int 1;
                                    sensor_type := Int 2;
                                    metric_value_raw := Int 0;
                                    metric_unit_raw := "" |})])
           = Ok tt).
Proof.
  apply (chassis_a_decode_last_bit_wins "Fan 1"
           [("Fan 1", {| sensor_status := Int 1; sensor_type := Int 2;
                         metric_value_raw := Int 0; metric_unit_raw := "" |})]
           {| sensor_status := Int 1; sensor_type := Int 2;
              metric_value_raw := Int 0; metric_unit_raw := "" |}
           2 1); reflexivity.
Defined.

(** C2, evaluated on the code.  A temperature sensor is an item of the
    section whose type is in the status table.  With an absent raw value the
    division of the metric block raises TypeError before the status is
    decoded: for status 0, and for status 1, the check yields no Result
    where the claim has exactly one.  With the raw value 250 it yields the
    one Result the claim describes, after the metric. *)
Theorem chassis_a_decode_absent_raw_no_result :
  contains_int ChassisA.STATUS_INFO_MAP
    (Int InfortrendChassisSensorTypeEnum.TEMPERATURE) = true
  /\ ChassisA.check_infortrend_chassis_sensors_a "CPU Temp"
       [("CPU Temp",
         {| sensor_status := Int 0;
            sensor_type := Int InfortrendChassisSensorTypeEnum.TEMPERATURE;
            metric_value_raw := Empty; metric_unit_raw := "" |})]
     = Gen [] (Raise TypeError)
  /\ ChassisA.check_infortrend_chassis_sensors_a "CPU Temp"
       [("CPU Temp",
         {| sensor_status := Int 1;
            sensor_type := Int InfortrendChassisSensorTypeEnum.TEMPERATURE;
            metric_value_raw := Empty; metric_unit_raw := "" |})]
     = Gen [] (Raise TypeError)
  /\ ChassisA.check_infortrend_chassis_sensors_a "CPU Temp"
       [("CPU Temp",
         {| sensor_status := Int 0;
            sensor_type := Int InfortrendChassisSensorTypeEnum.TEMPERATURE;
            metric_value_raw := Int 250; metric_unit_raw := "" |})]
     = Gen [Metric "temp" (Float false (inject_Z 25));
            Result OK "Temp. sensor functioning normally"] (Ok tt)
  /\ ChassisA.check_infortrend_chassis_sensors_a "CPU Temp"
       [("CPU Temp",
         {| sensor_status := Int 1;
            sensor_type := Int InfortrendChassisSensorTypeEnum.TEMPERATURE;
            metric_value_raw := Int 250; metric_unit_raw := "" |})]
     = Gen [Metric "temp" (Float false (inject_Z 25));
            Result OK "Temperature sensor IS present"] (Ok tt).
Proof. repeat split. Qed.

(** A fan with status 1: bit 0 gives CRIT "Fan malfunctioning", and the
    pairs of bits 6 and 7 overwrite it. *)
Lemma chassis_a_fan_status_1 :
  for_each [0]
    (ChassisA.bit_verdict
       {| sensor_status := Int 1; sensor_type := Int 2;
          metric_value_raw := Int 0; metric_unit_raw := "" |}) (OK, "")
  = Ok (CRIT, "Fan malfunctioning")
  /\ ChassisA.check_infortrend_chassis_sensors_a "Fan 1"
       [("Fan 1", {| sensor_status := Int 1; sensor_type := Int 2;
                     metric_value_raw := Int 0; metric_unit_raw := "" |})]
     = Gen [Result OK "Fan IS present"] (Ok tt)
  /\ ChassisA.check_infortrend_chassis_sensors_a "Fan 1"
       [("Fan 1", {| sensor_status := Int 0; sensor_type := Int 2;
                     metric_value_raw := Int 0; metric_unit_raw := "" |})]
     = Gen [Result OK "Fan functioning normally"] (Ok tt).
Proof. repeat split. Qed.

(** When the last declared bit is 6 or 7, the decoded severity is OK. *)
Lemma decode_a_ok (b : dict Z (string * string)) (s : Z)
  (verdict : State * string) :
  Spec.ends_informational b = true ->
  Spec.decode_a b s = Some verdict ->
  fst verdict = OK.
Proof.
  intros Hend. unfold Spec.decode_a.
  destruct (ends_informational_inv b Hend) as (bit & messages & Hlast & Hbit).
  destruct (s =? 0).
  - destruct (get Z.eqb b 0); [|discriminate]. now intros [= <-].
  - rewrite Hlast. cbn [option_map Spec.bit_pair_a]. intros [= <-].
    assert (Hlt : (bit <? 6) = false) by (apply Z.ltb_ge; lia).
    rewrite Hlt. now destruct (Z.testbit s bit).
Qed.

(** C3. Chassis variant A, for an item of the section whose type is in the
    status table and whose status is an integer: every Result the check
    yields has severity OK, because the table of every type ends with bit 6
    or 7, whose pair overwrites the one of any earlier bit. *)
Theorem chassis_a_status_result_is_ok (item : string)
  (section : dict string InfortrendChassisSensorSection)
  (sensor_data : InfortrendChassisSensorSection) (t s : Z)
  (entry : status_info (Z * string)) :
  get String.eqb section item = Some sensor_data ->
  sensor_type sensor_data = Int t ->
  sensor_status sensor_data = Int s ->
  get Z.eqb ChassisA.STATUS_INFO_MAP t = Some entry ->
  (exists b, bits entry = Some b /\ Spec.ends_informational b = true)
  /\ (forall st txt,
        In (st, txt)
           (results (ChassisA.check_infortrend_chassis_sensors_a item section))
        -> st = OK)
  /\ (outcome (ChassisA.submit_metrics sensor_data) = Ok tt ->
      exists txt,
        results (ChassisA.check_infortrend_chassis_sensors_a item section)
        = [(OK, txt)]).
Proof.
  intros Hitem Htype Hstatus Hentry.
  destruct (chassis_a_check item section sensor_data t s entry
              Hitem Htype Hstatus Hentry)
    as (b & verdict & Hbits & _ & Hend & Hdec & Hcheck).
  split; [now exists b|].
  rewrite Hcheck.
  rewrite results_bind_yield by apply chassis_a_submit_metrics_results.
  pose proof (decode_a_ok b s verdict Hend Hdec) as Hok.
  split.
  - intros st txt.
    destruct (outcome (ChassisA.submit_metrics sensor_data)).
    + intros [[= <- _]|[]]. exact Hok.
    + intros [].
  - intros ->. exists (snd verdict). destruct verdict as [st txt].
    cbn [fst snd] in *. now subst st.
Qed.

(** A UPS reporting status 3 (malfunctioning, no AC power) is still OK. *)
Lemma chassis_a_status_result_is_ok_witness :
  (exists b,
      bits {| bits := Some [(0, ("Unit functioning normally",
                                 "Unit malfunctioning"));
                            (1, ("AC Power present", "AC Power NOT present"));
                            (6, ("UPS is ON", "UPS is OFF"));
                            (7, ("UPS IS present", "UPS is NOT present"))];
              adtl_info := Some [(0, (0, "battery fully charged"));
                                 (1, (1, "battery not fully charged"));
                                 (2, (2, "battery charge critically low"));
                                 (3, (2, "battery completely drained"))];
              adtl_func := Some (fun status => Z.land (Z.shiftr status 2) 3)
           |} = Some b
      /\ Spec.ends_informational b = true)
  /\ (forall st txt,
        In (st, txt)
           (results (ChassisA.check_infortrend_chassis_sensors_a "UPS"
                       [("UPS", {| sensor_status := Int 3;
                                   sensor_type := Int 4;
                                   metric_value_raw := Empty;
                                   metric_unit_raw := "" |})]))
        -> st = OK)
  /\ (outcome (ChassisA.submit_metrics
                 {| sensor_status := Int 3; sensor_type := Int 4;
                    metric_value_raw := Empty; metric_unit_raw := "" |})
      = Ok tt ->
      exists txt,
        results (ChassisA.check_infortrend_chassis_sensors_a "UPS"
                   [("UPS", {| sensor_status := Int 3;
                               sensor_type := Int 4;
                               metric_value_raw := Empty;
                               metric_unit_raw := "" |})])
        = [(OK, txt)]).
Proof.
  apply (chassis_a_status_result_is_ok "UPS"
           [("UPS", {| sensor_status := Int 3; sensor_type := Int 4;
                       metric_value_raw := Empty; metric_unit_raw := "" |})]
           {| sensor_status := Int 3; sensor_type := Int 4;
              metric_value_raw := Empty; metric_unit_raw := "" |}
           4 3); reflexivity.
Defined.

(** ** Chassis sensors, variant B *)

(** Every entry of variant B's table that declares bits declares them in
    ascending order from bit 0. *)
Lemma chassis_b_table_shape (t : Z) (entry : status_info string)
  (b : dict Z (string * string)) :
  get Z.eqb ChassisB.STATUS_INFO_MAP t = Some entry ->
  bits entry = Some b ->
  Spec.bits_from_zero b = true.
Proof.
  intros Hget Hbits. apply get_In in Hget.
  assert (Hall : forallb (fun e : Z * status_info string =>
                            match bits (snd e) with
                            | Some b => Spec.bits_from_zero b
                            | None => true
                            end) ChassisB.STATUS_INFO_MAP = true)
    by (vm_compute; reflexivity).
  rewrite forallb_forall in Hall. specialize (Hall _ Hget). simpl in Hall.
  now rewrite Hbits in Hall.
Qed.

(** A loop whose body yields one value per iteration. *)
Lemma for_yield_map {A E : Type} (body : A -> gen E unit) (f : A -> E)
  (xs : list A) :
  (forall x, In x xs -> body x = yield (f x)) ->
  for_yield xs body = Gen (map f xs) (Ok tt).
Proof.
  induction xs as [|x rest IH]; intros Hbody; [reflexivity|].
  simpl for_yield. rewrite Hbody by now left.
  rewrite IH by (intros y Hy; apply Hbody; now right).
  reflexivity.
Qed.

Section ChassisBDecode.
Variable sensor_data : InfortrendChassisSensorSection.
Variables (t s : Z) (entry : status_info string).
Variable b : dict Z (string * string).
Hypothesis Htype : sensor_type sensor_data = Int t.
Hypothesis Hstatus : sensor_status sensor_data = Int s.
Hypothesis Hentry : get Z.eqb ChassisB.STATUS_INFO_MAP t = Some entry.
Hypothesis Hbits : bits entry = Some b.

Lemma chassis_b_type_bits : ChassisB.type_bits (Int t) = Ok b.
Proof.
  unfold ChassisB.type_bits, getitem_int, get_int, getitem_bits.
  rewrite Hentry. cbn [py_bind]. now rewrite Hbits.
Qed.

Lemma chassis_b_bit_text (bit : Z) (messages : string * string) (set : bool) :
  get Z.eqb b bit = Some messages ->
  ChassisB.bit_text (Int t) bit (Z.b2z set)
  = Ok (if set then snd messages else fst messages).
Proof.
  intros Hget. unfold ChassisB.bit_text.
  rewrite chassis_b_type_bits. cbn [py_bind].
  unfold getitem. rewrite Hget. cbn [py_bind].
  apply tuple_getitem_b2z.
Qed.

Lemma chassis_b_override (pair : State * string) :
  ChassisB.override_64 sensor_data pair = Spec.override_b t s pair.
Proof.
  unfold ChassisB.override_64, Spec.override_b.
  rewrite Hstatus, Htype. reflexivity.
Qed.

(** One iteration yields the Result of this bit. *)
Lemma chassis_b_bit_result (bit : Z) (messages : string * string) :
  get Z.eqb b bit = Some messages ->
  0 <= bit ->
  ChassisB.bit_result sensor_data bit
  = yield (let pair := Spec.override_b t s
                         (Spec.bit_pair_b s (bit, messages)) in
           Result (fst pair) (snd pair)).
Proof.
  intros Hget Hbit. unfold ChassisB.bit_result.
  rewrite Hstatus at 1. cbn [and_].
  unfold bind at 1, lift at 1. cbn [outcome emitted app].
  rewrite bit_set_testbit by exact Hbit.
  rewrite Htype.
  rewrite !(chassis_b_bit_text bit messages (Z.testbit s bit) Hget).
  unfold Spec.bit_pair_b.
  destruct (Z.testbit s bit); cbn [Z.b2z Z.eqb negb py_bind];
    unfold bind, lift; cbn [outcome emitted app];
    rewrite chassis_b_override; reflexivity.
Qed.

Hypothesis Hshape : Spec.bits_from_zero b = true.

(** The loop over the bits yields one Result per declared bit. *)
Lemma chassis_b_loop :
  for_yield (keys b) (ChassisB.bit_result sensor_data)
  = Gen (Spec.as_results
           (map (fun e => Spec.override_b t s (Spec.bit_pair_b s e)) b))
        (Ok tt).
Proof.
  destruct (bits_from_zero_inv b Hshape) as (Hasc & _ & Hnonneg).
  pose (f := fun bit : Z =>
               match get Z.eqb b bit with
               | Some messages =>
                   let pair := Spec.override_b t s
                                 (Spec.bit_pair_b s (bit, messages)) in
                   Result (fst pair) (snd pair)
               | None => Result UNKNOWN ""
               end).
  rewrite (for_yield_map _ f).
  - f_equal. unfold keys, Spec.as_results. rewrite !map_map.
    apply map_ext_in. intros [bit messages] Hin. unfold f. cbn [fst].
    now rewrite (ascending_get b bit messages Hasc Hin).
  - intros bit Hin. unfold keys in Hin.
    apply in_map_iff in Hin as ([bit' messages] & Heq & Hin).
    cbn [fst] in Heq. subst bit'. unfold f.
    rewrite (ascending_get b bit messages Hasc Hin).
    apply chassis_b_bit_result.
    + exact (ascending_get b bit messages Hasc Hin).
    + exact (Hnonneg bit messages Hin).
Qed.

(** The block that submits the check results yields the Results the
    specification describes. *)
Lemma chassis_b_submit_check_results (pairs : list (State * string)) :
  Spec.decode_b t b s = Some pairs ->
  ChassisB.submit_check_results sensor_data
  = Gen (Spec.as_results pairs) (Ok tt).
Proof.
  unfold Spec.decode_b, ChassisB.submit_check_results.
  rewrite Hstatus, Htype. cbn [eq_int].
  destruct (s =? 0).
  - destruct (get Z.eqb b 0) as [messages|] eqn:Hget; [|discriminate].
    intros [= <-].
    change 0 with (Z.b2z false) at 2.
    rewrite (chassis_b_bit_text 0 messages false Hget). reflexivity.
  - destruct (s =? 255).
    + intros [= <-]. reflexivity.
    + intros [= <-]. rewrite chassis_b_type_bits.
      unfold bind, lift. cbn [outcome emitted app].
      now rewrite chassis_b_loop.
Qed.

End ChassisBDecode.

Lemma chassis_b_submit_metrics_results
  (sensor_data : InfortrendChassisSensorSection) :
  results (ChassisB.submit_metrics sensor_data) = [].
Proof.
  unfold ChassisB.submit_metrics.
  destruct (contains_int _ _); [|reflexivity].
  destruct (getitem_int _ _) as [info|e]; [|reflexivity].
  unfold bind, lift; cbn [outcome emitted].
  destruct (truediv _ _); reflexivity.
Qed.

Lemma results_as_results (pairs : list (State * string)) :
  results (Gen (Spec.as_results pairs) (Ok tt)) = pairs.
Proof.
  unfold results. cbn [emitted].
  induction pairs as [|[st txt] rest IH]; [reflexivity|].
  simpl. now rewrite IH.
Qed.

Lemma results_bind_as_results (g : CheckResult)
  (pairs : list (State * string)) :
  results g = [] ->
  results (bind g (fun _ => Gen (Spec.as_results pairs) (Ok tt)))
  = match outcome g with
    | Ok _ => pairs
    | Raise _ => []
    end.
Proof.
  intros Hg. pose proof (results_as_results pairs) as Hpairs.
  unfold results, bind in *.
  destruct (outcome g); cbn [emitted] in *; [|exact Hg].
  rewrite flat_map_app, Hg, Hpairs. reflexivity.
Qed.

(** The decoding of variant B, for an item of the section whose type has an
    entry with declared bits in the status table and whose status is the
    integer [s].  The declared bit positions are in ascending order.
    After the metric block the check yields: for status 0 exactly one OK
    Result with the "clear" message of bit 0; for status 255 exactly one
    UNKNOWN Result "Status unknown"; for any other status one Result per
    declared bit, a set bit giving CRIT with the "set" message and " (!)",
    a clear bit OK with the "clear" message, and, when the status is 64, each
    overridden to OK with ", " appended for an LED and to CRIT with the
    status prefixed for every other type. *)
Lemma chassis_b_decode_per_bit (item : string)
  (section : dict string InfortrendChassisSensorSection)
  (sensor_data : InfortrendChassisSensorSection) (t s : Z)
  (entry : status_info string) (b : dict Z (string * string)) :
  get String.eqb section item = Some sensor_data ->
  sensor_type sensor_data = Int t ->
  sensor_status sensor_data = Int s ->
  get Z.eqb ChassisB.STATUS_INFO_MAP t = Some entry ->
  bits entry = Some b ->
  Spec.ascending (keys b) = true
  /\ exists pairs,
       Spec.decode_b t b s = Some pairs
       /\ ChassisB.check_infortrend_chassis_sensors_b item section
          = bind (ChassisB.submit_metrics sensor_data)
                 (fun _ => Gen (Spec.as_results pairs) (Ok tt))
       /\ (outcome (ChassisB.submit_metrics sensor_data) = Ok tt ->
           results (ChassisB.check_infortrend_chassis_sensors_b item section)
           = pairs
           /\ outcome
                (ChassisB.check_infortrend_chassis_sensors_b item section)
              = Ok tt).
Proof.
  intros Hitem Htype Hstatus Hentry Hbits.
  pose proof (chassis_b_table_shape t entry b Hentry Hbits) as Hshape.
  destruct (bits_from_zero_inv b Hshape) as (Hasc & [m0 Hm0] & _).
  split; [exact Hasc|].
  assert (Hdec : exists pairs, Spec.decode_b t b s = Some pairs).
  { unfold Spec.decode_b. rewrite Hm0.
    destruct (s =? 0); [|destruct (s =? 255)]; eexists; reflexivity. }
  destruct Hdec as [pairs Hdec]. exists pairs.
  split; [exact Hdec|].
  assert (Hcheck : ChassisB.check_infortrend_chassis_sensors_b item section
                   = bind (ChassisB.submit_metrics sensor_data)
                          (fun _ => Gen (Spec.as_results pairs) (Ok tt))).
  { unfold ChassisB.check_infortrend_chassis_sensors_b. rewrite Hitem.
    now rewrite (chassis_b_submit_check_results
                   sensor_data t s entry b Htype Hstatus Hentry Hbits Hshape
                   pairs Hdec). }
  split; [exact Hcheck|].
  intros Hmetrics. rewrite Hcheck. split.
  - rewrite results_bind_as_results by apply chassis_b_submit_metrics_results.
    now rewrite Hmetrics.
  - unfold bind. now rewrite Hmetrics.
Qed.

(** An LED reporting status 64. *)
Lemma chassis_b_led_decode :
  Spec.ascending (keys [(0, ("", ""));
                        (6, ("LED is active", "LED is inactive"));
                        (7, ("LED is present", "LED is NOT present"))]) = true
  /\ exists pairs,
       Spec.decode_b 12 [(0, ("", ""));
                         (6, ("LED is active", "LED is inactive"));
                         (7, ("LED is present", "LED is NOT present"))] 64
       = Some pairs
       /\ ChassisB.check_infortrend_chassis_sensors_b "LED"
            [("LED", {| sensor_status := Int 64; sensor_type := Int 12;
                        metric_value_raw := Int 0; metric_unit_raw := "" |})]
          = bind (ChassisB.submit_metrics
                    {| sensor_status := Int 64; sensor_type := Int 12;
                       metric_value_raw := Int 0; metric_unit_raw := "" |})
                 (fun _ => Gen (Spec.as_results pairs) (Ok tt))
       /\ (outcome (ChassisB.submit_metrics
                      {| sensor_status := Int 64; sensor_type := Int 12;
                         metric_value_raw := Int 0; metric_unit_raw := "" |})
           = Ok tt ->
           results (ChassisB.check_infortrend_chassis_sensors_b "LED"
                      [("LED", {| sensor_status := Int 64;
                                  sensor_type := Int 12;
                                  metric_value_raw := Int 0;
                                  metric_unit_raw := "" |})])
           = pairs
           /\ outcome (ChassisB.check_infortrend_chassis_sensors_b "LED"
                         [("LED", {| sensor_status := Int 64;
                                     sensor_type := Int 12;
                                     metric_value_raw := Int 0;
                                     metric_unit_raw := "" |})])
              = Ok tt).
Proof.
  apply (chassis_b_decode_per_bit "LED"
           [("LED", {| sensor_status := Int 64; sensor_type := Int 12;
                       metric_value_raw := Int 0; metric_unit_raw := "" |})]
           {| sensor_status := Int 64; sensor_type := Int 12;
              metric_value_raw := Int 0; metric_unit_raw := "" |}
           12 64
           {| bits := Some [(0, ("", ""));
                            (6, ("LED is active", "LED is inactive"));
                            (7, ("LED is present", "LED is NOT present"))];
              adtl_info := None; adtl_func := None |});
    reflexivity.
Defined.

(** C4, evaluated on the code.  Type 8 is a key of variant B's status table
    whose entry is the empty dict.  For an item of the section of that type
    the lookup of ['bits'] raises KeyError: with status 0 the check yields
    no Result where the claim has exactly one OK Result; it raises in the
    same way for status 1, and only status 255, which does not look the
    bits up, gives its UNKNOWN Result. *)
Theorem chassis_b_type_8_raises :
  contains_int ChassisB.STATUS_INFO_MAP (Int 8) = true
  /\ get Z.eqb ChassisB.STATUS_INFO_MAP 8
     = Some {| bits := None; adtl_info := None; adtl_func := None |}
  /\ ChassisB.check_infortrend_chassis_sensors_b "Temp flags"
       [("Temp flags", {| sensor_status := Int 0; sensor_type := Int 8;
                          metric_value_raw := Int 0; metric_unit_raw := "" |})]
     = Gen [] (Raise KeyError)
  /\ ChassisB.check_infortrend_chassis_sensors_b "Temp flags"
       [("Temp flags", {| sensor_status := Int 1; sensor_type := Int 8;
                          metric_value_raw := Int 0; metric_unit_raw := "" |})]
     = Gen [] (Raise KeyError)
  /\ ChassisB.check_infortrend_chassis_sensors_b "Temp flags"
       [("Temp flags", {| sensor_status := Int 255; sensor_type := Int 8;
                          metric_value_raw := Int 0; metric_unit_raw := "" |})]
     = Gen [Result UNKNOWN "Status unknown"] (Ok tt).
Proof. repeat split. Qed.

(** ** Disks *)

Lemma in_set_int (code : Z) (codes : list Z) :
  in_set (Int code) codes = existsb (Z.eqb code) codes.
Proof. reflexivity. Qed.

(** The codes that are OK have an entry in the table. *)
Lemma disk_ok_codes_known (code : Z) :
  existsb (Z.eqb code) [1; 3; 9; 63] = true ->
  get Z.eqb DisksA.DISK_STATUS_MAP code <> None.
Proof.
  cbn [existsb]. rewrite !orb_true_iff.
  intros [H|[H|[H|[H|H]]]]; try discriminate;
    apply Z.eqb_eq in H; subst code; discriminate.
Qed.

Lemma disks_a_check (item : string)
  (section : dict string DisksA.InfortrendDiskSection)
  (disk_data : DisksA.InfortrendDiskSection) (code : Z) :
  get String.eqb section item = Some disk_data ->
  DisksA.state disk_data = Int code ->
  DisksA.check_infortrend_disks item section
  = yield (Result (Spec.disk_severity [1; 3; 9] DisksA.DISK_STATUS_MAP code)
             (DisksA.description disk_data
              ++ Spec.disk_text DisksA.DISK_STATUS_MAP code)%string).
Proof.
  intros Hitem Hstate.
  unfold DisksA.check_infortrend_disks, Spec.disk_severity, Spec.disk_text.
  rewrite Hitem, Hstate, in_set_int.
  unfold contains_int, getitem_int, get_int, gt.
  destruct (get Z.eqb DisksA.DISK_STATUS_MAP code) as [text|] eqn:Hget;
    cbn [negb format].
  - destruct (existsb (Z.eqb code) [1; 3; 9]); [reflexivity|].
    destruct (63 <? code); reflexivity.
  - destruct (existsb (Z.eqb code) [1; 3; 9]) eqn:Hok; [|reflexivity].
    exfalso. apply (disk_ok_codes_known code); [|exact Hget].
    cbn [existsb] in *. rewrite !orb_true_iff in *. tauto.
Qed.

Lemma disks_b_check (item : string)
  (section : dict string DisksB.InfortrendDiskSection)
  (disk_data : DisksB.InfortrendDiskSection) (code : Z) :
  get String.eqb section item = Some disk_data ->
  DisksB.state disk_data = Int code ->
  DisksB.check_infortrend_disks_b item section
  = yield (Result
             (Spec.disk_severity [1; 3; 9; 63] DisksB.DISK_STATUS_MAP code)
             (Spec.disk_text DisksB.DISK_STATUS_MAP code)).
Proof.
  intros Hitem Hstate.
  unfold DisksB.check_infortrend_disks_b, Spec.disk_severity, Spec.disk_text.
  rewrite Hitem, Hstate, in_set_int.
  unfold contains_int, getitem_int, get_int, gt.
  destruct (get Z.eqb DisksB.DISK_STATUS_MAP code) as [text|] eqn:Hget;
    cbn [negb format].
  - destruct (existsb (Z.eqb code) [1; 3; 9; 63]); [reflexivity|].
    destruct (63 <? code); reflexivity.
  - destruct (existsb (Z.eqb code) [1; 3; 9; 63]) eqn:Hok; [|reflexivity].
    exfalso. exact (disk_ok_codes_known code Hok Hget).
Qed.

(** The severity policy, clause by clause. *)
Lemma disk_severity_policy (ok_codes : list Z) (table : dict Z string)
  (code : Z) :
  (In code ok_codes -> Spec.disk_severity ok_codes table code = OK)
  /\ (~ In code ok_codes -> get Z.eqb table code <> None -> 63 < code ->
      Spec.disk_severity ok_codes table code = CRIT)
  /\ (~ In code ok_codes -> get Z.eqb table code <> None -> code <= 63 ->
      Spec.disk_severity ok_codes table code = WARN)
  /\ (~ In code ok_codes -> get Z.eqb table code = None ->
      Spec.disk_severity ok_codes table code = UNKNOWN
      /\ Spec.disk_text table code = ("Status is " ++ str code)%string).
Proof.
  unfold Spec.disk_severity, Spec.disk_text.
  assert (Hok : existsb (Z.eqb code) ok_codes = true <-> In code ok_codes).
  { rewrite existsb_exists. split.
    - intros (x & Hin & Heq). apply Z.eqb_eq in Heq. now subst x.
    - intros Hin. exists code. split; [exact Hin|apply Z.eqb_refl]. }
  destruct (existsb (Z.eqb code) ok_codes).
  - assert (Hin : In code ok_codes) by now apply Hok.
    split; [reflexivity|].
    split; [|split]; intros Hno; now contradiction Hno.
  - split; [intros Hin; apply Hok in Hin; discriminate|].
    destruct (get Z.eqb table code).
    + split; [|split].
      * intros _ _ Hgt. apply Z.ltb_lt in Hgt. now rewrite Hgt.
      * intros _ _ Hle. apply Z.ltb_ge in Hle. now rewrite Hle.
      * intros _ Hnone. discriminate.
    + split; [|split]; try (intros _ Hsome; now contradiction Hsome).
      intros _ _. now split.
Qed.

(** C5. Disk status decode, for an item of the section whose status is the
    integer [code]: the check yields exactly one Result and ends normally.
    Its severity is OK for the codes 1, 3, 9 (and 63 in variant B); for any
    other code of the table it is CRIT when the code is above 63 and WARN
    otherwise; for a code absent from the table it is UNKNOWN, and the
    message is then "Status is" followed by the literal numeric status.  In
    variant A the message starts with the description of the disk. *)
Theorem disk_status_severity (item : string)
  (section_a : dict string DisksA.InfortrendDiskSection)
  (disk_a : DisksA.InfortrendDiskSection)
  (section_b : dict string DisksB.InfortrendDiskSection)
  (disk_b : DisksB.InfortrendDiskSection) (code : Z) :
  get String.eqb section_a item = Some disk_a ->
  DisksA.state disk_a = Int code ->
  get String.eqb section_b item = Some disk_b ->
  DisksB.state disk_b = Int code ->
  DisksA.check_infortrend_disks item section_a
  = Gen [Result (Spec.disk_severity [1; 3; 9] DisksA.DISK_STATUS_MAP code)
           (DisksA.description disk_a
            ++ Spec.disk_text DisksA.DISK_STATUS_MAP code)%string]
        (Ok tt)
  /\ DisksB.check_infortrend_disks_b item section_b
     = Gen [Result
              (Spec.disk_severity [1; 3; 9; 63] DisksB.DISK_STATUS_MAP code)
              (Spec.disk_text DisksB.DISK_STATUS_MAP code)]
           (Ok tt).
Proof.
  intros Ha Hsa Hb Hsb. split.
  - exact (disks_a_check item section_a disk_a code Ha Hsa).
  - exact (disks_b_check item section_b disk_b code Hb Hsb).
Qed.

(** Status 255 in both variants: CRIT, "Failed Drive". *)
Lemma disk_status_severity_witness :
  DisksA.check_infortrend_disks "7"
    [("7", {| DisksA.slot := "7"; DisksA.state := Int 255;
              DisksA.description := "ST4000 SN04 Z1Z0, 3.64 TiB, " |})]
  = Gen [Result CRIT "ST4000 SN04 Z1Z0, 3.64 TiB, Failed Drive"] (Ok tt)
  /\ DisksB.check_infortrend_disks_b "7"
       [("7", {| DisksB.slot := "7"; DisksB.state := Int 255 |})]
     = Gen [Result CRIT "Failed Drive"] (Ok tt).
Proof.
  apply (disk_status_severity "7"
           [("7", {| DisksA.slot := "7"; DisksA.state := Int 255;
                     DisksA.description := "ST4000 SN04 Z1Z0, 3.64 TiB, " |})]
           {| DisksA.slot := "7"; DisksA.state := Int 255;
              DisksA.description := "ST4000 SN04 Z1Z0, 3.64 TiB, " |}
           [("7", {| DisksB.slot := "7"; DisksB.state := Int 255 |})]
           {| DisksB.slot := "7"; DisksB.state := Int 255 |}
           255); reflexivity.
Defined.

(** The severities the specification names. *)
Lemma disk_severity_named_codes :
  map (Spec.disk_severity [1; 3; 9] DisksA.DISK_STATUS_MAP)
      [1; 3; 9; 63; 0; 19; 128; 143; 255; 200]
  = [OK; OK; OK; WARN; WARN; WARN; CRIT; CRIT; CRIT; UNKNOWN]
  /\ map (Spec.disk_severity [1; 3; 9; 63] DisksB.DISK_STATUS_MAP)
         [1; 3; 9; 63; 0; 19; 128; 143; 255; 200]
     = [OK; OK; OK; OK; WARN; WARN; CRIT; CRIT; CRIT; UNKNOWN]
  /\ Spec.disk_text DisksA.DISK_STATUS_MAP 255 = "Failed Drive"
  /\ Spec.disk_text DisksA.DISK_STATUS_MAP 200 = "Status is 200".
Proof. repeat split. Qed.

(** An unmapped status: one UNKNOWN Result carrying the number. *)
Lemma disk_status_200 :
  DisksA.check_infortrend_disks "7"
    [("7", {| DisksA.slot := "7"; DisksA.state := Int 200;
              DisksA.description := "" |})]
  = Gen [Result UNKNOWN "Status is 200"] (Ok tt)
  /\ DisksB.check_infortrend_disks_b "7"
       [("7", {| DisksB.slot := "7"; DisksB.state := Int 200 |})]
     = Gen [Result UNKNOWN "Status is 200"] (Ok tt).
Proof. split; reflexivity. Qed.

(** ** Logical drives *)

(** [ld_state & 128 == 128] tests bit 7; when it is set the off-line text is
    taken and the state is reduced to its low 7 bits. *)
Lemma mask_offline_bit7 (ld_state : Z) :
  LogicalDrivesA.mask_offline (Int ld_state)
  = Ok (if Z.testbit ld_state 7
        then ("Logical Drive Off-line (RW)", Int (Z.land ld_state 127))
        else ("", Int ld_state))
  /\ LogicalDrivesB.mask_offline (Int ld_state)
     = LogicalDrivesA.mask_offline (Int ld_state).
Proof.
  split; [|reflexivity].
  unfold LogicalDrivesA.mask_offline. cbn [and_ py_bind].
  assert (H : Z.land ld_state 128
              = if Z.testbit ld_state 7 then 128 else 0).
  { apply Z.bits_inj'. intros n Hn. rewrite Z.land_spec.
    destruct (Z.eq_dec n 7) as [->|Hne].
    - change (Z.testbit 128 7) with true. rewrite andb_true_r.
      now destruct (Z.testbit ld_state 7).
    - assert (H128 : Z.testbit 128 n = false).
      { change 128 with (2 ^ 7). apply Z.pow2_bits_false. lia. }
      rewrite H128, andb_false_r.
      destruct (Z.testbit ld_state 7).
      + now rewrite H128.
      + now rewrite Z.bits_0. }
  rewrite H. now destruct (Z.testbit ld_state 7).
Qed.

(** C7. Logical-drive status 131 (bit 7 and code 3), for an item of the
    section, in both variants: bit 7 is found set, the off-line text is
    taken, the status is reduced to 3 before the table lookup and the
    severity decision, and the check yields exactly one Result, CRIT, whose
    message contains "Logical Drive Off-line (RW)" and "Degraded". *)
Theorem logical_drive_offline_degraded (item : string)
  (section_a : dict string LogicalDrivesA.InfortrendLogicalDriveSection)
  (ld_a : LogicalDrivesA.InfortrendLogicalDriveSection)
  (section_b : dict string LogicalDrivesB.InfortrendLogicalDriveSection)
  (ld_b : LogicalDrivesB.InfortrendLogicalDriveSection) :
  get String.eqb section_a item = Some ld_a ->
  LogicalDrivesA.sensor_state ld_a = Int 131 ->
  get String.eqb section_b item = Some ld_b ->
  LogicalDrivesB.sensor_state ld_b = Int 131 ->
  LogicalDrivesA.mask_offline (Int 131)
  = Ok ("Logical Drive Off-line (RW)", Int 3)
  /\ LogicalDrivesB.mask_offline (Int 131)
     = Ok ("Logical Drive Off-line (RW)", Int 3)
  /\ exists message_a message_b,
       LogicalDrivesA.check_infortrend_logical_drives_a item section_a
       = Gen [Result CRIT message_a] (Ok tt)
       /\ LogicalDrivesB.check_infortrend_logical_drives_b item section_b
          = Gen [Result CRIT message_b] (Ok tt)
       /\ Spec.occurs_in "Logical Drive Off-line (RW)" message_a
       /\ Spec.occurs_in "Degraded" message_a
       /\ Spec.occurs_in "Logical Drive Off-line (RW)" message_b
       /\ Spec.occurs_in "Degraded" message_b.
Proof.
  intros Ha Hsa Hb Hsb.
  split; [reflexivity|]. split; [reflexivity|].
  exists "Logical Drive Off-line (RW) Degraded",
         "Logical Drive Off-line (RW), Degraded".
  split.
  { unfold LogicalDrivesA.check_infortrend_logical_drives_a.
    rewrite Ha, Hsa. reflexivity. }
  split.
  { unfold LogicalDrivesB.check_infortrend_logical_drives_b.
    rewrite Hb, Hsb. reflexivity. }
  split; [now exists "", " Degraded"|].
  split; [now exists "Logical Drive Off-line (RW) ", ""|].
  split; [now exists "", ", Degraded"|].
  now exists "Logical Drive Off-line (RW), ", "".
Qed.

Lemma logical_drive_offline_degraded_witness :
  LogicalDrivesA.mask_offline (Int 131)
  = Ok ("Logical Drive Off-line (RW)", Int 3)
  /\ LogicalDrivesB.mask_offline (Int 131)
     = Ok ("Logical Drive Off-line (RW)", Int 3)
  /\ exists message_a message_b,
       LogicalDrivesA.check_infortrend_logical_drives_a "0"
         [("0", {| LogicalDrivesA.sensor_state := Int 131 |})]
       = Gen [Result CRIT message_a] (Ok tt)
       /\ LogicalDrivesB.check_infortrend_logical_drives_b "0"
            [("0", {| LogicalDrivesB.sensor_state := Int 131 |})]
          = Gen [Result CRIT message_b] (Ok tt)
       /\ Spec.occurs_in "Logical Drive Off-line (RW)" message_a
       /\ Spec.occurs_in "Degraded" message_a
       /\ Spec.occurs_in "Logical Drive Off-line (RW)" message_b
       /\ Spec.occurs_in "Degraded" message_b.
Proof.
  apply (logical_drive_offline_degraded "0"
           [("0", {| LogicalDrivesA.sensor_state := Int 131 |})]
           {| LogicalDrivesA.sensor_state := Int 131 |}
           [("0", {| LogicalDrivesB.sensor_state := Int 131 |})]
           {| LogicalDrivesB.sensor_state := Int 131 |}); reflexivity.
Defined.

(** X21. A code outside the table, variant A: the check sets the state to
    UNKNOWN and the summary to the number, and then looks the code up in the
    table all the same; it raises KeyError and yields nothing. *)
Lemma logical_drives_a_unknown_code (item : string)
  (section : dict string LogicalDrivesA.InfortrendLogicalDriveSection)
  (ld : LogicalDrivesA.InfortrendLogicalDriveSection) (status : Z) :
  get String.eqb section item = Some ld ->
  LogicalDrivesA.sensor_state ld = Int status ->
  get Z.eqb LogicalDrivesA.LDRIVE_STATE_INFO_MAP (Spec.ld_code status) = None ->
  LogicalDrivesA.check_infortrend_logical_drives_a item section
  = Gen [] (Raise KeyError).
Proof.
  intros Hitem Hstate Hcode.
  unfold LogicalDrivesA.check_infortrend_logical_drives_a.
  rewrite Hitem, Hstate, (proj1 (mask_offline_bit7 status)).
  unfold Spec.ld_code in Hcode.
  destruct (Z.testbit status 7);
    unfold bind, lift; cbn [outcome emitted];
    unfold contains_int, getitem_int, get_int; rewrite Hcode; reflexivity.
Qed.

(** X22. A code outside the table, variant B: the check yields the UNKNOWN
    Result with the masked code, does not return, and looks the code up in
    the table; it raises KeyError after the one Result. *)
Lemma logical_drives_b_unknown_code (item : string)
  (section : dict string LogicalDrivesB.InfortrendLogicalDriveSection)
  (ld : LogicalDrivesB.InfortrendLogicalDriveSection) (status : Z) :
  get String.eqb section item = Some ld ->
  LogicalDrivesB.sensor_state ld = Int status ->
  get Z.eqb LogicalDrivesB.DRIVE_STATE_INFO_MAP (Spec.ld_code status) = None ->
  LogicalDrivesB.check_infortrend_logical_drives_b item section
  = Gen [Result UNKNOWN ("Status is " ++ str (Spec.ld_code status))%string]
        (Raise KeyError).
Proof.
  intros Hitem Hstate Hcode.
  unfold LogicalDrivesB.check_infortrend_logical_drives_b.
  rewrite Hitem, Hstate, (proj2 (mask_offline_bit7 status)),
    (proj1 (mask_offline_bit7 status)).
  unfold Spec.ld_code in *.
  destruct (Z.testbit status 7);
    unfold bind, lift; cbn [outcome emitted];
    unfold contains_int, getitem_int, get_int; rewrite Hcode; reflexivity.
Qed.

(** C6, evaluated on the code.  Logical-drive status 8 is outside both state
    tables.  Variant A raises KeyError and yields nothing; variant B yields
    the UNKNOWN Result "Status is 8" and then raises KeyError. *)
Theorem logical_drive_unknown_code_raises :
  get Z.eqb LogicalDrivesA.LDRIVE_STATE_INFO_MAP (Spec.ld_code 8) = None
  /\ get Z.eqb LogicalDrivesB.DRIVE_STATE_INFO_MAP (Spec.ld_code 8) = None
  /\ LogicalDrivesA.check_infortrend_logical_drives_a "0"
       [("0", {| LogicalDrivesA.sensor_state := Int 8 |})]
     = Gen [] (Raise KeyError)
  /\ LogicalDrivesB.check_infortrend_logical_drives_b "0"
       [("0", {| LogicalDrivesB.sensor_state := Int 8 |})]
     = Gen [Result UNKNOWN "Status is 8"] (Raise KeyError).
Proof. repeat split. Qed.

(** ** Row parsing *)

(** [saveint] never raises: it gives the integer, or the empty string when
    the conversion fails. *)
Lemma saveint_cases (int : string -> option Z) (some_value : string) :
  (forall z, int some_value = Some z -> saveint int some_value = Int z)
  /\ (int some_value = None -> saveint int some_value = Empty).
Proof. unfold saveint. split; [intros z H|intros H]; now rewrite H. Qed.

(** The key of a row in disks variant B: [str(int(slot) or row-index)]. *)
Lemma disks_b_slot_key (int : string -> option Z) (disk_no : Z)
  (raw_slot : string) :
  DisksB.slot_key int disk_no raw_slot
  = str match int raw_slot with
        | Some z => if z =? 0 then disk_no else z
        | None => disk_no
        end.
Proof.
  unfold DisksB.slot_key, saveint. now destruct (int raw_slot).
Qed.

Lemma get_app {V : Type} (d d' : dict string V) (k : string) :
  get String.eqb (d ++ d')%list k
  = match get String.eqb d k with
    | Some v => Some v
    | None => get String.eqb d' k
    end.
Proof.
  induction d as [|[k0 v0] rest IH]; [reflexivity|].
  simpl. now destruct (String.eqb k k0).
Qed.

Lemma contains_setdefault_same {V : Type} (d : dict string V) (k : string)
  (v : V) :
  contains String.eqb (setdefault String.eqb d k v) k = true.
Proof.
  unfold setdefault. destruct (contains String.eqb d k) eqn:Hin; [exact Hin|].
  unfold contains in *. rewrite get_app.
  destruct (get String.eqb d k); [discriminate|].
  simpl. now rewrite String.eqb_refl.
Qed.

Lemma contains_setdefault_mono {V : Type} (d : dict string V) (k k' : string)
  (v : V) :
  contains String.eqb d k' = true ->
  contains String.eqb (setdefault String.eqb d k v) k' = true.
Proof.
  unfold setdefault. destruct (contains String.eqb d k); [easy|].
  unfold contains. rewrite get_app.
  now destruct (get String.eqb d k').
Qed.

(** The loop of disks variant B never takes the [continue]: every row with
    its two fields leaves its key in the parsed mapping. *)
Lemma disks_b_loop_keeps_rows (int : string -> option Z)
  (string_table : list (list string)) :
  (forall line, In line string_table ->
                exists raw_slot raw_state rest,
                  line = raw_slot :: raw_state :: rest) ->
  forall (i : Z) (acc : dict string DisksB.InfortrendDiskSection),
  exists parsed,
    for_each (enumerate_from i string_table) (DisksB.parse_line int) acc
    = Ok parsed
    /\ (forall k, contains String.eqb acc k = true ->
                  contains String.eqb parsed k = true)
    /\ (forall disk_no raw_slot rest,
          In (disk_no, raw_slot :: rest) (enumerate_from i string_table) ->
          contains String.eqb parsed (DisksB.slot_key int disk_no raw_slot)
          = true).
Proof.
  induction string_table as [|line rest_table IH]; intros Hrows i acc.
  - exists acc. repeat split; [easy|intros ? ? ? []].
  - destruct (Hrows line (or_introl eq_refl))
      as (raw_slot & raw_state & rest & ->).
    simpl for_each. unfold DisksB.parse_line at 1.
    cbn [list_getitem nth_error py_bind int_eq_str].
    set (acc' := setdefault String.eqb acc _ _).
    destruct (IH (fun l Hl => Hrows l (or_intror Hl)) (i + 1) acc')
      as (parsed & Hrun & Hmono & Hkeys).
    exists parsed. split; [exact Hrun|]. split.
    + intros k Hk. apply Hmono. now apply contains_setdefault_mono.
    + intros disk_no raw_slot' rest' [Heq|Hin].
      * injection Heq as <- <- <-. apply Hmono.
        apply contains_setdefault_same.
      * now apply (Hkeys disk_no raw_slot' rest').
Qed.

(** C10, evaluated on the code.  Two rows whose disk index is "0": the first
    gets the key "0" (the slot converts to 0 and the row index 0 is
    substituted), the second the key "1" (its row index).  The test
    [disk_no == '0'] compares an integer with a string and is never true, so
    neither row is skipped: both are in the parsed mapping. *)
Theorem disks_b_row_zero_not_skipped :
  DisksB.slot_key int_of_decimal 0 "0" = "0"
  /\ DisksB.slot_key int_of_decimal 1 "0" = "1"
  /\ DisksB.parse_infortrend_disks_b int_of_decimal [["0"; "1"]; ["0"; "3"]]
     = Ok [("0", {| DisksB.slot := "0"; DisksB.state := Int 1 |});
           ("1", {| DisksB.slot := "1"; DisksB.state := Int 3 |})].
Proof. repeat split. Qed.

(** ** Totality of the chassis checks *)

(** Variant B has an entry with declared bits for every member of the enum. *)
Lemma chassis_b_covers_enum (t : Z) :
  In t InfortrendChassisSensorTypeEnum.members ->
  exists entry b,
    get Z.eqb ChassisB.STATUS_INFO_MAP t = Some entry /\ bits entry = Some b.
Proof.
  unfold InfortrendChassisSensorTypeEnum.members. cbn [In].
  intros H.
  repeat (destruct H as [<-|H]; [eexists; eexists; split; reflexivity|]).
  contradiction.
Qed.

(** Variant B, for every member of the enum and every integer status, when
    the metric block does not raise: the check ends normally and yields at
    least one Result. *)
Lemma chassis_b_enum_total (item : string)
  (section : dict string InfortrendChassisSensorSection)
  (sensor_data : InfortrendChassisSensorSection) (t s : Z) :
  get String.eqb section item = Some sensor_data ->
  sensor_type sensor_data = Int t ->
  In t InfortrendChassisSensorTypeEnum.members ->
  sensor_status sensor_data = Int s ->
  outcome (ChassisB.submit_metrics sensor_data) = Ok tt ->
  outcome (ChassisB.check_infortrend_chassis_sensors_b item section) = Ok tt
  /\ results (ChassisB.check_infortrend_chassis_sensors_b item section) <> [].
Proof.
  intros Hitem Htype Hmember Hstatus Hmetrics.
  destruct (chassis_b_covers_enum t Hmember) as (entry & b & Hentry & Hbits).
  pose proof (chassis_b_table_shape t entry b Hentry Hbits) as Hshape.
  destruct (bits_from_zero_inv b Hshape) as (_ & [m0 Hm0] & _).
  assert (Hdec : exists pairs,
             Spec.decode_b t b s = Some pairs /\ pairs <> []).
  { unfold Spec.decode_b. rewrite Hm0.
    destruct (s =? 0); [|destruct (s =? 255)];
      eexists; (split; [reflexivity|]); try discriminate.
    destruct b; [discriminate Hm0|discriminate]. }
  destruct Hdec as (pairs & Hdec & Hne).
  unfold ChassisB.check_infortrend_chassis_sensors_b. rewrite Hitem.
  rewrite (chassis_b_submit_check_results
             sensor_data t s entry b Htype Hstatus Hentry Hbits Hshape
             pairs Hdec).
  split.
  - unfold bind. now rewrite Hmetrics.
  - rewrite results_bind_as_results by apply chassis_b_submit_metrics_results.
    now rewrite Hmetrics.
Qed.

(** Variant A has no entry for three members of the enum; for an item of
    such a type the check raises KeyError, whatever the status. *)
Lemma chassis_a_missing_types (item : string)
  (section : dict string InfortrendChassisSensorSection)
  (sensor_data : InfortrendChassisSensorSection) (t : Z) :
  get String.eqb section item = Some sensor_data ->
  sensor_type sensor_data = Int t ->
  In t [InfortrendChassisSensorTypeEnum.BACKPLANE;
        InfortrendChassisSensorTypeEnum.ENCLOSURE_DRAWER;
        InfortrendChassisSensorTypeEnum.ENCLOSURE_MGMNT] ->
  ChassisA.check_infortrend_chassis_sensors_a item section
  = Gen [] (Raise KeyError).
Proof.
  intros Hitem Htype Hin.
  unfold ChassisA.check_infortrend_chassis_sensors_a. rewrite Hitem.
  unfold ChassisA.submit_metrics, ChassisA.submit_check_results.
  rewrite Htype.
  destruct Hin as [<-|[<-|[<-|[]]]];
    destruct (eq_int (sensor_status sensor_data) 0); reflexivity.
Qed.

(** C1, evaluated on the code.  BACKPLANE is a chassis sensor type of the
    enum, with an entry in variant B's table and none in variant A's: for a
    backplane item with status 0, variant A's check raises KeyError and
    yields no Result, where variant B's yields one. *)
Theorem chassis_a_backplane_raises :
  In InfortrendChassisSensorTypeEnum.BACKPLANE
     InfortrendChassisSensorTypeEnum.members
  /\ contains_int ChassisA.STATUS_INFO_MAP
       (Int InfortrendChassisSensorTypeEnum.BACKPLANE) = false
  /\ ChassisA.check_infortrend_chassis_sensors_a "Backplane"
       [("Backplane",
         {| sensor_status := Int 0;
            sensor_type := Int InfortrendChassisSensorTypeEnum.BACKPLANE;
            metric_value_raw := Int 0; metric_unit_raw := "" |})]
     = Gen [] (Raise KeyError)
  /\ ChassisB.check_infortrend_chassis_sensors_b "Backplane"
       [("Backplane",
         {| sensor_status := Int 0;
            sensor_type := Int InfortrendChassisSensorTypeEnum.BACKPLANE;
            metric_value_raw := Int 0; metric_unit_raw := "" |})]
     = Gen [Result OK "Midplane/Backplane"] (Ok tt).
Proof.
  split; [cbn; tauto|]. repeat split.
Qed.

(** ** Absent fields *)

(** The disk checks take an absent status for a status outside the table. *)
Lemma disks_absent_status (item : string)
  (section_a : dict string DisksA.InfortrendDiskSection)
  (disk_a : DisksA.InfortrendDiskSection)
  (section_b : dict string DisksB.InfortrendDiskSection)
  (disk_b : DisksB.InfortrendDiskSection) :
  get String.eqb section_a item = Some disk_a ->
  DisksA.state disk_a = Empty ->
  get String.eqb section_b item = Some disk_b ->
  DisksB.state disk_b = Empty ->
  DisksA.check_infortrend_disks item section_a
  = Gen [Result UNKNOWN (DisksA.description disk_a ++ "Status is ")%string]
        (Ok tt)
  /\ DisksB.check_infortrend_disks_b item section_b
     = Gen [Result UNKNOWN "Status is "] (Ok tt).
Proof.
  intros Ha Hsa Hb Hsb.
  unfold DisksA.check_infortrend_disks, DisksB.check_infortrend_disks_b.
  rewrite Ha, Hsa, Hb, Hsb. split; reflexivity.
Qed.

(** X23. The logical-drive checks apply [&] to an absent status: both
    variants raise TypeError and yield nothing. *)
Lemma logical_drives_absent_status (item : string)
  (section_a : dict string LogicalDrivesA.InfortrendLogicalDriveSection)
  (ld_a : LogicalDrivesA.InfortrendLogicalDriveSection)
  (section_b : dict string LogicalDrivesB.InfortrendLogicalDriveSection)
  (ld_b : LogicalDrivesB.InfortrendLogicalDriveSection) :
  get String.eqb section_a item = Some ld_a ->
  LogicalDrivesA.sensor_state ld_a = Empty ->
  get String.eqb section_b item = Some ld_b ->
  LogicalDrivesB.sensor_state ld_b = Empty ->
  LogicalDrivesA.check_infortrend_logical_drives_a item section_a
  = Gen [] (Raise TypeError)
  /\ LogicalDrivesB.check_infortrend_logical_drives_b item section_b
     = Gen [] (Raise TypeError).
Proof.
  intros Ha Hsa Hb Hsb.
  unfold LogicalDrivesA.check_infortrend_logical_drives_a,
    LogicalDrivesB.check_infortrend_logical_drives_b.
  rewrite Ha, Hsa, Hb, Hsb. split; reflexivity.
Qed.

(** The chassis check of variant A on an absent status: the loop over the
    bits applies [&] to it, so the block that submits the results raises
    and yields nothing. *)
Lemma chassis_a_absent_status (sensor_data : InfortrendChassisSensorSection) :
  sensor_status sensor_data = Empty ->
  ChassisA.submit_check_results sensor_data = Gen [] (Raise KeyError)
  \/ ChassisA.submit_check_results sensor_data = Gen [] (Raise TypeError).
Proof.
  intros Hstatus. unfold ChassisA.submit_check_results.
  rewrite Hstatus. cbn [eq_int].
  unfold ChassisA.type_bits, getitem_int.
  destruct (get_int ChassisA.STATUS_INFO_MAP (sensor_type sensor_data))
    as [entry|] eqn:Hentry; [|now left].
  destruct (sensor_type sensor_data) as [t|]; [|discriminate].
  cbn [get_int] in Hentry.
  destruct (chassis_a_table_shape t entry Hentry) as (b & Hbits & Hshape & _).
  destruct (bits_from_zero_inv b Hshape) as (_ & [m0 Hm0] & _).
  right. cbn [py_bind]. unfold getitem_bits. rewrite Hbits.
  destruct b as [|[bit messages] rest]; [discriminate Hm0|].
  assert (Hfirst : forall previous,
             ChassisA.bit_verdict sensor_data bit previous = Raise TypeError)
    by (intros previous; unfold ChassisA.bit_verdict; now rewrite Hstatus).
  unfold bind, lift. cbn [outcome emitted keys map fst for_each].
  rewrite Hfirst. reflexivity.
Qed.

(** The size and block size of a disk row are converted with [int], not
    with [saveint]: a field that is no integer raises ValueError. *)
Lemma disks_a_size_not_lenient (int : string -> option Z)
  (disksize : number -> string)
  (slot state model version serial size blocksize : string)
  (rows : list (list string)) :
  int size = None ->
  DisksA.parse_infortrend_disks int disksize
    ([slot; state; model; version; serial; size; blocksize] :: rows)
  = Raise ValueError.
Proof.
  intros Hsize. unfold DisksA.parse_infortrend_disks.
  cbn [for_each]. unfold DisksA.parse_line at 1.
  cbn [list_getitem nth_error py_bind].
  unfold DisksA.int_or_raise at 1. rewrite Hsize. reflexivity.
Qed.

(** C8, evaluated on the code.  The conversion of a field that is no
    integer gives the absent value.  On a record whose status is absent the
    disk checks yield UNKNOWN, but the chassis checks and the logical-drive
    checks of both variants raise TypeError and yield nothing; and the disk
    parser of variant A raises ValueError on a size that is no integer. *)
Theorem absent_status_raises :
  saveint int_of_decimal "n/a" = Empty
  /\ DisksA.check_infortrend_disks "1"
       [("1", {| DisksA.slot := "1"; DisksA.state := Empty;
                 DisksA.description := "" |})]
     = Gen [Result UNKNOWN "Status is "] (Ok tt)
  /\ ChassisA.check_infortrend_chassis_sensors_a "Fan 1"
       [("Fan 1", {| sensor_status := Empty; sensor_type := Int 2;
                     metric_value_raw := Int 0; metric_unit_raw := "" |})]
     = Gen [] (Raise TypeError)
  /\ ChassisB.check_infortrend_chassis_sensors_b "Fan 1"
       [("Fan 1", {| sensor_status := Empty; sensor_type := Int 2;
                     metric_value_raw := Int 0; metric_unit_raw := "" |})]
     = Gen [] (Raise TypeError)
  /\ LogicalDrivesA.check_infortrend_logical_drives_a "0"
       [("0", {| LogicalDrivesA.sensor_state := Empty |})]
     = Gen [] (Raise TypeError)
  /\ LogicalDrivesB.check_infortrend_logical_drives_b "0"
       [("0", {| LogicalDrivesB.sensor_state := Empty |})]
     = Gen [] (Raise TypeError)
  /\ DisksA.parse_infortrend_disks int_of_decimal (fun _ => "")
       [["1"; "1"; "ST4000"; "SN04"; "Z1Z0"; "n/a"; "9"]]
     = Raise ValueError.
Proof. repeat split. Qed.

(** ** Metrics *)

Lemma metrics_bind {A : Type} (g : gen CheckOutput A)
  (k : A -> CheckResult) :
  flat_map (fun o => match o with
                     | Result _ _ => []
                     | Metric n v => [(n, v)]
                     end) (emitted (bind g k))
  = (flat_map (fun o => match o with
                        | Result _ _ => []
                        | Metric n v => [(n, v)]
                        end) (emitted g)
     ++ match outcome g with
        | Ok a => metrics (k a)
        | Raise _ => []
        end)%list.
Proof.
  unfold bind, metrics. destruct (outcome g); cbn [emitted].
  - apply flat_map_app.
  - now rewrite app_nil_r.
Qed.

Lemma metrics_bind_unit (g : CheckResult) (k : unit -> CheckResult) :
  metrics (bind g k)
  = (metrics g ++ match outcome g with
                  | Ok a => metrics (k a)
                  | Raise _ => []
                  end)%list.
Proof. exact (metrics_bind g k). Qed.

Lemma metrics_bind_lift {A : Type} (c : py A) (k : A -> CheckResult) :
  metrics (bind (lift c) k)
  = match c with
    | Ok a => metrics (k a)
    | Raise _ => []
    end.
Proof. now destruct c. Qed.

(** The blocks that submit the check results yield no metric. *)
Lemma chassis_a_results_no_metric
  (sensor_data : InfortrendChassisSensorSection) :
  metrics (ChassisA.submit_check_results sensor_data) = [].
Proof.
  unfold ChassisA.submit_check_results.
  destruct (eq_int _ _); rewrite metrics_bind_lift.
  - now destruct (ChassisA.bit_text _ _ _).
  - destruct (ChassisA.type_bits _) as [b|]; [|reflexivity].
    rewrite metrics_bind_lift. now destruct (for_each _ _ _).
Qed.

Lemma chassis_b_bit_result_no_metric
  (sensor_data : InfortrendChassisSensorSection) (bit : Z) :
  metrics (ChassisB.bit_result sensor_data bit) = [].
Proof.
  unfold ChassisB.bit_result. rewrite metrics_bind_lift.
  destruct (and_ _ _) as [masked|]; [|reflexivity].
  rewrite metrics_bind_lift.
  destruct (negb _);
    now destruct (ChassisB.bit_text _ _ _).
Qed.

Lemma chassis_b_results_no_metric
  (sensor_data : InfortrendChassisSensorSection) :
  metrics (ChassisB.submit_check_results sensor_data) = [].
Proof.
  unfold ChassisB.submit_check_results.
  destruct (eq_int _ 0).
  - rewrite metrics_bind_lift. now destruct (ChassisB.bit_text _ _ _).
  - destruct (eq_int _ 255); [reflexivity|].
    rewrite metrics_bind_lift.
    destruct (ChassisB.type_bits _) as [b|]; [|reflexivity].
    induction (keys b) as [|bit rest IH]; [reflexivity|].
    cbn [for_yield]. rewrite metrics_bind_unit.
    rewrite chassis_b_bit_result_no_metric.
    destruct (outcome _); [exact IH|reflexivity].
Qed.

(** The metric block of a temperature sensor: the division, then the one
    metric. *)
Lemma chassis_submit_metrics_temperature
  (sensor_data : InfortrendChassisSensorSection) :
  sensor_type sensor_data = Int InfortrendChassisSensorTypeEnum.TEMPERATURE ->
  ChassisA.submit_metrics sensor_data
  = (value <- lift (truediv (metric_value_raw sensor_data) 10) ;;
     yield (Metric "temp" value))%gen.
Proof.
  intros Htype. unfold ChassisA.submit_metrics.
  rewrite Htype.
  change (contains_int ChassisA.SENSORS_WITH_METRIC (Int _)) with true.
  cbn iota. unfold bind, lift, getitem_int. cbn.
  now destruct (truediv _ _).
Qed.

(** The metric block of a voltage sensor. *)
Lemma chassis_submit_metrics_voltage
  (sensor_data : InfortrendChassisSensorSection) :
  sensor_type sensor_data = Int InfortrendChassisSensorTypeEnum.VOLTAGE ->
  ChassisA.submit_metrics sensor_data
  = (value <- lift (truediv (metric_value_raw sensor_data) 1000) ;;
     yield (Metric "voltage" value))%gen.
Proof.
  intros Htype. unfold ChassisA.submit_metrics.
  rewrite Htype.
  change (contains_int ChassisA.SENSORS_WITH_METRIC (Int _)) with true.
  cbn iota. unfold bind, lift, getitem_int. cbn.
  now destruct (truediv _ _).
Qed.

Lemma chassis_submit_metrics_other
  (sensor_data : InfortrendChassisSensorSection) :
  sensor_type sensor_data <> Int InfortrendChassisSensorTypeEnum.TEMPERATURE ->
  sensor_type sensor_data <> Int InfortrendChassisSensorTypeEnum.VOLTAGE ->
  ChassisA.submit_metrics sensor_data = ret tt.
Proof.
  intros Htemp Hvolt. unfold ChassisA.submit_metrics.
  destruct (sensor_type sensor_data) as [t|]; [|reflexivity].
  unfold contains_int, get_int, ChassisA.SENSORS_WITH_METRIC. cbn [get].
  destruct (Z.eqb_spec t InfortrendChassisSensorTypeEnum.TEMPERATURE)
    as [->|_]; [now contradiction Htemp|].
  destruct (Z.eqb_spec t InfortrendChassisSensorTypeEnum.VOLTAGE)
    as [->|_]; [now contradiction Hvolt|].
  reflexivity.
Qed.

(** The metrics of a whole check are those of its metric block. *)
Lemma chassis_check_metrics (item : string)
  (section : dict string InfortrendChassisSensorSection)
  (sensor_data : InfortrendChassisSensorSection) :
  get String.eqb section item = Some sensor_data ->
  metrics (ChassisA.check_infortrend_chassis_sensors_a item section)
  = metrics (ChassisA.submit_metrics sensor_data)
  /\ metrics (ChassisB.check_infortrend_chassis_sensors_b item section)
     = metrics (ChassisA.submit_metrics sensor_data).
Proof.
  intros Hitem.
  unfold ChassisA.check_infortrend_chassis_sensors_a,
    ChassisB.check_infortrend_chassis_sensors_b.
  rewrite Hitem, !metrics_bind_unit.
  rewrite chassis_a_results_no_metric, chassis_b_results_no_metric.
  change (ChassisB.submit_metrics sensor_data)
    with (ChassisA.submit_metrics sensor_data).
  destruct (outcome _); now rewrite app_nil_r.
Qed.

(** X27. The metrics of an item of the section, in both variants.  A
    temperature sensor whose raw value divided by 10 is the float [value]
    yields exactly one metric, [temp], of that value; a voltage sensor
    exactly one metric, [voltage], of its raw value divided by 1000; where
    the division raises, no metric is yielded; a sensor of any other type
    yields no metric, whatever its raw value. *)
Theorem chassis_metric_values (item : string)
  (section : dict string InfortrendChassisSensorSection)
  (sensor_data : InfortrendChassisSensorSection) :
  get String.eqb section item = Some sensor_data ->
  (sensor_type sensor_data
   = Int InfortrendChassisSensorTypeEnum.TEMPERATURE ->
   metrics (ChassisA.check_infortrend_chassis_sensors_a item section)
   = match truediv (metric_value_raw sensor_data) 10 with
     | Ok value => [("temp", value)]
     | Raise _ => []
     end
   /\ metrics (ChassisB.check_infortrend_chassis_sensors_b item section)
      = match truediv (metric_value_raw sensor_data) 10 with
        | Ok value => [("temp", value)]
        | Raise _ => []
        end)
  /\ (sensor_type sensor_data
      = Int InfortrendChassisSensorTypeEnum.VOLTAGE ->
      metrics (ChassisA.check_infortrend_chassis_sensors_a item section)
      = match truediv (metric_value_raw sensor_data) 1000 with
        | Ok value => [("voltage", value)]
        | Raise _ => []
        end
      /\ metrics (ChassisB.check_infortrend_chassis_sensors_b item section)
         = match truediv (metric_value_raw sensor_data) 1000 with
           | Ok value => [("voltage", value)]
           | Raise _ => []
           end)
  /\ (sensor_type sensor_data
      <> Int InfortrendChassisSensorTypeEnum.TEMPERATURE ->
      sensor_type sensor_data
      <> Int InfortrendChassisSensorTypeEnum.VOLTAGE ->
      metrics (ChassisA.check_infortrend_chassis_sensors_a item section) = []
      /\ metrics (ChassisB.check_infortrend_chassis_sensors_b item section)
         = []).
Proof.
  intros Hitem.
  destruct (chassis_check_metrics item section sensor_data Hitem) as [-> ->].
  split; [|split].
  - intros Htype.
    rewrite (chassis_submit_metrics_temperature sensor_data Htype).
    now destruct (truediv _ _).
  - intros Htype.
    rewrite (chassis_submit_metrics_voltage sensor_data Htype).
    now destruct (truediv _ _).
  - intros Htemp Hvolt.
    now rewrite (chassis_submit_metrics_other sensor_data Htemp Hvolt).
Qed.

(** A temperature sensor with raw value 250: one metric [temp], 25.0. *)
Lemma chassis_metric_values_witness :
  metrics (ChassisA.check_infortrend_chassis_sensors_a "CPU Temp"
             [("CPU Temp", {| sensor_status := Int 0; sensor_type := Int 3;
                              metric_value_raw := Int 250;
                              metric_unit_raw := "C" |})])
  = [("temp", Float false (inject_Z 25))]
  /\ metrics (ChassisB.check_infortrend_chassis_sensors_b "CPU Temp"
                [("CPU Temp", {| sensor_status := Int 0; sensor_type := Int 3;
                                 metric_value_raw := Int 250;
                                 metric_unit_raw := "C" |})])
     = [("temp", Float false (inject_Z 25))].
Proof.
  exact (proj1 (chassis_metric_values "CPU Temp"
                  [("CPU Temp", {| sensor_status := Int 0;
                                   sensor_type := Int 3;
                                   metric_value_raw := Int 250;
                                   metric_unit_raw := "C" |})]
                  {| sensor_status := Int 0; sensor_type := Int 3;
                     metric_value_raw := Int 250; metric_unit_raw := "C" |}
                  eq_refl) eq_refl).
Defined.

(** Where the division of the metric block raises, the check raises the same
    exception and yields nothing: the results are never reached. *)
Lemma chassis_metric_division_raises (item : string)
  (section : dict string InfortrendChassisSensorSection)
  (sensor_data : InfortrendChassisSensorSection) (info : metric_info)
  (e : exn) :
  get String.eqb section item = Some sensor_data ->
  get_int ChassisA.SENSORS_WITH_METRIC (sensor_type sensor_data) = Some info ->
  truediv (metric_value_raw sensor_data) (divider info) = Raise e ->
  ChassisA.check_infortrend_chassis_sensors_a item section = Gen [] (Raise e)
  /\ ChassisB.check_infortrend_chassis_sensors_b item section
     = Gen [] (Raise e).
Proof.
  intros Hitem Hinfo Hdiv.
  unfold ChassisA.check_infortrend_chassis_sensors_a,
    ChassisB.check_infortrend_chassis_sensors_b.
  rewrite Hitem.
  change (ChassisB.submit_metrics sensor_data)
    with (ChassisA.submit_metrics sensor_data).
  assert (Hblock : ChassisA.submit_metrics sensor_data = Gen [] (Raise e)).
  { unfold ChassisA.submit_metrics, contains_int, getitem_int.
    rewrite Hinfo. unfold bind, lift. cbn [outcome emitted].
    rewrite Hdiv. reflexivity. }
  rewrite Hblock. split; reflexivity.
Qed.

(** The values the specification names, as the floats the division yields:
    250 / 10 is 25.0 and 5000 / 1000 is 5.0.  The float nearest to 1 / 10 is
    not the tenth itself, and 10^400 / 10 is beyond the floats. *)
Lemma chassis_metric_named_values :
  truediv (Int 250) 10 = Ok (Float false (inject_Z 25))
  /\ truediv (Int 5000) 1000 = Ok (Float false (inject_Z 5))
  /\ truediv (Int 1) 10
     = Ok (Float false (Qmake 3602879701896397 36028797018963968))
  /\ truediv (Int (10 ^ 400)) 10 = Raise OverflowError
  /\ ChassisA.check_infortrend_chassis_sensors_a "CPU Temp"
       [("CPU Temp", {| sensor_status := Int 0; sensor_type := Int 3;
                        metric_value_raw := Int 250;
                        metric_unit_raw := "C" |})]
     = Gen [Metric "temp" (Float false (inject_Z 25));
            Result OK "Temp. sensor functioning normally"] (Ok tt)
  /\ metrics (ChassisA.check_infortrend_chassis_sensors_a "V"
                [("V", {| sensor_status := Int 0; sensor_type := Int 5;
                          metric_value_raw := Int 5000;
                          metric_unit_raw := "mV" |})])
     = [("voltage", Float false (inject_Z 5))]
  /\ metrics (ChassisA.check_infortrend_chassis_sensors_a "Fan 1"
                [("Fan 1", {| sensor_status := Int 0; sensor_type := Int 2;
                              metric_value_raw := Int 5000;
                              metric_unit_raw := "" |})])
     = []
  /\ ChassisA.check_infortrend_chassis_sensors_a "CPU Temp"
       [("CPU Temp", {| sensor_status := Int 0; sensor_type := Int 3;
                        metric_value_raw := Int (10 ^ 400);
                        metric_unit_raw := "C" |})]
     = Gen [] (Raise OverflowError).
Proof. repeat split; vm_compute; reflexivity. Qed.

(** C9, evaluated on the code.  A temperature sensor and a voltage sensor,
    items of the section, whose raw value is absent: in both variants the
    division raises TypeError before anything is yielded, so no metric is
    emitted where the claim has exactly one.  With the raw value 250 the
    temperature sensor yields the one metric [temp] of value 25.0. *)
Theorem chassis_metric_absent_raw_raises :
  saveint int_of_decimal "" = Empty
  /\ ChassisA.check_infortrend_chassis_sensors_a "CPU Temp"
       [("CPU Temp", {| sensor_status := Int 0; sensor_type := Int 3;
                        metric_value_raw := Empty; metric_unit_raw := "" |})]
     = Gen [] (Raise TypeError)
  /\ ChassisB.check_infortrend_chassis_sensors_b "CPU Temp"
       [("CPU Temp", {| sensor_status := Int 0; sensor_type := Int 3;
                        metric_value_raw := Empty; metric_unit_raw := "" |})]
     = Gen [] (Raise TypeError)
  /\ ChassisA.check_infortrend_chassis_sensors_a "12V"
       [("12V", {| sensor_status := Int 0; sensor_type := Int 5;
                   metric_value_raw := Empty; metric_unit_raw := "" |})]
     = Gen [] (Raise TypeError)
  /\ ChassisB.check_infortrend_chassis_sensors_b "12V"
       [("12V", {| sensor_status := Int 0; sensor_type := Int 5;
                   metric_value_raw := Empty; metric_unit_raw := "" |})]
     = Gen [] (Raise TypeError)
  /\ metrics (ChassisA.check_infortrend_chassis_sensors_a "CPU Temp"
                [("CPU Temp", {| sensor_status := Int 0; sensor_type := Int 3;
                                 metric_value_raw := Int 250;
                                 metric_unit_raw := "" |})])
     = [("temp", Float false (inject_Z 25))].
Proof. repeat split. Qed.

(** ** Parsing: first row wins *)

Lemma get_setdefault {V : Type} (d : dict string V) (k0 k : string) (v0 : V) :
  get String.eqb (setdefault String.eqb d k0 v0) k
  = match get String.eqb d k with
    | Some v => Some v
    | None => if String.eqb k k0 then Some v0 else None
    end.
Proof.
  unfold setdefault, contains.
  destruct (get String.eqb d k0) as [v|] eqn:Hk0.
  - destruct (get String.eqb d k) eqn:Hk; [reflexivity|].
    destruct (String.eqb_spec k k0) as [->|_]; [congruence|reflexivity].
  - rewrite get_app. destruct (get String.eqb d k); [reflexivity|].
    simpl. now destruct (String.eqb k k0).
Qed.

Lemma get_first_wins {V : Type} (kvs : list (string * V))
  (acc : dict string V) (k : string) :
  get String.eqb (Rows.first_wins kvs acc) k
  = match get String.eqb acc k with
    | Some v => Some v
    | None => get String.eqb kvs k
    end.
Proof.
  revert acc. induction kvs as [|[k0 v0] rest IH]; intros acc.
  - simpl. now destruct (get String.eqb acc k).
  - unfold Rows.first_wins in *. simpl fold_left. rewrite IH.
    cbn [fst snd]. rewrite get_setdefault. simpl get.
    destruct (get String.eqb acc k); [reflexivity|].
    now destruct (String.eqb k k0).
Qed.

Lemma get_rows {V : Type} (key : list string -> string)
  (value : list string -> V) (table : list (list string)) (k : string) :
  get String.eqb (map (fun line => (key line, value line)) table) k
  = option_map value (find (fun line => String.eqb k (key line)) table).
Proof.
  induction table as [|line rest IH]; [reflexivity|].
  simpl. now destruct (String.eqb k (key line)).
Qed.

Lemma contains_keys {V : Type} (d : dict string V) (k : string) :
  contains String.eqb d k = existsb (String.eqb k) (keys d).
Proof.
  unfold contains.
  induction d as [|[k0 v0] rest IH]; [reflexivity|].
  simpl. now destruct (String.eqb k k0).
Qed.

Lemma keys_first_wins {V : Type} (kvs : list (string * V))
  (acc : dict string V) :
  keys (Rows.first_wins kvs acc)
  = (keys acc ++ Rows.first_occurrences (keys acc) (map fst kvs))%list.
Proof.
  revert acc. induction kvs as [|[k0 v0] rest IH]; intros acc.
  - simpl. now rewrite app_nil_r.
  - unfold Rows.first_wins in *. simpl fold_left. rewrite IH.
    cbn [fst snd map Rows.first_occurrences].
    unfold setdefault. rewrite contains_keys.
    destruct (existsb (String.eqb k0) (keys acc)); [reflexivity|].
    unfold keys. rewrite map_app. simpl. now rewrite <- app_assoc.
Qed.

Lemma first_occurrences_fresh (seen ks : list string) (k : string) :
  In k (Rows.first_occurrences seen ks) -> ~ In k seen.
Proof.
  revert seen. induction ks as [|k0 rest IH]; intros seen; [intros []|].
  simpl. destruct (existsb (String.eqb k0) seen) eqn:Hseen.
  - apply IH.
  - intros [<-|Hin].
    + intros Hin. apply Bool.not_true_iff_false in Hseen. apply Hseen.
      apply existsb_exists. exists k0. split; [exact Hin|].
      apply String.eqb_refl.
    + intros Hk. apply (IH _ Hin). apply in_or_app. now left.
Qed.

Lemma first_occurrences_NoDup (seen ks : list string) :
  NoDup (Rows.first_occurrences seen ks).
Proof.
  revert seen. induction ks as [|k0 rest IH]; intros seen; [constructor|].
  simpl. destruct (existsb (String.eqb k0) seen); [apply IH|].
  constructor; [|apply IH].
  intros Hin. apply first_occurrences_fresh in Hin. apply Hin.
  apply in_or_app. right. now left.
Qed.

Lemma first_occurrences_In (seen ks : list string) (k : string) :
  In k (Rows.first_occurrences seen ks) <-> In k ks /\ ~ In k seen.
Proof.
  split.
  - intros Hin. split; [|exact (first_occurrences_fresh seen ks k Hin)].
    revert seen Hin. induction ks as [|k0 rest IH]; intros seen; [intros []|].
    simpl. destruct (existsb (String.eqb k0) seen).
    + intros H. right. exact (IH _ H).
    + intros [<-|H]; [now left|right; exact (IH _ H)].
  - revert seen. induction ks as [|k0 rest IH]; intros seen [Hin Hfresh];
      [contradiction|].
    simpl. destruct (existsb (String.eqb k0) seen) eqn:Hseen.
    + apply IH. split; [|exact Hfresh].
      destruct Hin as [<-|Hin]; [|exact Hin].
      exfalso. apply Hfresh. apply existsb_exists in Hseen.
      destruct Hseen as (x & Hx & Heq). apply String.eqb_eq in Heq.
      now subst x.
    + destruct (String.eqb_spec k0 k) as [->|Hne]; [now left|].
      right. apply IH. split.
      * destruct Hin as [Heq|Hin]; [contradiction|exact Hin].
      * intros H. apply in_app_or in H as [H|[H|[]]]; [now apply Hfresh|].
        now apply Hne.
Qed.

(** A loop whose body is a [setdefault] on every row. *)
Lemma for_each_setdefault {V : Type}
  (body : list string -> dict string V -> py (dict string V))
  (key : list string -> string) (value : list string -> V)
  (table : list (list string)) :
  (forall line parsed, In line table ->
     body line parsed
     = Ok (setdefault String.eqb parsed (key line) (value line))) ->
  forall acc,
    for_each table body acc
    = Ok (Rows.first_wins (map (fun line => (key line, value line)) table)
            acc).
Proof.
  induction table as [|line rest IH]; intros Hbody acc; [reflexivity|].
  simpl for_each. rewrite Hbody by now left. cbn [py_bind].
  rewrite IH by (intros l d Hl; apply Hbody; now right).
  reflexivity.
Qed.

(** A loop stops at the first row on which its body raises. *)
Lemma for_each_raise {A S : Type} (body : A -> S -> py S)
  (good : list A) (bad : A) (rest : list A) (e : exn) :
  (forall x s, In x good -> exists s', body x s = Ok s') ->
  (forall s, body bad s = Raise e) ->
  forall acc, for_each (good ++ bad :: rest) body acc = Raise e.
Proof.
  induction good as [|x good IH]; intros Hgood Hbad acc.
  - simpl. now rewrite Hbad.
  - simpl. destruct (Hgood x acc (or_introl eq_refl)) as [s' ->].
    cbn [py_bind]. apply IH; [|exact Hbad].
    intros y s Hy. apply Hgood. now right.
Qed.

Lemma list_getitem_field (line : list string) (i : nat) :
  (i < List.length line)%nat ->
  list_getitem line i = Ok (Rows.field i line).
Proof.
  intros Hi. unfold list_getitem, Rows.field.
  now rewrite (nth_error_nth' line "" Hi).
Qed.

Lemma list_getitem_short {A : Type} (line : list A) (i : nat) :
  (List.length line <= i)%nat -> list_getitem line i = Raise IndexError.
Proof.
  intros Hi. unfold list_getitem.
  now rewrite (proj2 (nth_error_None line i) Hi).
Qed.

Lemma rows_wide_enough (n : nat) (table : list (list string)) :
  forallb (fun line => (n <=? List.length line)%nat) table = true ->
  forall line, In line table -> (n <= List.length line)%nat.
Proof.
  intros H line Hin. rewrite forallb_forall in H.
  apply Nat.leb_le. now apply H.
Qed.

Lemma logical_drives_a_parse_line (int : string -> option Z)
  (line : list string)
  (parsed : dict string LogicalDrivesA.InfortrendLogicalDriveSection) :
  (2 <= List.length line)%nat ->
  LogicalDrivesA.parse_line int line parsed
  = Ok (setdefault String.eqb parsed (Rows.field 0 line)
          {| LogicalDrivesA.sensor_state :=
               saveint int (Rows.field 1 line) |}).
Proof.
  intros Hlen. unfold LogicalDrivesA.parse_line.
  rewrite !list_getitem_field by lia. reflexivity.
Qed.

Lemma logical_drives_b_parse_line (int : string -> option Z)
  (line : list string)
  (parsed : dict string LogicalDrivesB.InfortrendLogicalDriveSection) :
  (2 <= List.length line)%nat ->
  LogicalDrivesB.parse_line int line parsed
  = Ok (setdefault String.eqb parsed (Rows.field 0 line)
          {| LogicalDrivesB.sensor_state :=
               saveint int (Rows.field 1 line) |}).
Proof.
  intros Hlen. unfold LogicalDrivesB.parse_line.
  rewrite !list_getitem_field by lia. reflexivity.
Qed.

(** X1. The logical-drive parsers, on a table whose rows have their two
    fields: parsing succeeds; the record under a slot is the one of the
    first row with that slot, later rows with the same slot being dropped;
    the keys are the slots in the order of their first occurrence, each
    once. *)
Theorem parse_logical_drives_first_row_wins (int : string -> option Z)
  (table : list (list string)) :
  forallb (fun line => (2 <=? List.length line)%nat) table = true ->
  exists parsed_a parsed_b,
    LogicalDrivesA.parse_infortrend_logical_drives_a int table = Ok parsed_a
    /\ LogicalDrivesB.parse_infortrend_logical_drives_b int table
       = Ok parsed_b
    /\ (forall slot,
          get String.eqb parsed_a slot
          = option_map
              (fun line => {| LogicalDrivesA.sensor_state :=
                                saveint int (Rows.field 1 line) |})
              (Rows.first_row 0 slot table))
    /\ (forall slot,
          get String.eqb parsed_b slot
          = option_map
              (fun line => {| LogicalDrivesB.sensor_state :=
                                saveint int (Rows.field 1 line) |})
              (Rows.first_row 0 slot table))
    /\ keys parsed_a = Rows.first_occurrences [] (map (Rows.field 0) table)
    /\ keys parsed_b = Rows.first_occurrences [] (map (Rows.field 0) table)
    /\ NoDup (keys parsed_a)
    /\ NoDup (keys parsed_b).
Proof.
  intros Hwide. pose proof (rows_wide_enough 2 table Hwide) as Hlen.
  eexists. eexists.
  split.
  { unfold LogicalDrivesA.parse_infortrend_logical_drives_a.
    apply for_each_setdefault. intros line parsed Hin.
    apply logical_drives_a_parse_line. now apply Hlen. }
  split.
  { unfold LogicalDrivesB.parse_infortrend_logical_drives_b.
    apply for_each_setdefault. intros line parsed Hin.
    apply logical_drives_b_parse_line. now apply Hlen. }
  split; [intros slot; rewrite get_first_wins; apply get_rows|].
  split; [intros slot; rewrite get_first_wins; apply get_rows|].
  rewrite !keys_first_wins, !map_map. cbn [fst app keys map].
  repeat split; apply first_occurrences_NoDup.
Qed.

Lemma parse_logical_drives_first_row_wins_witness :
  exists parsed_a parsed_b,
    LogicalDrivesA.parse_infortrend_logical_drives_a int_of_decimal
      [["0"; "3"]; ["1"; "n/a"]; ["0"; "0"]] = Ok parsed_a
    /\ LogicalDrivesB.parse_infortrend_logical_drives_b int_of_decimal
         [["0"; "3"]; ["1"; "n/a"]; ["0"; "0"]] = Ok parsed_b
    /\ (forall slot,
          get String.eqb parsed_a slot
          = option_map
              (fun line => {| LogicalDrivesA.sensor_state :=
                                saveint int_of_decimal (Rows.field 1 line) |})
              (Rows.first_row 0 slot [["0"; "3"]; ["1"; "n/a"]; ["0"; "0"]]))
    /\ (forall slot,
          get String.eqb parsed_b slot
          = option_map
              (fun line => {| LogicalDrivesB.sensor_state :=
                                saveint int_of_decimal (Rows.field 1 line) |})
              (Rows.first_row 0 slot [["0"; "3"]; ["1"; "n/a"]; ["0"; "0"]]))
    /\ keys parsed_a = ["0"; "1"]
    /\ keys parsed_b = ["0"; "1"]
    /\ NoDup (keys parsed_a)
    /\ NoDup (keys parsed_b).
Proof.
  apply (parse_logical_drives_first_row_wins int_of_decimal
           [["0"; "3"]; ["1"; "n/a"]; ["0"; "0"]]).
  reflexivity.
Defined.

(** X2. The logical-drive parsers stop at the first row that has fewer than
    two fields: indexing it raises IndexError, whatever rows follow. *)
Theorem parse_logical_drives_short_row (int : string -> option Z)
  (good : list (list string)) (short : list string)
  (rest : list (list string)) :
  forallb (fun line => (2 <=? List.length line)%nat) good = true ->
  (List.length short < 2)%nat ->
  LogicalDrivesA.parse_infortrend_logical_drives_a int
    (good ++ short :: rest) = Raise IndexError
  /\ LogicalDrivesB.parse_infortrend_logical_drives_b int
       (good ++ short :: rest) = Raise IndexError.
Proof.
  intros Hwide Hshort. pose proof (rows_wide_enough 2 good Hwide) as Hlen.
  assert (Hcases : short = [] \/ exists x, short = [x]).
  { destruct short as [|x [|y l]]; [now left|right; now exists x|].
    simpl in Hshort. lia. }
  split.
  - unfold LogicalDrivesA.parse_infortrend_logical_drives_a.
    apply for_each_raise.
    + intros line parsed Hin. eexists.
      apply logical_drives_a_parse_line. now apply Hlen.
    + intros parsed. destruct Hcases as [->|[x ->]]; reflexivity.
  - unfold LogicalDrivesB.parse_infortrend_logical_drives_b.
    apply for_each_raise.
    + intros line parsed Hin. eexists.
      apply logical_drives_b_parse_line. now apply Hlen.
    + intros parsed. destruct Hcases as [->|[x ->]]; reflexivity.
Qed.

Lemma parse_logical_drives_short_row_witness :
  LogicalDrivesA.parse_infortrend_logical_drives_a int_of_decimal
    ([["0"; "3"]] ++ ["1"] :: [["2"; "0"]]) = Raise IndexError
  /\ LogicalDrivesB.parse_infortrend_logical_drives_b int_of_decimal
       ([["0"; "3"]] ++ ["1"] :: [["2"; "0"]]) = Raise IndexError.
Proof.
  apply (parse_logical_drives_short_row int_of_decimal
           [["0"; "3"]] ["1"] [["2"; "0"]]).
  - reflexivity.
  - simpl. lia.
Defined.

Lemma chassis_b_parse_line (int : string -> option Z) (line : list string)
  (parsed : dict string InfortrendChassisSensorSection) :
  (5 <= List.length line)%nat ->
  ChassisB.parse_line int line parsed
  = Ok (setdefault String.eqb parsed (Rows.field 0 line)
          (Rows.chassis_record int line)).
Proof.
  intros Hlen. unfold ChassisB.parse_line.
  rewrite !list_getitem_field by lia. reflexivity.
Qed.

(** X3. The chassis parser of variant B, on a table whose rows have their
    five fields: parsing succeeds; the record under a name is the one of the
    first row with that name; the keys are the names in the order of their
    first occurrence, each once. *)
Theorem parse_chassis_b_first_row_wins (int : string -> option Z)
  (table : list (list string)) :
  forallb (fun line => (5 <=? List.length line)%nat) table = true ->
  exists parsed,
    ChassisB.parse_infortrend_chassis_sensors_b int table = Ok parsed
    /\ (forall name,
          get String.eqb parsed name
          = option_map (Rows.chassis_record int)
              (Rows.first_row 0 name table))
    /\ keys parsed = Rows.first_occurrences [] (map (Rows.field 0) table)
    /\ NoDup (keys parsed).
Proof.
  intros Hwide. pose proof (rows_wide_enough 5 table Hwide) as Hlen.
  eexists. split.
  { unfold ChassisB.parse_infortrend_chassis_sensors_b.
    apply for_each_setdefault. intros line parsed Hin.
    apply chassis_b_parse_line. now apply Hlen. }
  split; [intros name; rewrite get_first_wins; apply get_rows|].
  rewrite !keys_first_wins, !map_map. cbn [fst app keys map].
  split; [reflexivity|apply first_occurrences_NoDup].
Qed.

Lemma parse_chassis_b_first_row_wins_witness :
  exists parsed,
    ChassisB.parse_infortrend_chassis_sensors_b int_of_decimal
      [["Fan"; "0"; "2"; "0"; ""]; ["CPU"; "0"; "3"; "250"; "C"];
       ["Fan"; "1"; "2"; "0"; ""]] = Ok parsed
    /\ (forall name,
          get String.eqb parsed name
          = option_map (Rows.chassis_record int_of_decimal)
              (Rows.first_row 0 name
                 [["Fan"; "0"; "2"; "0"; ""]; ["CPU"; "0"; "3"; "250"; "C"];
                  ["Fan"; "1"; "2"; "0"; ""]]))
    /\ keys parsed = ["Fan"; "CPU"]
    /\ NoDup (keys parsed).
Proof.
  apply (parse_chassis_b_first_row_wins int_of_decimal
           [["Fan"; "0"; "2"; "0"; ""]; ["CPU"; "0"; "3"; "250"; "C"];
            ["Fan"; "1"; "2"; "0"; ""]]).
  reflexivity.
Defined.

Lemma chassis_a_row_ok_inv (int : string -> option Z) (line : list string) :
  Rows.chassis_a_row_ok int line = true ->
  (6 <= List.length line)%nat /\ exists n, int (Rows.field 5 line) = Some n.
Proof.
  unfold Rows.chassis_a_row_ok. intros H.
  apply andb_prop in H as [Hlen Hid]. apply Nat.leb_le in Hlen.
  split; [exact Hlen|].
  destruct (int (Rows.field 5 line)) as [n|]; [now exists n|discriminate].
Qed.

Lemma chassis_a_parse_line (int : string -> option Z) (line : list string)
  (parsed : dict string InfortrendChassisSensorSection) :
  Rows.chassis_a_row_ok int line = true ->
  ChassisA.parse_line int line parsed
  = Ok (setdefault String.eqb parsed (Rows.chassis_a_key int line)
          (Rows.chassis_record int line)).
Proof.
  intros Hok. destruct (chassis_a_row_ok_inv int line Hok) as [Hlen [n Hid]].
  unfold ChassisA.parse_line, Rows.chassis_a_key.
  rewrite !list_getitem_field by lia. cbn [py_bind].
  unfold ChassisA.get_infortrend_chassis_sensor_name, saveint at 1.
  rewrite Hid. cbn [gt py_bind].
  destruct (0 <? n); reflexivity.
Qed.

(** X4. The chassis parser of variant A, on a table whose rows have their
    six fields, an integer id and a name of ASCII characters: parsing
    succeeds; a row's key is its name with "ID" and the id in front when the
    id is positive, and its name with the parenthesised numbers rewritten
    otherwise; the record under a key is the one of the first row with that
    key, and each key occurs once. *)
Theorem parse_chassis_a_first_row_wins (int : string -> option Z)
  (table : list (list string)) :
  forallb (Rows.chassis_a_row_ok int) table = true ->
  forallb (fun line => Rows.is_ascii (Rows.field 0 line)) table = true ->
  exists parsed,
    ChassisA.parse_infortrend_chassis_sensors_a int table = Ok parsed
    /\ (forall key,
          get String.eqb parsed key
          = option_map (Rows.chassis_record int)
              (find (fun line => String.eqb key (Rows.chassis_a_key int line))
                 table))
    /\ keys parsed
       = Rows.first_occurrences [] (map (Rows.chassis_a_key int) table)
    /\ NoDup (keys parsed).
Proof.
  intros Hok _. rewrite forallb_forall in Hok.
  eexists. split.
  { unfold ChassisA.parse_infortrend_chassis_sensors_a.
    apply for_each_setdefault. intros line parsed Hin.
    apply chassis_a_parse_line. now apply Hok. }
  split; [intros key; rewrite get_first_wins; apply get_rows|].
  rewrite !keys_first_wins, !map_map. cbn [fst app keys map].
  split; [reflexivity|apply first_occurrences_NoDup].
Qed.

(** "Fan(1)" without an id and "Fan 1" get the same key: the second row is
    dropped. *)
Lemma parse_chassis_a_first_row_wins_witness :
  exists parsed,
    ChassisA.parse_infortrend_chassis_sensors_a int_of_decimal
      [["Fan(1)"; "0"; "2"; "0"; ""; "0"]; ["Fan 1"; "1"; "2"; "0"; ""; "0"];
       ["Fan"; "0"; "2"; "0"; ""; "3"]] = Ok parsed
    /\ (forall key,
          get String.eqb parsed key
          = option_map (Rows.chassis_record int_of_decimal)
              (find (fun line =>
                       String.eqb key
                         (Rows.chassis_a_key int_of_decimal line))
                 [["Fan(1)"; "0"; "2"; "0"; ""; "0"];
                  ["Fan 1"; "1"; "2"; "0"; ""; "0"];
                  ["Fan"; "0"; "2"; "0"; ""; "3"]]))
    /\ keys parsed = ["Fan 1"; "ID 3 Fan"]
    /\ NoDup (keys parsed).
Proof.
  apply (parse_chassis_a_first_row_wins int_of_decimal
           [["Fan(1)"; "0"; "2"; "0"; ""; "0"];
            ["Fan 1"; "1"; "2"; "0"; ""; "0"];
            ["Fan"; "0"; "2"; "0"; ""; "3"]]).
  - reflexivity.
  - reflexivity.
Defined.

(** X5. The chassis parser of variant A compares the converted id with 0:
    at the first row whose id field is no integer the comparison of the
    empty string with 0 raises TypeError, whatever rows follow. *)
Theorem parse_chassis_a_id_not_integer (int : string -> option Z)
  (good : list (list string)) (bad : list string)
  (rest : list (list string)) :
  forallb (Rows.chassis_a_row_ok int) good = true ->
  (6 <= List.length bad)%nat ->
  int (Rows.field 5 bad) = None ->
  ChassisA.parse_infortrend_chassis_sensors_a int (good ++ bad :: rest)
  = Raise TypeError.
Proof.
  intros Hok Hlen Hid. rewrite forallb_forall in Hok.
  unfold ChassisA.parse_infortrend_chassis_sensors_a.
  apply for_each_raise.
  - intros line parsed Hin. eexists.
    apply chassis_a_parse_line. now apply Hok.
  - intros parsed. unfold ChassisA.parse_line.
    rewrite !list_getitem_field by lia. cbn [py_bind].
    unfold ChassisA.get_infortrend_chassis_sensor_name, saveint.
    rewrite Hid. reflexivity.
Qed.

Lemma parse_chassis_a_id_not_integer_witness :
  ChassisA.parse_infortrend_chassis_sensors_a int_of_decimal
    ([["Fan"; "0"; "2"; "0"; ""; "3"]]
     ++ ["CPU"; "0"; "3"; "250"; "C"; ""] :: [])
  = Raise TypeError.
Proof.
  apply (parse_chassis_a_id_not_integer int_of_decimal
           [["Fan"; "0"; "2"; "0"; ""; "3"]]
           ["CPU"; "0"; "3"; "250"; "C"; ""] []).
  - reflexivity.
  - simpl. lia.
  - reflexivity.
Defined.

(** ** The name of a chassis sensor *)

Local Open Scope string_scope.

Lemma sub_groups_unfold (s : string) :
  ChassisA.sub_groups s
  = match ChassisA.match_group s with
    | Some (digits, rest) => (" " ++ digits ++ ChassisA.sub_groups rest)%string
    | None => match s with
              | EmptyString => EmptyString
              | String c s' => String c (ChassisA.sub_groups s')
              end
    end.
Proof.
  funelim (ChassisA.sub_groups s);
    try match goal with e : ChassisA.match_group _ = _ |- _ => rewrite e end;
    reflexivity.
Qed.

Lemma span_digits_inv (s digits rest : string) :
  ChassisA.span_digits s = (digits, rest) ->
  s = digits ++ rest /\ Rows.only_digits digits = true
  /\ ChassisA.span_digits rest = ("", rest).
Proof.
  revert digits rest. induction s as [|c s IH]; intros digits rest; simpl.
  - intros [= <- <-]. now repeat split.
  - destruct (ChassisA.isdigit c) eqn:Hc.
    + destruct (ChassisA.span_digits s) as [ds r]. intros [= <- <-].
      destruct (IH ds r eq_refl) as (-> & Hds & Hr).
      repeat split; [|exact Hr]. simpl. now rewrite Hc.
    + intros [= <- <-]. repeat split. simpl. now rewrite Hc.
Qed.

Lemma span_digits_app (digits rest : string) :
  Rows.only_digits digits = true ->
  ChassisA.span_digits rest = ("", rest) ->
  ChassisA.span_digits (digits ++ rest) = (digits, rest).
Proof.
  intros Hds Hrest. induction digits as [|c ds IH]; [exact Hrest|].
  simpl in *. apply andb_prop in Hds as [Hc Hds].
  now rewrite Hc, IH.
Qed.

Lemma match_group_head (c : ascii) (s : string) :
  c <> "("%char -> ChassisA.match_group (String c s) = None.
Proof.
  intros Hc. unfold ChassisA.match_group.
  destruct c as [[] [] [] [] [] [] [] []]; try reflexivity.
  now contradiction Hc.
Qed.

Lemma match_group_inv (s digits rest : string) :
  ChassisA.match_group s = Some (digits, rest) ->
  s = "(" ++ digits ++ ")" ++ rest
  /\ Rows.only_digits digits = true /\ digits <> "".
Proof.
  destruct s as [|c s]; [discriminate|].
  destruct (ascii_dec c "("%char) as [->|Hc];
    [|now rewrite match_group_head].
  unfold ChassisA.match_group.
  destruct (ChassisA.span_digits s) as [ds r] eqn:Hspan.
  destruct (span_digits_inv s ds r Hspan) as (-> & Hds & _).
  destruct ds as [|d ds]; [discriminate|].
  destruct r as [|x r]; [discriminate|].
  destruct (ascii_dec x ")"%char) as [->|Hx].
  - intros [= <- <-]. now repeat split.
  - destruct x as [[] [] [] [] [] [] [] []]; try discriminate.
    now contradiction Hx.
Qed.

Lemma string_length_app (s t : string) :
  String.length (s ++ t) = (String.length s + String.length t)%nat.
Proof. induction s as [|c s IH]; simpl; [reflexivity|now rewrite IH]. Qed.

Lemma string_app_assoc (s t u : string) : (s ++ t) ++ u = s ++ t ++ u.
Proof. induction s as [|c s IH]; simpl; [reflexivity|now rewrite IH]. Qed.

Lemma sub_groups_length (s : string) :
  (String.length (ChassisA.sub_groups s) <= String.length s)%nat.
Proof.
  funelim (ChassisA.sub_groups s).
  - destruct (match_group_inv s digits rest e) as (-> & _ & _).
    cbn [String.append String.length] in *.
    rewrite !string_length_app in *. cbn [String.append String.length].
    lia.
  - simpl. lia.
  - simpl. lia.
Qed.

Lemma split_app (p q before after : string) :
  p ++ q = before ++ after ->
  (exists mid, p = before ++ mid /\ after = mid ++ q /\ mid <> "")
  \/ (exists before', q = before' ++ after).
Proof.
  revert before. induction p as [|c p IH]; intros before Heq.
  - right. now exists before.
  - destruct before as [|b before].
    + left. exists (String c p). simpl in *. now repeat split.
    + simpl in Heq. injection Heq as <- Heq.
      destruct (IH before Heq) as [(mid & -> & -> & Hmid)|[before' ->]].
      * left. exists mid. now repeat split.
      * right. now exists before'.
Qed.

Lemma only_digits_suffix (before mid : string) :
  Rows.only_digits (before ++ mid) = true -> Rows.only_digits mid = true.
Proof.
  induction before as [|c b IH]; [easy|].
  simpl. intros H. apply andb_prop in H as [_ H]. now apply IH.
Qed.

(** Digits in front of a string are kept as they are. *)
Lemma sub_groups_digits (digits rest : string) :
  Rows.only_digits digits = true ->
  ChassisA.sub_groups (digits ++ rest) = digits ++ ChassisA.sub_groups rest.
Proof.
  induction digits as [|c ds IH]; intros Hds; [reflexivity|].
  simpl in Hds. apply andb_prop in Hds as [Hc Hds].
  rewrite sub_groups_unfold. cbn [String.append].
  rewrite match_group_head by (intros ->; discriminate).
  now rewrite IH.
Qed.

(** What the result starts with. *)
Lemma sub_groups_head (s : string) :
  ChassisA.span_digits s = ("", s) ->
  ChassisA.span_digits (ChassisA.sub_groups s) = ("", ChassisA.sub_groups s)
  /\ ((exists rest, ChassisA.sub_groups s = String ")"%char rest) ->
      exists rest, s = String ")"%char rest).
Proof.
  intros Hs. rewrite sub_groups_unfold.
  destruct (ChassisA.match_group s) as [[ds r]|] eqn:Hm.
  - split; [reflexivity|]. intros [rest H]. discriminate.
  - destruct s as [|c s]; [split; [reflexivity|intros [rest H]; discriminate]|].
    simpl in Hs |- *. destruct (ChassisA.isdigit c).
    + destruct (ChassisA.span_digits s). discriminate.
    + split; [reflexivity|]. intros [rest [= -> _]]. now exists s.
Qed.

Lemma match_group_after_sub (s : string) :
  ChassisA.match_group (String "("%char s) = None ->
  ChassisA.match_group (String "("%char (ChassisA.sub_groups s)) = None.
Proof.
  unfold ChassisA.match_group.
  destruct (ChassisA.span_digits s) as [ds r] eqn:Hspan.
  destruct (span_digits_inv s ds r Hspan) as (-> & Hds & Hr).
  rewrite (sub_groups_digits ds r Hds).
  destruct (sub_groups_head r Hr) as [Hhead Hparen].
  rewrite (span_digits_app ds (ChassisA.sub_groups r) Hds Hhead).
  destruct ds as [|d ds]; [reflexivity|].
  destruct r as [|x r].
  - intros _. rewrite sub_groups_unfold. reflexivity.
  - destruct (ChassisA.sub_groups (String x r)) as [|y t] eqn:Hsub; [reflexivity|].
    destruct (ascii_dec y ")"%char) as [->|Hy].
    + destruct (Hparen (ex_intro _ t eq_refl)) as [rest' [= -> _]].
      discriminate.
    + intros _. destruct y as [[] [] [] [] [] [] [] []]; try reflexivity.
      now contradiction Hy.
Qed.

Lemma sub_groups_no_group (s : string) : Rows.has_no_group (ChassisA.sub_groups s).
Proof.
  funelim (ChassisA.sub_groups s); intros before after Heq.
  - destruct (match_group_inv s digits rest e) as (_ & Hds & _).
    change ((" " ++ digits ++ ChassisA.sub_groups rest)%string)
      with ((" " ++ digits) ++ ChassisA.sub_groups rest) in Heq.
    destruct (split_app _ _ _ _ Heq) as [(mid & Hp & -> & Hmid)|[b' Hq]].
    + destruct mid as [|c mid]; [contradiction|].
      cbn [String.append]. apply match_group_head. intros ->.
      destruct before as [|b before].
      * simpl in Hp. discriminate.
      * simpl in Hp. injection Hp as _ Hp.
        assert (Hmid' : Rows.only_digits (String "("%char mid) = true).
        { apply (only_digits_suffix before). now rewrite <- Hp. }
        discriminate.
    + exact (H b' after Hq).
  - destruct before; [|discriminate]. simpl in Heq. now subst after.
  - destruct before as [|b before].
    + simpl in Heq. subst after.
      destruct (ascii_dec c "("%char) as [->|Hc];
        [|now apply match_group_head].
      now apply match_group_after_sub.
    + simpl in Heq. injection Heq as _ Heq. exact (H before after Heq).
Qed.

Lemma sub_groups_unchanged (s : string) :
  Rows.has_no_group s -> ChassisA.sub_groups s = s.
Proof.
  funelim (ChassisA.sub_groups s); intros Hno.
  - pose proof (Hno "" s eq_refl) as Hnone. congruence.
  - reflexivity.
  - f_equal. apply H. intros before after ->.
    apply (Hno (String c before) after). reflexivity.
Qed.

Lemma sub_groups_shorter (before after : string) :
  ChassisA.match_group after <> None ->
  (String.length (ChassisA.sub_groups (before ++ after))
   < String.length (before ++ after))%nat.
Proof.
  intros Hm. induction before as [|c b IH].
  - simpl. rewrite sub_groups_unfold.
    destruct (ChassisA.match_group after) as [[ds r]|] eqn:E; [|contradiction].
    destruct (match_group_inv after ds r E) as (-> & _ & _).
    pose proof (sub_groups_length r).
    cbn [String.append String.length].
    rewrite !string_length_app. cbn [String.append String.length]. lia.
  - rewrite sub_groups_unfold.
    destruct (ChassisA.match_group (String c b ++ after)) as [[ds r]|] eqn:E.
    + destruct (match_group_inv _ ds r E) as (-> & _ & _).
      pose proof (sub_groups_length r).
      cbn [String.append String.length].
      rewrite !string_length_app. cbn [String.append String.length]. lia.
    + cbn [String.append String.length]. lia.
Qed.

Local Open Scope Z_scope.

Lemma is_ascii_app (s t : string) :
  Rows.is_ascii (s ++ t) = Rows.is_ascii s && Rows.is_ascii t.
Proof.
  induction s as [|c s IH]; [reflexivity|].
  simpl. now rewrite IH, andb_assoc.
Qed.

(** The rewriting of an ASCII name is an ASCII name. *)
Lemma sub_groups_ascii (s : string) :
  Rows.is_ascii s = true -> Rows.is_ascii (ChassisA.sub_groups s) = true.
Proof.
  funelim (ChassisA.sub_groups s); intros Hs.
  - destruct (match_group_inv s digits rest e) as (-> & _ & _).
    rewrite !is_ascii_app in Hs. rewrite !is_ascii_app.
    apply andb_prop in Hs as [_ Hs]. apply andb_prop in Hs as [Hds Hs].
    apply andb_prop in Hs as [_ Hrest].
    rewrite Hds, (H Hrest). reflexivity.
  - reflexivity.
  - simpl in Hs |- *. apply andb_prop in Hs as [Hc Hs].
    now rewrite Hc, (H Hs).
Qed.

(** X6. The rewriting of a sensor name of ASCII characters leaves no
    parenthesised number: its result is a name of ASCII characters in which
    no match of the pattern starts anywhere, and rewriting the result again
    changes nothing. *)
Theorem sub_groups_leaves_no_group (name : string) :
  Rows.is_ascii name = true ->
  Rows.is_ascii (ChassisA.sub_groups name) = true
  /\ Rows.has_no_group (ChassisA.sub_groups name)
  /\ ChassisA.sub_groups (ChassisA.sub_groups name)
     = ChassisA.sub_groups name.
Proof.
  intros Hname.
  split; [now apply sub_groups_ascii|].
  split; [apply sub_groups_no_group|].
  apply sub_groups_unchanged, sub_groups_no_group.
Qed.

Lemma sub_groups_leaves_no_group_witness :
  Rows.is_ascii (ChassisA.sub_groups "PSU(1) Fan(12)") = true
  /\ Rows.has_no_group (ChassisA.sub_groups "PSU(1) Fan(12)")
  /\ ChassisA.sub_groups (ChassisA.sub_groups "PSU(1) Fan(12)")
     = ChassisA.sub_groups "PSU(1) Fan(12)".
Proof.
  apply (sub_groups_leaves_no_group "PSU(1) Fan(12)"). reflexivity.
Defined.

(** X7. The rewriting of a sensor name of ASCII characters changes the name
    only where a parenthesised number stands: the name is left as it is
    exactly when no match of the pattern starts anywhere in it, and the
    result is never longer than the name. *)
Theorem sub_groups_changes_only_groups (name : string) :
  Rows.is_ascii name = true ->
  (ChassisA.sub_groups name = name <-> Rows.has_no_group name)
  /\ (String.length (ChassisA.sub_groups name) <= String.length name)%nat.
Proof.
  intros _.
  split; [|apply sub_groups_length].
  split; [|apply sub_groups_unchanged].
  intros Hsame before after ->.
  destruct (ChassisA.match_group after) as [group|] eqn:Hm; [|reflexivity].
  exfalso.
  assert (Hsome : ChassisA.match_group after <> None) by congruence.
  pose proof (sub_groups_shorter before after Hsome) as Hlt.
  rewrite Hsame in Hlt. lia.
Qed.

Lemma sub_groups_changes_only_groups_witness :
  (ChassisA.sub_groups "Temp (CPU)" = "Temp (CPU)"
   <-> Rows.has_no_group "Temp (CPU)")
  /\ (String.length (ChassisA.sub_groups "Temp (CPU)")
      <= String.length "Temp (CPU)")%nat.
Proof.
  apply (sub_groups_changes_only_groups "Temp (CPU)"). reflexivity.
Defined.

(** The names the comments of the source have in mind. *)
Lemma sub_groups_samples :
  ChassisA.sub_groups "Fan(2)" = "Fan 2"
  /\ ChassisA.sub_groups "PSU(1) Fan(12)" = "PSU 1 Fan 12"
  /\ ChassisA.sub_groups "Slot()" = "Slot()"
  /\ ChassisA.sub_groups "Temp (CPU)" = "Temp (CPU)"
  /\ ChassisA.sub_groups "((7))" = "( 7)".
Proof. repeat split. Qed.

(** ** Discovery *)

Lemma discover_loop (ks : list string) :
  for_yield ks discover_key = Gen (map Service (Rows.announced ks)) (Ok tt).
Proof.
  induction ks as [|k rest IH]; [reflexivity|].
  cbn [for_yield Rows.announced filter]. rewrite IH.
  unfold discover_key. now destruct (String.eqb k "").
Qed.

Lemma get_keys {V : Type} (d : dict string V) (k : string) :
  In k (keys d) <-> exists v, get String.eqb d k = Some v.
Proof.
  induction d as [|[k0 v0] rest IH]; simpl.
  - split; [intros []|intros [v H]; discriminate].
  - destruct (String.eqb_spec k k0) as [->|Hne].
    + split; [intros _; now exists v0|intros _; now left].
    + rewrite <- IH. split; [intros [H|H]; [congruence|exact H]|now right].
Qed.

Lemma announced_In (ks : list string) (k : string) :
  In k (Rows.announced ks) <-> In k ks /\ k <> "".
Proof.
  unfold Rows.announced. rewrite filter_In.
  destruct (String.eqb_spec k ""); simpl; intuition congruence.
Qed.

(** X8. Every discovery function yields one Service per key of the section,
    in the order of the keys, leaves out the empty key, and ends normally;
    so an item is announced exactly when it is a non-empty key, under which
    the lookup of the check finds a record. *)
Theorem discovery_announces_nonempty_keys :
  (forall section,
      ChassisA.discover_infortrend_chassis_sensors_a section
      = Gen (map Service (Rows.announced (keys section))) (Ok tt))
  /\ (forall section,
        ChassisB.discover_infortrend_chassis_sensors_b section
        = Gen (map Service (Rows.announced (keys section))) (Ok tt))
  /\ (forall section,
        DisksA.discover_infortrend_disks section
        = Gen (map Service (Rows.announced (keys section))) (Ok tt))
  /\ (forall section,
        DisksB.discover_infortrend_disks_b section
        = Gen (map Service (Rows.announced (keys section))) (Ok tt))
  /\ (forall section,
        LogicalDrivesA.discover_infortrend_logical_drives_a section
        = Gen (map Service (Rows.announced (keys section))) (Ok tt))
  /\ (forall section,
        LogicalDrivesB.discover_infortrend_logical_drives_b section
        = Gen (map Service (Rows.announced (keys section))) (Ok tt))
  /\ (forall (V : Type) (section : dict string V) (item : string),
        In (Service item) (map Service (Rows.announced (keys section)))
        <-> item <> ""
            /\ exists record, get String.eqb section item = Some record).
Proof.
  repeat (split; [intros section; apply discover_loop|]).
  intros V section item. rewrite <- get_keys.
  split.
  - intros Hin. apply in_map_iff in Hin as (k & [= <-] & Hk).
    apply announced_In in Hk. tauto.
  - intros [Hne Hin]. apply in_map. apply announced_In. tauto.
Qed.

(** X9. Parsing a logical-drive table and discovering from the result
    announces each non-empty slot of the table once, in the order of its
    first row, however often the table repeats it. *)
Theorem discover_parsed_logical_drives (int : string -> option Z)
  (table : list (list string)) :
  forallb (fun line => (2 <=? List.length line)%nat) table = true ->
  exists parsed_a parsed_b,
    LogicalDrivesA.parse_infortrend_logical_drives_a int table = Ok parsed_a
    /\ LogicalDrivesB.parse_infortrend_logical_drives_b int table
       = Ok parsed_b
    /\ LogicalDrivesA.discover_infortrend_logical_drives_a parsed_a
       = Gen (map Service
                (Rows.announced
                   (Rows.first_occurrences [] (map (Rows.field 0) table))))
             (Ok tt)
    /\ LogicalDrivesB.discover_infortrend_logical_drives_b parsed_b
       = Gen (map Service
                (Rows.announced
                   (Rows.first_occurrences [] (map (Rows.field 0) table))))
             (Ok tt)
    /\ NoDup (Rows.announced
                (Rows.first_occurrences [] (map (Rows.field 0) table))).
Proof.
  intros Hwide. pose proof (rows_wide_enough 2 table Hwide) as Hlen.
  eexists. eexists.
  split.
  { unfold LogicalDrivesA.parse_infortrend_logical_drives_a.
    apply for_each_setdefault. intros line parsed Hin.
    apply logical_drives_a_parse_line. now apply Hlen. }
  split.
  { unfold LogicalDrivesB.parse_infortrend_logical_drives_b.
    apply for_each_setdefault. intros line parsed Hin.
    apply logical_drives_b_parse_line. now apply Hlen. }
  unfold LogicalDrivesA.discover_infortrend_logical_drives_a,
    LogicalDrivesB.discover_infortrend_logical_drives_b.
  rewrite !discover_loop, !keys_first_wins, !map_map.
  cbn [fst app keys map].
  repeat split.
  apply NoDup_filter, first_occurrences_NoDup.
Qed.

Lemma discover_parsed_logical_drives_witness :
  exists parsed_a parsed_b,
    LogicalDrivesA.parse_infortrend_logical_drives_a int_of_decimal
      [["0"; "3"]; [""; "0"]; ["1"; "0"]; ["0"; "0"]] = Ok parsed_a
    /\ LogicalDrivesB.parse_infortrend_logical_drives_b int_of_decimal
         [["0"; "3"]; [""; "0"]; ["1"; "0"]; ["0"; "0"]] = Ok parsed_b
    /\ LogicalDrivesA.discover_infortrend_logical_drives_a parsed_a
       = Gen [Service "0"; Service "1"] (Ok tt)
    /\ LogicalDrivesB.discover_infortrend_logical_drives_b parsed_b
       = Gen [Service "0"; Service "1"] (Ok tt)
    /\ NoDup ["0"; "1"].
Proof.
  apply (discover_parsed_logical_drives int_of_decimal
           [["0"; "3"]; [""; "0"]; ["1"; "0"]; ["0"; "0"]]).
  reflexivity.
Defined.

(** ** Disk rows *)

Lemma str_not_empty (z : Z) : str z <> ""%string.
Proof.
  unfold str. destruct (Z.to_int z) as [d|d]; [|discriminate].
  destruct d; discriminate.
Qed.

Lemma enumerate_from_nth {A : Type} (table : list A) (i : Z) (n : nat)
  (x : A) :
  nth_error table n = Some x -> In (i + Z.of_nat n, x) (enumerate_from i table).
Proof.
  revert i n. induction table as [|y rest IH]; intros i n.
  - destruct n; discriminate.
  - destruct n as [|n].
    + simpl. intros [= ->]. left. f_equal. lia.
    + simpl nth_error. intros H. right.
      replace (i + Z.of_nat (S n)) with (i + 1 + Z.of_nat n) by lia.
      now apply IH.
Qed.

Lemma keys_setdefault {V : Type} (d : dict string V) (k0 k : string) (v0 : V) :
  In k (keys (setdefault String.eqb d k0 v0)) -> In k (keys d) \/ k = k0.
Proof.
  unfold setdefault. destruct (contains String.eqb d k0); [now left|].
  unfold keys. rewrite map_app. intros H.
  apply in_app_or in H as [H|[H|[]]]; [now left|right; now symmetry].
Qed.

(** The keys the loop of disks variant B adds are decimal numbers. *)
Lemma disks_b_loop_keys (int : string -> option Z)
  (table : list (list string)) :
  forall (i : Z) (acc parsed : dict string DisksB.InfortrendDiskSection),
    for_each (enumerate_from i table) (DisksB.parse_line int) acc = Ok parsed ->
    forall key, In key (keys parsed) ->
                In key (keys acc) \/ exists z, key = str z.
Proof.
  induction table as [|line rest IH]; intros i acc parsed.
  - simpl. intros [= <-] key Hin. now left.
  - simpl for_each. unfold DisksB.parse_line at 1.
    destruct (list_getitem line 0) as [raw_slot|]; [|discriminate].
    cbn [py_bind].
    destruct (list_getitem line 1) as [raw_state|]; [|discriminate].
    cbn [py_bind int_eq_str]. intros Hrun key Hin.
    destruct (IH _ _ _ Hrun key Hin) as [Hacc|Hstr]; [|now right].
    apply keys_setdefault in Hacc as [Hacc| ->]; [now left|].
    right. unfold DisksB.slot_key. eexists. reflexivity.
Qed.

Lemma announced_all (ks : list string) :
  (forall k, In k ks -> k <> ""%string) -> Rows.announced ks = ks.
Proof.
  induction ks as [|k rest IH]; intros Hne; [reflexivity|].
  cbn [Rows.announced filter].
  destruct (String.eqb_spec k "") as [->|_].
  - now contradiction (Hne ""%string (or_introl eq_refl)).
  - cbn [negb]. f_equal. apply IH. intros k' Hk'. apply Hne. now right.
Qed.

(** X10. The disk parser of variant B, on a table whose rows have their two
    fields: parsing succeeds and no row is skipped, the key of every row
    (the decimal of its slot, or of its row index when the slot is 0 or no
    integer) being in the parsed mapping; no key is empty, so discovery
    announces every key. *)
Theorem parse_disks_b_keeps_rows (int : string -> option Z)
  (table : list (list string)) :
  forallb (fun line => (2 <=? List.length line)%nat) table = true ->
  exists parsed,
    DisksB.parse_infortrend_disks_b int table = Ok parsed
    /\ (forall n line,
          nth_error table n = Some line ->
          contains String.eqb parsed
            (DisksB.slot_key int (Z.of_nat n) (Rows.field 0 line)) = true)
    /\ (forall key, In key (keys parsed) -> key <> ""%string)
    /\ DisksB.discover_infortrend_disks_b parsed
       = Gen (map Service (keys parsed)) (Ok tt).
Proof.
  intros Hwide. pose proof (rows_wide_enough 2 table Hwide) as Hlen.
  assert (Hrows : forall line, In line table ->
            exists raw_slot raw_state rest,
              line = raw_slot :: raw_state :: rest).
  { intros line Hin. specialize (Hlen line Hin).
    destruct line as [|a [|b rest]]; simpl in Hlen; try lia.
    now exists a, b, rest. }
  destruct (disks_b_loop_keeps_rows int table Hrows 0 [])
    as (parsed & Hrun & _ & Hkeys).
  exists parsed. split; [exact Hrun|].
  assert (Hne : forall key, In key (keys parsed) -> key <> ""%string).
  { intros key Hin.
    destruct (disks_b_loop_keys int table 0 [] parsed Hrun key Hin)
      as [[]|[z ->]].
    apply str_not_empty. }
  split; [|split; [exact Hne|]].
  - intros n line Hnth.
    pose proof (enumerate_from_nth table 0 n line Hnth) as Hin.
    rewrite Z.add_0_l in Hin.
    destruct (Hrows line (nth_error_In _ _ Hnth))
      as (raw_slot & raw_state & rest & ->).
    exact (Hkeys (Z.of_nat n) raw_slot (raw_state :: rest) Hin).
  - unfold DisksB.discover_infortrend_disks_b.
    rewrite discover_loop. now rewrite announced_all.
Qed.

Lemma parse_disks_b_keeps_rows_witness :
  exists parsed,
    DisksB.parse_infortrend_disks_b int_of_decimal
      [["0"; "1"]; ["x"; "3"]; ["7"; "1"]] = Ok parsed
    /\ (forall n line,
          nth_error [["0"; "1"]; ["x"; "3"]; ["7"; "1"]] n = Some line ->
          contains String.eqb parsed
            (DisksB.slot_key int_of_decimal (Z.of_nat n) (Rows.field 0 line))
          = true)
    /\ (forall key, In key (keys parsed) -> key <> ""%string)
    /\ DisksB.discover_infortrend_disks_b parsed
       = Gen (map Service (keys parsed)) (Ok tt).
Proof.
  apply (parse_disks_b_keeps_rows int_of_decimal
           [["0"; "1"]; ["x"; "3"]; ["7"; "1"]]).
  reflexivity.
Defined.

Lemma disks_a_parse_line (int : string -> option Z)
  (disksize : number -> string) (line : list string)
  (parsed : dict string DisksA.InfortrendDiskSection) :
  Rows.disk_a_row_ok int line = true ->
  DisksA.parse_line int disksize line parsed
  = Ok (setdefault String.eqb parsed (Rows.field 0 line)
          (Rows.disk_a_record int disksize line)).
Proof.
  unfold Rows.disk_a_row_ok. intros Hok.
  apply andb_prop in Hok as [Hlen Hints]. apply Nat.leb_le in Hlen.
  unfold DisksA.parse_line, Rows.disk_a_record.
  rewrite !list_getitem_field by lia. cbn [py_bind].
  unfold DisksA.int_or_raise. unfold Rows.disk_a_bytes in *.
  destruct (int (Rows.field 5 line)) as [size|]; [|discriminate].
  destruct (int (Rows.field 6 line)) as [blocksize|]; [|discriminate].
  cbn [py_bind].
  destruct (mul_pow2 size blocksize) as [bytes|]; [|discriminate].
  reflexivity.
Qed.

(** X11. The disk parser of variant A, on a table whose rows have their
    seven fields with an integer size and block size whose product
    [size * 2 ** blocksize] does not overflow: parsing succeeds; the record
    under a slot is the one of the first row with that slot, its description
    made of model, version, serial and the rendered product; each slot
    occurs once, in the order of its first row. *)
Theorem parse_disks_a_first_row_wins (int : string -> option Z)
  (disksize : number -> string) (table : list (list string)) :
  forallb (Rows.disk_a_row_ok int) table = true ->
  exists parsed,
    DisksA.parse_infortrend_disks int disksize table = Ok parsed
    /\ (forall slot,
          get String.eqb parsed slot
          = option_map (Rows.disk_a_record int disksize)
              (Rows.first_row 0 slot table))
    /\ keys parsed = Rows.first_occurrences [] (map (Rows.field 0) table)
    /\ NoDup (keys parsed).
Proof.
  intros Hok. rewrite forallb_forall in Hok.
  eexists. split.
  { unfold DisksA.parse_infortrend_disks.
    apply for_each_setdefault. intros line parsed Hin.
    apply disks_a_parse_line. now apply Hok. }
  split; [intros slot; rewrite get_first_wins; apply get_rows|].
  rewrite !keys_first_wins, !map_map. cbn [fst app keys map].
  split; [reflexivity|apply first_occurrences_NoDup].
Qed.

Lemma parse_disks_a_first_row_wins_witness :
  exists parsed,
    DisksA.parse_infortrend_disks int_of_decimal (fun _ => "3.64 TiB")
      [["1"; "1"; "ST4000"; "SN04"; "Z1Z0"; "7814037168"; "9"];
       ["1"; "255"; "ST4000"; "SN04"; "Z1Z1"; "7814037168"; "9"]]
    = Ok parsed
    /\ (forall slot,
          get String.eqb parsed slot
          = option_map
              (Rows.disk_a_record int_of_decimal (fun _ => "3.64 TiB"))
              (Rows.first_row 0 slot
                 [["1"; "1"; "ST4000"; "SN04"; "Z1Z0"; "7814037168"; "9"];
                  ["1"; "255"; "ST4000"; "SN04"; "Z1Z1"; "7814037168";
                   "9"]]))
    /\ keys parsed = ["1"]
    /\ NoDup (keys parsed).
Proof.
  apply (parse_disks_a_first_row_wins int_of_decimal (fun _ => "3.64 TiB")
           [["1"; "1"; "ST4000"; "SN04"; "Z1Z0"; "7814037168"; "9"];
            ["1"; "255"; "ST4000"; "SN04"; "Z1Z1"; "7814037168"; "9"]]).
  reflexivity.
Defined.

(** X12. The disk parser of variant A converts size and block size with
    [int]: at the first row, of seven fields, whose size or block size is
    no integer it raises ValueError, whatever rows follow. *)
Theorem parse_disks_a_size_not_integer (int : string -> option Z)
  (disksize : number -> string) (good : list (list string)) (bad : list string)
  (rest : list (list string)) :
  forallb (Rows.disk_a_row_ok int) good = true ->
  (7 <= List.length bad)%nat ->
  int (Rows.field 5 bad) = None \/ int (Rows.field 6 bad) = None ->
  DisksA.parse_infortrend_disks int disksize (good ++ bad :: rest)
  = Raise ValueError.
Proof.
  intros Hok Hlen Hbad. rewrite forallb_forall in Hok.
  unfold DisksA.parse_infortrend_disks.
  apply for_each_raise.
  - intros line parsed Hin. eexists.
    apply disks_a_parse_line. now apply Hok.
  - intros parsed.
    unfold DisksA.parse_line.
    rewrite !list_getitem_field by lia. cbn [py_bind].
    unfold DisksA.int_or_raise.
    destruct (int (Rows.field 5 bad)) as [size|]; [|reflexivity].
    cbn [py_bind].
    destruct (int (Rows.field 6 bad)) as [blocksize|]; [|reflexivity].
    now destruct Hbad.
Qed.

Lemma parse_disks_a_size_not_integer_witness :
  DisksA.parse_infortrend_disks int_of_decimal (fun _ => "3.64 TiB")
    ([["1"; "1"; "ST4000"; "SN04"; "Z1Z0"; "7814037168"; "9"]]
     ++ ["2"; "1"; "ST4000"; "SN04"; "Z1Z1"; "7814037168"; ""] :: [])
  = Raise ValueError.
Proof.
  apply (parse_disks_a_size_not_integer int_of_decimal (fun _ => "3.64 TiB")
           [["1"; "1"; "ST4000"; "SN04"; "Z1Z0"; "7814037168"; "9"]]
           ["2"; "1"; "ST4000"; "SN04"; "Z1Z1"; "7814037168"; ""] []).
  - reflexivity.
  - simpl. lia.
  - right. reflexivity.
Defined.

(** The product [size * 2 ** blocksize] of a disk row: an [int] when the
    block size is not negative, a float when it is negative, and
    OverflowError when the size is then beyond the floats. *)
Lemma disks_a_size_in_bytes :
  mul_pow2 7814037168 9 = Ok (IntNumber 4000787030016)
  /\ mul_pow2 3 (-1) = Ok (FloatNumber (Float false (Qmake 3 2)))
  /\ mul_pow2 (10 ^ 400) (-1) = Raise OverflowError
  /\ DisksA.parse_infortrend_disks int_of_decimal (fun _ => "")
       [["1"; "1"; "ST4000"; "SN04"; "Z1Z0"; str (10 ^ 400); "-1"]]
     = Raise OverflowError.
Proof. repeat split; vm_compute; reflexivity. Qed.

(** ** The checks on every input *)

(** X13. The disk checks of both variants are total: for every item and
    every section, whether the item is missing, its status absent, outside
    the table or in it, the check yields exactly one Result and ends
    normally. *)
Theorem disk_checks_total (item : string)
  (section_a : dict string DisksA.InfortrendDiskSection)
  (section_b : dict string DisksB.InfortrendDiskSection) :
  exists state_a summary_a state_b summary_b,
    DisksA.check_infortrend_disks item section_a
    = Gen [Result state_a summary_a] (Ok tt)
    /\ DisksB.check_infortrend_disks_b item section_b
       = Gen [Result state_b summary_b] (Ok tt).
Proof.
  assert (Ha : exists st txt,
             DisksA.check_infortrend_disks item section_a
             = Gen [Result st txt] (Ok tt)).
  { destruct (get String.eqb section_a item) as [disk|] eqn:Hitem.
    - destruct (DisksA.state disk) as [code|] eqn:Hstate.
      + eexists. eexists.
        exact (disks_a_check item section_a disk code Hitem Hstate).
      + eexists. eexists. unfold DisksA.check_infortrend_disks.
        rewrite Hitem, Hstate. reflexivity.
    - eexists. eexists. unfold DisksA.check_infortrend_disks.
      rewrite Hitem. reflexivity. }
  assert (Hb : exists st txt,
             DisksB.check_infortrend_disks_b item section_b
             = Gen [Result st txt] (Ok tt)).
  { destruct (get String.eqb section_b item) as [disk|] eqn:Hitem.
    - destruct (DisksB.state disk) as [code|] eqn:Hstate.
      + eexists. eexists.
        exact (disks_b_check item section_b disk code Hitem Hstate).
      + eexists. eexists. unfold DisksB.check_infortrend_disks_b.
        rewrite Hitem, Hstate. reflexivity.
    - eexists. eexists. unfold DisksB.check_infortrend_disks_b.
      rewrite Hitem. reflexivity. }
  destruct Ha as (sa & ta & Ha). destruct Hb as (sb & tb & Hb).
  now exists sa, ta, sb, tb.
Qed.

(** X14. Logical drives, variant A, for an item of the section whose status
    is an integer with a code of the table (bit 7 masked off when set): the
    check yields exactly one Result and ends normally.  The severity depends
    on the code alone, OK for 0, WARN for 1 and 2, CRIT for 3 to 7, so that
    an off-line drive with code 0 is OK; the message is the off-line text
    when bit 7 is set, a space, and the text of the code. *)
Theorem logical_drives_a_known_code (item : string)
  (section : dict string LogicalDrivesA.InfortrendLogicalDriveSection)
  (ld : LogicalDrivesA.InfortrendLogicalDriveSection) (status : Z)
  (text : string) :
  get String.eqb section item = Some ld ->
  LogicalDrivesA.sensor_state ld = Int status ->
  get Z.eqb LogicalDrivesA.LDRIVE_STATE_INFO_MAP (Spec.ld_code status)
  = Some text ->
  LogicalDrivesA.check_infortrend_logical_drives_a item section
  = Gen [Result (Decode.ld_severity [0] (Spec.ld_code status))
           (Decode.offline_text status ++ " " ++ text)%string]
        (Ok tt).
Proof.
  intros Hitem Hstate Hcode.
  unfold LogicalDrivesA.check_infortrend_logical_drives_a.
  rewrite Hitem, Hstate, (proj1 (mask_offline_bit7 status)).
  unfold Spec.ld_code, Decode.offline_text in *.
  destruct (Z.testbit status 7);
    [set (code := Z.land status 127) in *|set (code := status) in *];
    clearbody code; apply get_In in Hcode; cbn [In] in Hcode;
    repeat (destruct Hcode as [[= <- <-]|Hcode]; [reflexivity|]);
    contradiction.
Qed.

Lemma logical_drives_a_known_code_witness :
  LogicalDrivesA.check_infortrend_logical_drives_a "0"
    [("0", {| LogicalDrivesA.sensor_state := Int 128 |})]
  = Gen [Result OK "Logical Drive Off-line (RW) Good"] (Ok tt).
Proof.
  apply (logical_drives_a_known_code "0"
           [("0", {| LogicalDrivesA.sensor_state := Int 128 |})]
           {| LogicalDrivesA.sensor_state := Int 128 |} 128 "Good");
    reflexivity.
Defined.

(** X15. Logical drives, variant B, for an item of the section whose status
    is an integer with a code of the table (bit 7 masked off when set): the
    check yields exactly one Result and ends normally.  The severity depends
    on the code alone, OK for 0 and 64, WARN for 1 and 2, CRIT for 3 to 7;
    the message is the text of the code, with the off-line text and a comma
    in front when bit 7 is set. *)
Theorem logical_drives_b_known_code (item : string)
  (section : dict string LogicalDrivesB.InfortrendLogicalDriveSection)
  (ld : LogicalDrivesB.InfortrendLogicalDriveSection) (status : Z)
  (text : string) :
  get String.eqb section item = Some ld ->
  LogicalDrivesB.sensor_state ld = Int status ->
  get Z.eqb LogicalDrivesB.DRIVE_STATE_INFO_MAP (Spec.ld_code status)
  = Some text ->
  LogicalDrivesB.check_infortrend_logical_drives_b item section
  = Gen [Result (Decode.ld_severity [0; 64] (Spec.ld_code status))
           (if Z.testbit status 7
            then Decode.offline_text status ++ ", " ++ text
            else text)%string]
        (Ok tt).
Proof.
  intros Hitem Hstate Hcode.
  unfold LogicalDrivesB.check_infortrend_logical_drives_b.
  rewrite Hitem, Hstate, (proj2 (mask_offline_bit7 status)),
    (proj1 (mask_offline_bit7 status)).
  unfold Spec.ld_code, Decode.offline_text in *.
  destruct (Z.testbit status 7);
    [set (code := Z.land status 127) in *|set (code := status) in *];
    clearbody code; apply get_In in Hcode; cbn [In] in Hcode;
    repeat (destruct Hcode as [[= <- <-]|Hcode]; [reflexivity|]);
    contradiction.
Qed.

Lemma logical_drives_b_known_code_witness :
  LogicalDrivesB.check_infortrend_logical_drives_b "0"
    [("0", {| LogicalDrivesB.sensor_state := Int 192 |})]
  = Gen [Result OK "Logical Drive Off-line (RW), Good"] (Ok tt).
Proof.
  apply (logical_drives_b_known_code "0"
           [("0", {| LogicalDrivesB.sensor_state := Int 192 |})]
           {| LogicalDrivesB.sensor_state := Int 192 |} 192 "Good");
    reflexivity.
Defined.

(** A type outside the status table has no metric either. *)
Lemma chassis_unknown_type_no_metric (sensor_type : int_or_empty) :
  get_int ChassisA.STATUS_INFO_MAP sensor_type = None
  \/ get_int ChassisB.STATUS_INFO_MAP sensor_type = None ->
  contains_int ChassisA.SENSORS_WITH_METRIC sensor_type = false.
Proof.
  destruct sensor_type as [t|]; [|reflexivity].
  unfold contains_int, get_int, ChassisA.SENSORS_WITH_METRIC. cbn [get].
  intros H.
  destruct (Z.eqb_spec t InfortrendChassisSensorTypeEnum.TEMPERATURE)
    as [->|_]; [destruct H; discriminate|].
  destruct (Z.eqb_spec t InfortrendChassisSensorTypeEnum.VOLTAGE)
    as [->|_]; [destruct H; discriminate|].
  reflexivity.
Qed.

(** X16. Chassis sensors, variant A, for an item of the section whose type
    has no entry in the status table (an unknown number, one of the three
    enum members the table lacks, or an absent type): the check raises
    KeyError and yields nothing, whatever the status and the raw value. *)
Theorem chassis_a_unknown_type_raises (item : string)
  (section : dict string InfortrendChassisSensorSection)
  (sensor_data : InfortrendChassisSensorSection) :
  get String.eqb section item = Some sensor_data ->
  get_int ChassisA.STATUS_INFO_MAP (sensor_type sensor_data) = None ->
  ChassisA.check_infortrend_chassis_sensors_a item section
  = Gen [] (Raise KeyError).
Proof.
  intros Hitem Htype.
  unfold ChassisA.check_infortrend_chassis_sensors_a. rewrite Hitem.
  unfold ChassisA.submit_metrics.
  rewrite (chassis_unknown_type_no_metric _ (or_introl Htype)).
  unfold ChassisA.submit_check_results, ChassisA.bit_text,
    ChassisA.type_bits, getitem_int.
  rewrite Htype.
  destruct (eq_int (sensor_status sensor_data) 0); reflexivity.
Qed.

Lemma chassis_a_unknown_type_raises_witness :
  ChassisA.check_infortrend_chassis_sensors_a "Sensor"
    [("Sensor", {| sensor_status := Int 1; sensor_type := Int 7;
                   metric_value_raw := Int 0; metric_unit_raw := "" |})]
  = Gen [] (Raise KeyError).
Proof.
  apply (chassis_a_unknown_type_raises "Sensor"
           [("Sensor", {| sensor_status := Int 1; sensor_type := Int 7;
                          metric_value_raw := Int 0; metric_unit_raw := "" |})]
           {| sensor_status := Int 1; sensor_type := Int 7;
              metric_value_raw := Int 0; metric_unit_raw := "" |});
    reflexivity.
Defined.

(** X17. Chassis sensors, variant B, for an item of the section whose type
    has no entry in the status table: status 255 is answered before the
    table is looked at, with one UNKNOWN Result "Status unknown"; for every
    other status, absent included, the check raises KeyError and yields
    nothing. *)
Theorem chassis_b_unknown_type (item : string)
  (section : dict string InfortrendChassisSensorSection)
  (sensor_data : InfortrendChassisSensorSection) :
  get String.eqb section item = Some sensor_data ->
  get_int ChassisB.STATUS_INFO_MAP (sensor_type sensor_data) = None ->
  ChassisB.check_infortrend_chassis_sensors_b item section
  = if eq_int (sensor_status sensor_data) 255
    then Gen [Result UNKNOWN "Status unknown"] (Ok tt)
    else Gen [] (Raise KeyError).
Proof.
  intros Hitem Htype.
  unfold ChassisB.check_infortrend_chassis_sensors_b. rewrite Hitem.
  unfold ChassisB.submit_metrics.
  change ChassisB.SENSORS_WITH_METRIC with ChassisA.SENSORS_WITH_METRIC.
  rewrite (chassis_unknown_type_no_metric _ (or_intror Htype)).
  unfold ChassisB.submit_check_results, ChassisB.bit_text,
    ChassisB.type_bits, getitem_int.
  rewrite Htype.
  destruct (sensor_status sensor_data) as [s|]; [|reflexivity].
  cbn [eq_int].
  destruct (Z.eqb_spec s 0) as [->|_]; [reflexivity|].
  destruct (s =? 255); reflexivity.
Qed.

Lemma chassis_b_unknown_type_witness :
  ChassisB.check_infortrend_chassis_sensors_b "Sensor"
    [("Sensor", {| sensor_status := Int 255; sensor_type := Int 7;
                   metric_value_raw := Int 0; metric_unit_raw := "" |})]
  = Gen [Result UNKNOWN "Status unknown"] (Ok tt).
Proof.
  apply (chassis_b_unknown_type "Sensor"
           [("Sensor", {| sensor_status := Int 255; sensor_type := Int 7;
                          metric_value_raw := Int 0; metric_unit_raw := "" |})]
           {| sensor_status := Int 255; sensor_type := Int 7;
              metric_value_raw := Int 0; metric_unit_raw := "" |});
    reflexivity.
Defined.

(** The chassis check of variant B on an absent status: the block that
    submits the results raises and yields nothing. *)
Lemma chassis_b_absent_status (sensor_data : InfortrendChassisSensorSection) :
  sensor_status sensor_data = Empty ->
  ChassisB.submit_check_results sensor_data = Gen [] (Raise KeyError)
  \/ ChassisB.submit_check_results sensor_data = Gen [] (Raise TypeError).
Proof.
  intros Hstatus. unfold ChassisB.submit_check_results.
  rewrite Hstatus. cbn [eq_int].
  unfold ChassisB.type_bits, getitem_int.
  destruct (get_int ChassisB.STATUS_INFO_MAP (sensor_type sensor_data))
    as [entry|] eqn:Hentry; [|now left].
  destruct (sensor_type sensor_data) as [t|]; [|discriminate].
  cbn [get_int] in Hentry. cbn [py_bind]. unfold getitem_bits.
  destruct (bits entry) as [b|] eqn:Hbits; [|now left].
  pose proof (chassis_b_table_shape t entry b Hentry Hbits) as Hshape.
  destruct (bits_from_zero_inv b Hshape) as (_ & [m0 Hm0] & _).
  right.
  destruct b as [|[bit messages] rest]; [discriminate Hm0|].
  assert (Hfirst : ChassisB.bit_result sensor_data bit
                   = Gen [] (Raise TypeError))
    by (unfold ChassisB.bit_result; now rewrite Hstatus).
  unfold bind at 1, lift. cbn [outcome emitted keys map fst for_yield app].
  rewrite Hfirst. reflexivity.
Qed.

Lemma results_bind_raise (g rest : CheckResult) :
  results g = [] ->
  emitted rest = [] ->
  outcome rest <> Ok tt ->
  results (bind g (fun _ => rest)) = []
  /\ outcome (bind g (fun _ => rest)) <> Ok tt.
Proof.
  intros Hg Hrest Hraise. unfold results, bind in *.
  destruct (outcome g) as [[]|e]; cbn [emitted outcome].
  - rewrite Hrest, app_nil_r. now split.
  - split; [exact Hg|discriminate].
Qed.

(** X18. Chassis sensors, both variants, for an item of the section whose
    status is absent: the check yields no Result and does not end
    normally; the status is compared with 0 (and 255) and then used in a bit
    operation, or the table lookup fails before that. *)
Theorem chassis_absent_status_no_result (item : string)
  (section : dict string InfortrendChassisSensorSection)
  (sensor_data : InfortrendChassisSensorSection) :
  get String.eqb section item = Some sensor_data ->
  sensor_status sensor_data = Empty ->
  results (ChassisA.check_infortrend_chassis_sensors_a item section) = []
  /\ outcome (ChassisA.check_infortrend_chassis_sensors_a item section)
     <> Ok tt
  /\ results (ChassisB.check_infortrend_chassis_sensors_b item section) = []
  /\ outcome (ChassisB.check_infortrend_chassis_sensors_b item section)
     <> Ok tt.
Proof.
  intros Hitem Hstatus.
  unfold ChassisA.check_infortrend_chassis_sensors_a,
    ChassisB.check_infortrend_chassis_sensors_b.
  rewrite Hitem.
  assert (Ha : results (bind (ChassisA.submit_metrics sensor_data)
                          (fun _ => ChassisA.submit_check_results sensor_data))
               = []
               /\ outcome (bind (ChassisA.submit_metrics sensor_data)
                             (fun _ =>
                                ChassisA.submit_check_results sensor_data))
                  <> Ok tt).
  { apply results_bind_raise;
      [apply chassis_a_submit_metrics_results| |];
      destruct (chassis_a_absent_status sensor_data Hstatus) as [-> | ->];
      try reflexivity; discriminate. }
  assert (Hb : results (bind (ChassisB.submit_metrics sensor_data)
                          (fun _ => ChassisB.submit_check_results sensor_data))
               = []
               /\ outcome (bind (ChassisB.submit_metrics sensor_data)
                             (fun _ =>
                                ChassisB.submit_check_results sensor_data))
                  <> Ok tt).
  { apply results_bind_raise;
      [apply chassis_b_submit_metrics_results| |];
      destruct (chassis_b_absent_status sensor_data Hstatus) as [-> | ->];
      try reflexivity; discriminate. }
  tauto.
Qed.

Lemma chassis_absent_status_no_result_witness :
  results (ChassisA.check_infortrend_chassis_sensors_a "CPU Temp"
             [("CPU Temp", {| sensor_status := Empty; sensor_type := Int 3;
                              metric_value_raw := Int 250;
                              metric_unit_raw := "C" |})]) = []
  /\ outcome (ChassisA.check_infortrend_chassis_sensors_a "CPU Temp"
                [("CPU Temp", {| sensor_status := Empty; sensor_type := Int 3;
                                 metric_value_raw := Int 250;
                                 metric_unit_raw := "C" |})])
     <> Ok tt
  /\ results (ChassisB.check_infortrend_chassis_sensors_b "CPU Temp"
                [("CPU Temp", {| sensor_status := Empty; sensor_type := Int 3;
                                 metric_value_raw := Int 250;
                                 metric_unit_raw := "C" |})]) = []
  /\ outcome (ChassisB.check_infortrend_chassis_sensors_b "CPU Temp"
                [("CPU Temp", {| sensor_status := Empty; sensor_type := Int 3;
                                 metric_value_raw := Int 250;
                                 metric_unit_raw := "C" |})])
     <> Ok tt.
Proof.
  apply (chassis_absent_status_no_result "CPU Temp"
           [("CPU Temp", {| sensor_status := Empty; sensor_type := Int 3;
                            metric_value_raw := Int 250;
                            metric_unit_raw := "C" |})]
           {| sensor_status := Empty; sensor_type := Int 3;
              metric_value_raw := Int 250; metric_unit_raw := "C" |});
    reflexivity.
Defined.

(** ** From the table to the check *)

Lemma logical_drives_a_check_record (item : string)
  (section : dict string LogicalDrivesA.InfortrendLogicalDriveSection)
  (ld : LogicalDrivesA.InfortrendLogicalDriveSection) :
  get String.eqb section item = Some ld ->
  LogicalDrivesA.check_infortrend_logical_drives_a item section
  = LogicalDrivesA.check_infortrend_logical_drives_a item [(item, ld)].
Proof.
  intros Hitem. unfold LogicalDrivesA.check_infortrend_logical_drives_a.
  rewrite Hitem. cbn [get]. now rewrite String.eqb_refl.
Qed.

Lemma logical_drives_b_check_record (item : string)
  (section : dict string LogicalDrivesB.InfortrendLogicalDriveSection)
  (ld : LogicalDrivesB.InfortrendLogicalDriveSection) :
  get String.eqb section item = Some ld ->
  LogicalDrivesB.check_infortrend_logical_drives_b item section
  = LogicalDrivesB.check_infortrend_logical_drives_b item [(item, ld)].
Proof.
  intros Hitem. unfold LogicalDrivesB.check_infortrend_logical_drives_b.
  rewrite Hitem. cbn [get]. now rewrite String.eqb_refl.
Qed.

(** X19. Parsing a logical-drive table, of rows with their two fields, and
    checking an item against the result: the check sees the status of the
    first row whose slot is the item, and no later row changes it; when no
    row has that slot it yields the one UNKNOWN Result "cannot parse: None"
    and ends normally. *)
Theorem check_parsed_logical_drives (int : string -> option Z)
  (table : list (list string)) (item : string) :
  forallb (fun line => (2 <=? List.length line)%nat) table = true ->
  exists parsed_a parsed_b,
    LogicalDrivesA.parse_infortrend_logical_drives_a int table = Ok parsed_a
    /\ LogicalDrivesB.parse_infortrend_logical_drives_b int table
       = Ok parsed_b
    /\ LogicalDrivesA.check_infortrend_logical_drives_a item parsed_a
       = match Rows.first_row 0 item table with
         | Some line =>
             LogicalDrivesA.check_infortrend_logical_drives_a item
               [(item, {| LogicalDrivesA.sensor_state :=
                            saveint int (Rows.field 1 line) |})]
         | None => Gen [Result UNKNOWN "cannot parse: None"] (Ok tt)
         end
    /\ LogicalDrivesB.check_infortrend_logical_drives_b item parsed_b
       = match Rows.first_row 0 item table with
         | Some line =>
             LogicalDrivesB.check_infortrend_logical_drives_b item
               [(item, {| LogicalDrivesB.sensor_state :=
                            saveint int (Rows.field 1 line) |})]
         | None => Gen [Result UNKNOWN "cannot parse: None"] (Ok tt)
         end.
Proof.
  intros Hwide. pose proof (rows_wide_enough 2 table Hwide) as Hlen.
  eexists. eexists.
  split.
  { unfold LogicalDrivesA.parse_infortrend_logical_drives_a.
    apply for_each_setdefault. intros line parsed Hin.
    apply logical_drives_a_parse_line. now apply Hlen. }
  split.
  { unfold LogicalDrivesB.parse_infortrend_logical_drives_b.
    apply for_each_setdefault. intros line parsed Hin.
    apply logical_drives_b_parse_line. now apply Hlen. }
  split.
  - match goal with
    | |- LogicalDrivesA.check_infortrend_logical_drives_a item ?d = _ =>
        pose proof (get_first_wins
                      (map (fun line =>
                              (Rows.field 0 line,
                               {| LogicalDrivesA.sensor_state :=
                                    saveint int (Rows.field 1 line) |}))
                           table) [] item) as Hget
    end.
    cbn [get] in Hget. rewrite get_rows in Hget.
    fold (Rows.first_row 0 item table) in Hget.
    destruct (Rows.first_row 0 item table) as [line|].
    + now apply logical_drives_a_check_record.
    + unfold LogicalDrivesA.check_infortrend_logical_drives_a.
      now rewrite Hget.
  - match goal with
    | |- LogicalDrivesB.check_infortrend_logical_drives_b item ?d = _ =>
        pose proof (get_first_wins
                      (map (fun line =>
                              (Rows.field 0 line,
                               {| LogicalDrivesB.sensor_state :=
                                    saveint int (Rows.field 1 line) |}))
                           table) [] item) as Hget
    end.
    cbn [get] in Hget. rewrite get_rows in Hget.
    fold (Rows.first_row 0 item table) in Hget.
    destruct (Rows.first_row 0 item table) as [line|].
    + now apply logical_drives_b_check_record.
    + unfold LogicalDrivesB.check_infortrend_logical_drives_b.
      now rewrite Hget.
Qed.

Lemma check_parsed_logical_drives_witness :
  exists parsed_a parsed_b,
    LogicalDrivesA.parse_infortrend_logical_drives_a int_of_decimal
      [["0"; "3"]; ["0"; "0"]] = Ok parsed_a
    /\ LogicalDrivesB.parse_infortrend_logical_drives_b int_of_decimal
         [["0"; "3"]; ["0"; "0"]] = Ok parsed_b
    /\ LogicalDrivesA.check_infortrend_logical_drives_a "0" parsed_a
       = Gen [Result CRIT " Degraded"] (Ok tt)
    /\ LogicalDrivesB.check_infortrend_logical_drives_b "0" parsed_b
       = Gen [Result CRIT "Degraded"] (Ok tt).
Proof.
  apply (check_parsed_logical_drives int_of_decimal
           [["0"; "3"]; ["0"; "0"]] "0").
  reflexivity.
Defined.

(** ** Runs of the general facts *)

Lemma chassis_b_enum_total_witness :
  outcome (ChassisB.check_infortrend_chassis_sensors_b "Drawer"
             [("Drawer", {| sensor_status := Int 65; sensor_type := Int 18;
                            metric_value_raw := Empty;
                            metric_unit_raw := "" |})]) = Ok tt
  /\ results (ChassisB.check_infortrend_chassis_sensors_b "Drawer"
                [("Drawer", {| sensor_status := Int 65; sensor_type := Int 18;
                               metric_value_raw := Empty;
                               metric_unit_raw := "" |})]) <> [].
Proof.
  apply (chassis_b_enum_total "Drawer"
           [("Drawer", {| sensor_status := Int 65; sensor_type := Int 18;
                          metric_value_raw := Empty; metric_unit_raw := "" |})]
           {| sensor_status := Int 65; sensor_type := Int 18;
              metric_value_raw := Empty; metric_unit_raw := "" |}
           18 65); try reflexivity.
  cbn. tauto.
Defined.

Lemma logical_drives_a_unknown_code_witness :
  LogicalDrivesA.check_infortrend_logical_drives_a "0"
    [("0", {| LogicalDrivesA.sensor_state := Int 200 |})]
  = Gen [] (Raise KeyError).
Proof.
  apply (logical_drives_a_unknown_code "0"
           [("0", {| LogicalDrivesA.sensor_state := Int 200 |})]
           {| LogicalDrivesA.sensor_state := Int 200 |} 200); reflexivity.
Defined.

Lemma logical_drives_b_unknown_code_witness :
  LogicalDrivesB.check_infortrend_logical_drives_b "0"
    [("0", {| LogicalDrivesB.sensor_state := Int 200 |})]
  = Gen [Result UNKNOWN "Status is 72"] (Raise KeyError).
Proof.
  apply (logical_drives_b_unknown_code "0"
           [("0", {| LogicalDrivesB.sensor_state := Int 200 |})]
           {| LogicalDrivesB.sensor_state := Int 200 |} 200); reflexivity.
Defined.

Lemma logical_drives_absent_status_witness :
  LogicalDrivesA.check_infortrend_logical_drives_a "0"
    [("0", {| LogicalDrivesA.sensor_state := Empty |})]
  = Gen [] (Raise TypeError)
  /\ LogicalDrivesB.check_infortrend_logical_drives_b "0"
       [("0", {| LogicalDrivesB.sensor_state := Empty |})]
     = Gen [] (Raise TypeError).
Proof.
  apply (logical_drives_absent_status "0"
           [("0", {| LogicalDrivesA.sensor_state := Empty |})]
           {| LogicalDrivesA.sensor_state := Empty |}
           [("0", {| LogicalDrivesB.sensor_state := Empty |})]
           {| LogicalDrivesB.sensor_state := Empty |}); reflexivity.
Defined.

(** ** What the chassis checks never yield *)

Lemma results_bind (g : CheckResult) (k : unit -> CheckResult) :
  results (bind g k)
  = (results g ++ match outcome g with
                  | Ok a => results (k a)
                  | Raise _ => []
                  end)%list.
Proof.
  unfold bind, results. destruct (outcome g); cbn [emitted].
  - apply flat_map_app.
  - now rewrite app_nil_r.
Qed.

Lemma results_bind_lift {A : Type} (c : py A) (k : A -> CheckResult) :
  results (bind (lift c) k)
  = match c with
    | Ok a => results (k a)
    | Raise _ => []
    end.
Proof. now destruct c. Qed.

(** The block of variant A yields at most one Result, OK or CRIT. *)
Lemma chassis_a_block_results (sensor_data : InfortrendChassisSensorSection) :
  results (ChassisA.submit_check_results sensor_data) = []
  \/ exists st txt,
       results (ChassisA.submit_check_results sensor_data) = [(st, txt)]
       /\ (st = OK \/ st = CRIT).
Proof.
  unfold ChassisA.submit_check_results.
  destruct (eq_int _ _); rewrite results_bind_lift.
  - destruct (ChassisA.bit_text _ _ _) as [text|]; [|now left].
    right. exists OK, text. split; [reflexivity|now left].
  - destruct (ChassisA.type_bits _) as [b|]; [|now left].
    rewrite results_bind_lift.
    destruct (for_each (keys b) (ChassisA.bit_verdict sensor_data) (OK, ""))
      as [[st txt]|] eqn:Hloop; [|now left].
    right. exists st, txt. split; [reflexivity|].
    assert (Hinv : forall ks start st' txt',
               (fst start = OK \/ fst start = CRIT) ->
               for_each ks (ChassisA.bit_verdict sensor_data) start
               = Ok (st', txt') ->
               st' = OK \/ st' = CRIT).
    { induction ks as [|bit ks IH]; intros start st' txt' Hstart.
      - simpl. intros [= ->]. exact Hstart.
      - simpl. destruct (ChassisA.bit_verdict sensor_data bit start)
          as [next|] eqn:Hbody; [|discriminate].
        cbn [py_bind]. apply IH.
        unfold ChassisA.bit_verdict in Hbody.
        destruct (and_ _ _) as [masked|]; [|discriminate].
        cbn [py_bind] in Hbody.
        destruct (negb _ && _);
          destruct (ChassisA.bit_text _ _ _); try discriminate;
          injection Hbody as <-; [now right|now left]. }
    exact (Hinv (keys b) (OK, ""%string) st txt (or_introl eq_refl) Hloop).
Qed.

(** The loop body of variant B yields at most one Result, OK or CRIT. *)
Lemma chassis_b_bit_result_states
  (sensor_data : InfortrendChassisSensorSection) (bit : Z) (st : State)
  (txt : string) :
  In (st, txt) (results (ChassisB.bit_result sensor_data bit)) ->
  st = OK \/ st = CRIT.
Proof.
  unfold ChassisB.bit_result. rewrite results_bind_lift.
  destruct (and_ _ _) as [masked|]; [|intros []].
  rewrite results_bind_lift.
  assert (Hover : forall verdict,
             fst (ChassisB.override_64 sensor_data verdict) = OK
             \/ fst (ChassisB.override_64 sensor_data verdict) = CRIT
             \/ ChassisB.override_64 sensor_data verdict = verdict).
  { intros verdict. unfold ChassisB.override_64.
    destruct (eq_int _ 64); [|tauto].
    destruct (eq_int _ _); cbn [fst]; tauto. }
  destruct (negb _);
    destruct (ChassisB.bit_text _ _ _) as [text|];
    cbn [py_bind]; intros Hin; try contradiction;
    destruct Hin as [Heq|[]]; injection Heq as <- _;
    match goal with
    | |- fst (ChassisB.override_64 _ ?v) = _ \/ _ =>
        destruct (Hover v) as [H|[H|H]];
          [now left|now right|rewrite H; cbn [fst]; tauto]
    end.
Qed.

Lemma chassis_b_block_states (sensor_data : InfortrendChassisSensorSection)
  (st : State) (txt : string) :
  In (st, txt) (results (ChassisB.submit_check_results sensor_data)) ->
  st <> WARN.
Proof.
  unfold ChassisB.submit_check_results.
  destruct (eq_int _ 0).
  - rewrite results_bind_lift.
    destruct (ChassisB.bit_text _ _ _); [|intros []].
    intros [[= <- _]|[]]. discriminate.
  - destruct (eq_int _ 255).
    + intros [[= <- _]|[]]. discriminate.
    + rewrite results_bind_lift.
      destruct (ChassisB.type_bits _) as [b|]; [|intros []].
      induction (keys b) as [|bit rest IH]; [intros []|].
      cbn [for_yield]. rewrite results_bind. intros Hin.
      apply in_app_or in Hin as [Hin|Hin].
      * destruct (chassis_b_bit_result_states _ _ _ _ Hin) as [-> | ->];
          discriminate.
      * destruct (outcome _); [now apply IH|contradiction].
Qed.

(** X24. No chassis check ever yields WARN: whatever the item and the
    section, every Result of variant A and of variant B is OK, CRIT or
    UNKNOWN.  The warning tiers of the additional information in the status
    tables are never consulted. *)
Theorem chassis_checks_never_warn (item : string)
  (section : dict string InfortrendChassisSensorSection) (txt : string) :
  ~ In (WARN, txt)
      (results (ChassisA.check_infortrend_chassis_sensors_a item section))
  /\ ~ In (WARN, txt)
         (results (ChassisB.check_infortrend_chassis_sensors_b item section)).
Proof.
  unfold ChassisA.check_infortrend_chassis_sensors_a,
    ChassisB.check_infortrend_chassis_sensors_b.
  destruct (get String.eqb section item) as [sensor_data|].
  - rewrite !results_bind, chassis_a_submit_metrics_results,
      chassis_b_submit_metrics_results. cbn [app]. split.
    + destruct (outcome _); [|intros []].
      destruct (chassis_a_block_results sensor_data)
        as [-> |(st & t & -> & Hst)]; [intros []|].
      intros [Heq|[]]. injection Heq as Hwarn _. subst st.
      destruct Hst; discriminate.
    + destruct (outcome _); [|intros []].
      intros Hin. now apply (chassis_b_block_states _ _ _ Hin).
  - split; (intros [Heq|[]]; discriminate Heq).
Qed.

(** X25. The chassis check of variant A yields at most one metric and at
    most one Result, whatever the item and the section, also when it
    raises; the metric comes before the Result. *)
Theorem chassis_a_at_most_one_result (item : string)
  (section : dict string InfortrendChassisSensorSection) :
  (List.length
     (metrics (ChassisA.check_infortrend_chassis_sensors_a item section))
   <= 1)%nat
  /\ (List.length
        (results (ChassisA.check_infortrend_chassis_sensors_a item section))
      <= 1)%nat
  /\ exists ms rs,
       emitted (ChassisA.check_infortrend_chassis_sensors_a item section)
       = (map (fun m => Metric (fst m) (snd m)) ms
          ++ map (fun r => Result (fst r) (snd r)) rs)%list.
Proof.
  unfold ChassisA.check_infortrend_chassis_sensors_a.
  destruct (get String.eqb section item) as [sensor_data|].
  - assert (Hm : emitted (ChassisA.submit_metrics sensor_data) = []
                 \/ exists n v,
                      emitted (ChassisA.submit_metrics sensor_data)
                      = [Metric n v]).
    { unfold ChassisA.submit_metrics.
      destruct (contains_int _ _); [|now left].
      destruct (getitem_int _ _) as [info|]; [|now left].
      unfold bind, lift; cbn [outcome emitted].
      destruct (truediv _ _) as [value|]; [|now left].
      right. now exists (name info), value. }
    assert (Hr : emitted (ChassisA.submit_check_results sensor_data) = []
                 \/ exists st t,
                      emitted (ChassisA.submit_check_results sensor_data)
                      = [Result st t]).
    { unfold ChassisA.submit_check_results.
      destruct (eq_int _ _); unfold bind, lift; cbn [outcome emitted].
      - destruct (ChassisA.bit_text _ _ _) as [text|]; [|now left].
        right. now exists OK, text.
      - destruct (ChassisA.type_bits _) as [b|]; [|now left].
        cbn [outcome emitted app].
        destruct (for_each _ _ _) as [[st t]|]; [|now left].
        right. now exists st, t. }
    unfold metrics, results, bind.
    destruct (outcome (ChassisA.submit_metrics sensor_data));
      cbn [emitted];
      destruct Hm as [-> |(n & v & ->)];
      try destruct Hr as [-> |(st & t & ->)];
      cbn [app flat_map List.length];
      (split; [lia|split; [lia|]]).
    + now exists [], [].
    + now exists [], [(st, t)].
    + now exists [(n, v)], [].
    + now exists [(n, v)], [(st, t)].
    + now exists [], [].
    + now exists [(n, v)], [].
  - cbn. split; [lia|split; [lia|]].
    now exists [], [(UNKNOWN, "cannot parse: None"%string)].
Qed.
